(** * omni_python_sdk/api.py: the Omni API client

    A shallow embedding of [OmniAPI] (src/omni_python_sdk/api.py): the
    blocking query path ([run_query_blocking], [wait_query_blocking]), the
    [create_*] helpers that write into the caller's body dictionary, and
    [listify].

    Python values that travel through the client are JSON values; dictionaries
    keep their insertion order; the remote service is a script of replies that
    the calls of [requests] consume one by one, and every request issued is
    appended to a log. *)

From Stdlib Require Import ZArith NArith String Ascii List Lia DecimalString.
From stdpp Require Import base option list strings gmap.

Set Warnings "-register-all".

Local Open Scope string_scope.
Local Open Scope list_scope.
Local Open Scope Z_scope.

(** ** Python values *)

(** What [json.loads] and [ndjson.loads] produce: [None], [bool], [int],
    [str], [list] and [dict] (an insertion-ordered dictionary with string
    keys). The client never looks inside a number. *)
Inductive json :=
| JNull
| JBool (b : bool)
| JNum (n : Z)
| JStr (s : string)
| JArr (items : list json)
| JObj (fields : list (string * json)).

(** A Python [dict] with string keys: its items in insertion order. *)
Definition dict := list (string * json).

(** [d.get(k)] as an option: the value stored under [k]. *)
Fixpoint dict_get (k : string) (d : dict) : option json :=
  match d with
  | [] => None
  | (k', v) :: d' => if String.eqb k k' then Some v else dict_get k d'
  end.

(** [k in d]. *)
Definition dict_has (k : string) (d : dict) : bool :=
  match dict_get k d with Some _ => true | None => false end.

(** [d[k] = v]: an existing key keeps its position and gets the new value, a
    new key is appended. *)
Fixpoint dict_set (k : string) (v : json) (d : dict) : dict :=
  match d with
  | [] => [(k, v)]
  | (k', v') :: d' =>
      if String.eqb k k' then (k', v) :: d' else (k', v') :: dict_set k v d'
  end.

(** [d.keys()]. *)
Definition dict_keys (d : dict) : list string := map fst d.

(** ** Exceptions and results *)

Inductive exn :=
| HTTPError (status : Z)          (* requests.exceptions.HTTPError *)
| ConnectionError                 (* requests.exceptions.ConnectionError *)
| JSONDecodeError
| IndexError
| KeyError (key : string)
| TypeError
| AttributeError
| ValueError (msg : string)
| binascii_Error                  (* a subclass of ValueError *)
| ArrowInvalid.                   (* pyarrow.lib.ArrowInvalid *)

(** The result of a computation without side effects. *)
Inductive result (A : Type) :=
| Ok (a : A)
| Err (e : exn).
Arguments Ok {A} a.
Arguments Err {A} e.

Definition result_bind {A B} (r : result A) (k : A → result B) : result B :=
  match r with Ok a => k a | Err e => Err e end.

Declare Scope py_scope.
Delimit Scope py_scope with py.
Notation "'let?' x := r 'in' k" := (result_bind r (fun x => k))
  (at level 10, x pattern, r at level 100, k at level 200) : py_scope.

(** ** Operations of the Python data model used by the client *)

(** [v == s] for a [str] literal [s]: only an equal [str] compares equal. *)
Definition py_eq_str (v : json) (s : string) : bool :=
  match v with
  | JStr s' => String.eqb s' s
  | _ => false
  end.

(** [l[-1]] on a list. *)
Definition py_last (l : list json) : result json :=
  match last l with
  | Some x => Ok x
  | None => Err IndexError
  end.

(** [v[k]] with a [str] key [k]. *)
Definition py_getitem (v : json) (k : string) : result json :=
  match v with
  | JObj d =>
      match dict_get k d with
      | Some x => Ok x
      | None => Err (KeyError k)
      end
  | _ => Err TypeError
  end.

(** [needle in s] on two strings: [needle] occurs in [s]. *)
Fixpoint str_contains (needle s : string) : bool :=
  String.prefix needle s ||
  match s with
  | EmptyString => false
  | String _ s' => str_contains needle s'
  end.

(** [needle in v] with a [str] needle: key test on a dict, substring test on
    a str, element test on a list; the other values are not containers. *)
Definition py_in_str (needle : string) (v : json) : result bool :=
  match v with
  | JObj d => Ok (dict_has needle d)
  | JStr s => Ok (str_contains needle s)
  | JArr l => Ok (existsb (fun x => py_eq_str x needle) l)
  | _ => Err TypeError
  end.

(** [next((x for x in l if needle in x), None)]. *)
Fixpoint py_next_containing (needle : string) (l : list json)
  : result (option json) :=
  match l with
  | [] => Ok None
  | x :: l' =>
      (let? b := py_in_str needle x in
       if b then Ok (Some x) else py_next_containing needle l')%py
  end.

(** [a, b = v] where [v] is a 2-tuple or [None]. *)
Definition py_unpack2 {A B} (v : option (A * B)) : result (A * B) :=
  match v with
  | Some p => Ok p
  | None => Err TypeError
  end.

(** [s.replace(c, '')] for a one-character [c]. *)
Fixpoint str_remove (c : ascii) (s : string) : string :=
  match s with
  | EmptyString => EmptyString
  | String a s' =>
      if Ascii.eqb a c then str_remove c s' else String a (str_remove c s')
  end.

(** [s.split(sep)] for a one-character [sep]. *)
Fixpoint str_split (sep : ascii) (s : string) : list string :=
  match s with
  | EmptyString => [EmptyString]
  | String a s' =>
      if Ascii.eqb a sep then EmptyString :: str_split sep s'
      else match str_split sep s' with
           | [] => [String a EmptyString]
           | w :: ws => String a w :: ws
           end
  end.

(** ** The world: the store of dictionaries and the network *)

(** A reference to a dictionary object of the caller. *)
Definition loc := positive.

(** The response object of [requests]. Its text is read only through
    [ndjson.loads(response.text)] and [response.json()], so it is kept as
    what these two return. *)
Record response := {
  status_code : Z;
  text_ndjson : result (list json);   (* ndjson.loads(response.text) *)
  text_json : result json             (* response.json() *)
}.

(** What the network has for one call of [requests]: a response, or a
    transport failure raised by [requests] itself. *)
Inductive reply :=
| Answer (r : response)
| Broken (e : exn).

(** A call of [requests]. The query string of a GET is kept as the parameter
    names and the values whose [json.dumps] text is URL-encoded into it. *)
Inductive request :=
| POST (url : string) (hdrs : list (string * string)) (body : json)
| GET (url : string) (query : list (string * json))
      (hdrs : list (string * string)).

Record world := {
  store : gmap loc dict;      (* the dictionaries the caller holds *)
  inbox : list reply;         (* what the service will answer, in order *)
  sent : list request         (* the requests issued so far, oldest first *)
}.

(** How a call ends: it returns, raises, waits for a reply the script does
    not contain, or has used up the iterations granted to its loop. *)
Inductive outcome (A : Type) :=
| Return (a : A)
| Raise (e : exn)
| Blocked
| OutOfFuel.
Arguments Return {A} a.
Arguments Raise {A} e.
Arguments Blocked {A}.
Arguments OutOfFuel {A}.

Definition M (A : Type) : Type := world → outcome A * world.

Definition ret {A} (a : A) : M A := fun w => (Return a, w).

Definition raise {A} (e : exn) : M A := fun w => (Raise e, w).

Definition bind {A B} (m : M A) (k : A → M B) : M B :=
  fun w =>
    match m w with
    | (Return a, w') => k a w'
    | (Raise e, w') => (Raise e, w')
    | (Blocked, w') => (Blocked, w')
    | (OutOfFuel, w') => (OutOfFuel, w')
    end.

Definition lift {A} (r : result A) : M A :=
  match r with Ok a => ret a | Err e => raise e end.

Notation "'do' x <- m ;; k" := (bind m (fun x => k))
  (at level 10, x pattern, m at level 99, k at level 200) : py_scope.

(** The dictionary a reference designates. *)
Definition deref (w : world) (l : loc) : dict := default [] (store w !! l).

(** [body[k] = v] on the dictionary object [body]. *)
Definition setitem (body : loc) (k : string) (v : json) : M unit :=
  fun w =>
    (Return tt,
     {| store := <[body := dict_set k v (deref w body)]> (store w);
        inbox := inbox w;
        sent := sent w |}).

(** One call of [requests]: the request goes out, the next reply of the
    script comes back. *)
Definition exchange (req : request) : M response :=
  fun w =>
    let log := sent w ++ [req] in
    match inbox w with
    | [] => (Blocked, {| store := store w; inbox := []; sent := log |})
    | Answer r :: rest =>
        (Return r, {| store := store w; inbox := rest; sent := log |})
    | Broken e :: rest =>
        (Raise e, {| store := store w; inbox := rest; sent := log |})
    end.

(** [requests.post(url, headers=hdrs, json=body)]: the dictionary is
    serialised as it is at the time of the call. *)
Definition requests_post (url : string) (hdrs : list (string * string))
    (body : loc) : M response :=
  fun w => exchange (POST url hdrs (JObj (deref w body))) w.

(** [requests.get(f"{url}?{urlencode(query)}", headers=hdrs)]. *)
Definition requests_get (url : string) (query : list (string * json))
    (hdrs : list (string * string)) : M response :=
  exchange (GET url query hdrs).

(** [response.raise_for_status()]: HTTPError for 4xx and 5xx, nothing
    otherwise. *)
Definition raise_for_status (r : response) : result unit :=
  if (400 <=? status_code r) && (status_code r <? 600)
  then Err (HTTPError (status_code r))
  else Ok tt.

(** ** The libraries behind the result payload *)

(** [base64] and [pyarrow.ipc], which the client calls and does not
    implement. [b64encode] and [ipc_write] are the producer's side. *)
Class Libraries := {
  Table : Type;                                  (* pa.Table *)
  num_columns : Table → nat;                     (* table.num_columns *)
  b64decode : string → result (list Byte.byte);  (* base64.b64decode(str) *)
  b64encode : list Byte.byte → string;           (* base64.b64encode(b).decode() *)
  ipc_read_all : list Byte.byte → result Table;  (* ipc.open_stream(BytesIO(b)).read_all() *)
  ipc_write : Table → list Byte.byte             (* a stream writer's output *)
}.

(** [base64.b64decode(v)]: a [str] goes to the decoder, the other JSON
    values are rejected. *)
Definition py_b64decode `{Libraries} (v : json) : result (list Byte.byte) :=
  match v with
  | JStr s => b64decode s
  | _ => Err TypeError
  end.

(** ** The client *)

Record OmniAPI := {
  api_key : string;
  base_url : string;
  headers : list (string * string)
}.

(** [OmniAPI.__init__]. *)
Definition init (api_key base_url : string) : OmniAPI :=
  {| api_key := api_key;
     base_url := base_url;
     headers := [("Authorization", "Bearer " +:+ api_key);
                 ("Content-Type", "application/json")] |}.

Definition default_base_url : string :=
  "https://dev.thundersalmon.com/api/unstable".

(** [wait_query_blocking]: [Some (response_json, done)] is the tuple it
    returns, [None] is Python's [None], returned when the function ends
    without a [return]. *)
Definition wait_query_blocking (self : OmniAPI) (remaining_job_ids : json)
  : M (option (list json * bool)) :=
  (let url := base_url self +:+ "/query/wait" in
   do response <- requests_get url [("job_ids", remaining_job_ids)]
                    (headers self) ;;
   if status_code response =? 200 then
     do response_json <- lift (text_ndjson response) ;;
     do footer <- lift (py_last response_json) ;;
     do timed_out <- lift (py_getitem footer "timed_out") ;;
     let done := py_eq_str timed_out "false" in
     ret (Some (response_json, done))
   else
     do _ <- lift (raise_for_status response) ;;
     ret None)%py.

(** The loop [while not done: response_json, done =
    self.wait_query_blocking(footer['remaining_job_ids'])] of
    [run_query_blocking]. The loop assigns [response_json] and [done];
    [footer] is the variable bound before the loop. *)
Fixpoint poll (fuel : nat) (self : OmniAPI) (footer : json)
    (response_json : list json) (done : bool) : M (list json) :=
  if done then ret response_json
  else
    match fuel with
    | O => fun w => (OutOfFuel, w)
    | S fuel' =>
        (do remaining_job_ids <- lift (py_getitem footer "remaining_job_ids") ;;
         do r <- wait_query_blocking self remaining_job_ids ;;
         do p <- lift (py_unpack2 r) ;;
         poll fuel' self footer (fst p) (snd p))%py
    end.

(** The part of [run_query_blocking] after the loop: find the record with a
    ["result"], decode it, return the table and the field descriptors. *)
Definition decode_result `{Libraries} (response_json : list json)
  : result (Table * json) :=
  (let? data_payload := py_next_containing "result" response_json in
   match data_payload with
   | Some data_payload =>
       let? base64_data := py_getitem data_payload "result" in
       let? raw_arrow_data := py_b64decode base64_data in
       let? table := ipc_read_all raw_arrow_data in
       let? summary := py_getitem data_payload "summary" in
       let? fields := py_getitem summary "fields" in
       Ok (table, fields)
   | None => Err (ValueError "No result found in the response.")
   end)%py.

(** [run_query_blocking]; [fuel] bounds the iterations of its loop. *)
Definition run_query_blocking `{Libraries} (fuel : nat) (self : OmniAPI)
    (body : loc) : M (option (Table * json)) :=
  (let url := base_url self +:+ "/query/run" in
   do response <- requests_post url (headers self) body ;;
   if status_code response =? 200 then
     do response_json <- lift (text_ndjson response) ;;
     do footer <- lift (py_last response_json) ;;
     do timed_out <- lift (py_getitem footer "timed_out") ;;
     let done := py_eq_str timed_out "false" in
     do response_json <- poll fuel self footer response_json done ;;
     do r <- lift (decode_result response_json) ;;
     ret (Some r)
   else
     do _ <- lift (raise_for_status response) ;;
     ret None)%py.

Definition base_model_url (self : OmniAPI) : string :=
  base_url self +:+ "/model".

Definition base_topic_url (self : OmniAPI) (model_id : string) : string :=
  base_model_url self +:+ "/" +:+ model_id +:+ "/topic".

Definition base_view_url (self : OmniAPI) (model_id : string) : string :=
  base_model_url self +:+ "/" +:+ model_id +:+ "/view".

Definition base_field_url (self : OmniAPI) (model_id : string) : string :=
  base_view_url self model_id +:+ "/field".

Definition create_model (self : OmniAPI) (connection_id : string)
    (body : loc) : M json :=
  (let url := base_model_url self in
   do _ <- setitem body "connectionId" (JStr connection_id) ;;
   do response <- requests_post url (headers self) body ;;
   lift (text_json response))%py.

Definition create_topic (self : OmniAPI) (model_id base_view_name : string)
    (body : loc) : M json :=
  (let url := base_topic_url self model_id in
   do _ <- setitem body "baseViewName" (JStr base_view_name) ;;
   do response <- requests_post url (headers self) body ;;
   lift (text_json response))%py.

Definition create_view (self : OmniAPI) (model_id view_name : string)
    (body : loc) : M json :=
  (let url := base_view_url self model_id in
   do _ <- setitem body "viewName" (JStr view_name) ;;
   do response <- requests_post url (headers self) body ;;
   lift (text_json response))%py.

Definition create_field (self : OmniAPI)
    (model_id view_name field_name : string) (body : loc) : M json :=
  (let url := base_field_url self model_id in
   do _ <- setitem body "fieldName" (JStr field_name) ;;
   do _ <- setitem body "viewName" (JStr view_name) ;;
   do response <- requests_post url (headers self) body ;;
   lift (text_json response))%py.

(** The value [listify] stores for [v]. [v.replace] exists on a [str] only. *)
Definition listify_value (v : json) : result json :=
  (let? has_open := py_in_str "[" v in
   let? both := (if has_open then py_in_str "]" v else Ok false) in
   if both then
     match v with
     | JStr s =>
         Ok (JArr (map JStr
                     (str_split "," (str_remove "]" (str_remove "[" s)))))
     | _ => Err AttributeError
     end
   else Ok v)%py.

(** The loop of [listify] over [d.items()], updating [out]. *)
Fixpoint listify_loop (items : list (string * json)) (out : dict)
  : result dict :=
  match items with
  | [] => Ok out
  | (k, v) :: items' =>
      (let? v' := listify_value v in
       listify_loop items' (dict_set k v' out))%py
  end.

Definition listify (d : dict) : result dict := listify_loop d [].

(** ** An instance of the libraries

    [Base64] follows the base64 codec of the Python standard library in its
    default, non-validating mode. [MiniIPC] is a small self-describing
    columnar stream (named columns of bytes) standing in for the Arrow IPC
    stream format, which is not part of this repository. *)

Module Base64.

Local Open Scope N_scope.

Definition PAD : ascii := "="%char.

(** The 6-bit value of a character of the alphabet. *)
Definition a2b (c : ascii) : option N :=
  let n := N_of_ascii c in
  if (65 <=? n) && (n <=? 90) then Some (n - 65)              (* A-Z *)
  else if (97 <=? n) && (n <=? 122) then Some (n - 97 + 26)   (* a-z *)
  else if (48 <=? n) && (n <=? 57) then Some (n - 48 + 52)    (* 0-9 *)
  else if n =? 43 then Some 62                                (* + *)
  else if n =? 47 then Some 63                                (* / *)
  else None.

(** The character of a 6-bit value. *)
Definition b2a (v : N) : ascii :=
  if v <? 26 then ascii_of_N (v + 65)
  else if v <? 52 then ascii_of_N (v - 26 + 97)
  else if v <? 62 then ascii_of_N (v - 52 + 48)
  else if v =? 62 then "+"%char
  else "/"%char.

(** The low eight bits as a byte. *)
Definition to_byte (n : N) : Byte.byte :=
  default Byte.x00 (Byte.of_N (N.land n 255)).

Fixpoint encode (bs : list Byte.byte) : string :=
  match bs with
  | [] => EmptyString
  | [x] =>
      let a := Byte.to_N x in
      String (b2a (N.shiftr a 2))
        (String (b2a (N.shiftl (N.land a 3) 4)) (String PAD (String PAD EmptyString)))
  | [x; y] =>
      let a := Byte.to_N x in
      let b := Byte.to_N y in
      String (b2a (N.shiftr a 2))
        (String (b2a (N.lor (N.shiftl (N.land a 3) 4) (N.shiftr b 4)))
           (String (b2a (N.shiftl (N.land b 15) 2)) (String PAD EmptyString)))
  | x :: y :: z :: rest =>
      let a := Byte.to_N x in
      let b := Byte.to_N y in
      let c := Byte.to_N z in
      String (b2a (N.shiftr a 2))
        (String (b2a (N.lor (N.shiftl (N.land a 3) 4) (N.shiftr b 4)))
           (String (b2a (N.lor (N.shiftl (N.land b 15) 2) (N.shiftr c 6)))
              (String (b2a (N.land c 63)) (encode rest))))
  end.

(** The decoding loop: [quad_pos] is the position in the current group of
    four characters, [leftchar] the bits not yet written, [pads] the
    padding characters seen in a row, [out] the bytes written. Characters
    outside the alphabet are skipped; padding that completes a group ends
    the input. *)
Fixpoint decode_loop (s : string) (quad_pos : nat) (leftchar : N)
    (pads : nat) (out : list Byte.byte) : result (list Byte.byte) :=
  match s with
  | EmptyString =>
      match quad_pos with
      | O => Ok out
      | _ => Err binascii_Error
      end
  | String ch s' =>
      if Ascii.eqb ch PAD then
        if (2 <=? quad_pos)%nat then
          if (4 <=? quad_pos + S pads)%nat then Ok out
          else decode_loop s' quad_pos leftchar (S pads) out
        else decode_loop s' quad_pos leftchar pads out
      else
        match a2b ch with
        | None => decode_loop s' quad_pos leftchar pads out
        | Some this_ch =>
            match quad_pos with
            | 0%nat => decode_loop s' 1 this_ch 0 out
            | 1%nat =>
                decode_loop s' 2 (N.land this_ch 15) 0
                  (out ++ [to_byte (N.lor (N.shiftl leftchar 2)
                                          (N.shiftr this_ch 4))])
            | 2%nat =>
                decode_loop s' 3 (N.land this_ch 3) 0
                  (out ++ [to_byte (N.lor (N.shiftl leftchar 4)
                                          (N.shiftr this_ch 2))])
            | _ =>
                decode_loop s' 0 0 0
                  (out ++ [to_byte (N.lor (N.shiftl leftchar 6) this_ch)])
            end
        end
  end.

Fixpoint is_ascii (s : string) : bool :=
  match s with
  | EmptyString => true
  | String c s' => (N_of_ascii c <? 128) && is_ascii s'
  end.

(** [base64.b64decode(s)] for a [str]. *)
Definition decode (s : string) : result (list Byte.byte) :=
  if is_ascii s then decode_loop s 0 0 0 []
  else Err (ValueError "string argument should contain only ASCII characters").

End Base64.

Module MiniIPC.

(** A column: its name and its values. *)
Definition column : Type := string * list Byte.byte.
Definition table : Type := list column.

Definition byte_of_nat (n : nat) : Byte.byte :=
  default Byte.x00 (Byte.of_N (N.of_nat n mod 256)).

Definition nat_of_byte (b : Byte.byte) : nat := N.to_nat (Byte.to_N b).

(** A column on the wire: a length byte and the name, a length byte and the
    values. *)
Definition write_column (c : column) : list Byte.byte :=
  let name := list_byte_of_string (fst c) in
  byte_of_nat (length name) :: name
    ++ byte_of_nat (length (snd c)) :: snd c.

Definition write (t : table) : list Byte.byte :=
  concat (map write_column t).

Fixpoint read_loop (fuel : nat) (bs : list Byte.byte) (acc : table)
  : result table :=
  match bs with
  | [] => Ok acc
  | n :: bs1 =>
      match fuel with
      | O => Err ArrowInvalid
      | S fuel' =>
          let name := take (nat_of_byte n) bs1 in
          match drop (nat_of_byte n) bs1 with
          | [] => Err ArrowInvalid
          | m :: bs2 =>
              if (length name <? nat_of_byte n)%nat
                 || (length bs2 <? nat_of_byte m)%nat
              then Err ArrowInvalid
              else read_loop fuel' (drop (nat_of_byte m) bs2)
                     (acc ++ [(string_of_list_byte name,
                               take (nat_of_byte m) bs2)])
          end
      end
  end.

Definition read_all (bs : list Byte.byte) : result table :=
  read_loop (length bs) bs [].

(** A column whose name and values fit their length bytes. *)
Definition fits (c : column) : Prop :=
  (String.length (fst c) < 256)%nat ∧ (length (snd c) < 256)%nat.

End MiniIPC.

Definition demo_libraries : Libraries :=
  {| Table := MiniIPC.table;
     num_columns := fun t => length t;
     b64decode := Base64.decode;
     b64encode := Base64.encode;
     ipc_read_all := MiniIPC.read_all;
     ipc_write := MiniIPC.write |}.

(** ** Vocabulary of the statements *)

(** The records of a response, when its text is NDJSON. *)
Definition records (r : response) : list json :=
  match text_ndjson r with Ok l => l | Err _ => [] end.

(** The footer of a response: the last record of its text. *)
Definition footer_of (r : response) : option json :=
  match text_ndjson r with Ok l => last l | Err _ => None end.

(** A field of the footer, when the footer is an object that has it. *)
Definition footer_field (k : string) (r : response) : option json :=
  match footer_of r with
  | Some (JObj d) => dict_get k d
  | _ => None
  end.

(** The service reports completion: status 200 and a footer whose
    [timed_out] is the string ["false"]. *)
Definition complete (r : response) : Prop :=
  status_code r = 200 ∧ footer_field "timed_out" r = Some (JStr "false").

(** The service reports that the query is still running: status 200 and a
    footer whose [timed_out] is present and is not the string ["false"]. *)
Definition pending (r : response) : Prop :=
  status_code r = 200 ∧
  ∃ v, footer_field "timed_out" r = Some v ∧ v ≠ JStr "false".

(** The request [wait_query_blocking] issues for the job handles [ids]. *)
Definition wait_request (self : OmniAPI) (ids : json) : request :=
  GET (base_url self +:+ "/query/wait") [("job_ids", ids)] (headers self).

(** The request [run_query_blocking] issues first. *)
Definition run_request (self : OmniAPI) (body : dict) : request :=
  POST (base_url self +:+ "/query/run") (headers self) (JObj body).

Definition is_wait (q : request) : bool :=
  match q with GET _ _ _ => true | POST _ _ _ => false end.

(** The number of requests to the wait endpoint in a log. *)
Definition wait_count (log : list request) : nat :=
  length (filter (fun q => is_wait q = true) log).

(** A record is a JSON object. *)
Definition is_record (v : json) : bool :=
  match v with JObj _ => true | _ => false end.

(** A record that has the key [k]. *)
Definition has_key (k : string) (v : json) : bool :=
  match v with JObj d => dict_has k d | _ => false end.

(** The world once the requests [reqs] have gone out and [rest] of the script
    is still unread. *)
Definition after (w : world) (reqs : list request) (rest : list reply)
  : world :=
  {| store := store w; inbox := rest; sent := sent w ++ reqs |}.

(** The records the loop holds after the answers [rs], starting from [rj]. *)
Definition records_after (rj : list json) (rs : list response) : list json :=
  match last rs with Some r => records r | None => rj end.

(** The job handles the footer of a response carries. *)
Definition job_ids_of (r : response) : option json :=
  footer_field "remaining_job_ids" r.

(** A run of answers that keeps the client polling: all of them pending, the
    first one (the answer to the submission) with job handles in its
    footer. *)
Definition polled (rs : list response) : Prop :=
  Forall pending rs ∧
  match rs with
  | [] => True
  | r0 :: _ => is_Some (job_ids_of r0)
  end.

(** The job handles of the first answer of a run. *)
Definition first_job_ids (rs : list response) : json :=
  match rs with
  | r0 :: _ => default JNull (job_ids_of r0)
  | [] => JNull
  end.

(** The requests of a call that is answered by the run [rs] and then once
    more: the submission and one wait request for each answer of [rs]. *)
Definition requests_for (self : OmniAPI) (body : dict) (rs : list response)
  : list request :=
  run_request self body
    :: replicate (length rs) (wait_request self (first_job_ids rs)).

(** How [run_query_blocking] ends once the loop is over with the records
    [rj]. *)
Definition finish `{Libraries} (rj : list json) : M (option (Table * json)) :=
  (do r <- lift (decode_result rj) ;; ret (Some r))%py.

Definition decoded `{Libraries} (rj : list json)
  : outcome (option (Table * json)) :=
  match decode_result rj with
  | Ok x => Return (Some x)
  | Err e => Raise e
  end.

(** What a [create_*] call does to the world [w], up to the answer: the
    dictionary at [body] becomes [d'], nothing else in the store changes, and
    one POST to [url] goes out with [d']. *)
Definition wrote (self : OmniAPI) (body : loc) (w w' : world) (url : string)
    (d' : dict) : Prop :=
  store w' = <[body := d']> (store w) ∧
  deref w' body = d' ∧
  sent w' = sent w ++ [POST url (headers self) (JObj d')].

(** ** The value [listify] is documented to produce

    Written from the description of the conversion: a string with both
    brackets becomes the list of the comma-separated pieces of the string
    without its brackets. *)

Definition mem_char (c : ascii) (s : string) : bool :=
  bool_decide (c ∈ list_ascii_of_string s).

Definition without_brackets (s : string) : string :=
  string_of_list_ascii
    (filter (fun a => a ≠ "["%char ∧ a ≠ "]"%char) (list_ascii_of_string s)).

(** The pieces of [cs] between the occurrences of [sep]; [cur] is the piece
    being read, in reverse. *)
Fixpoint pieces (sep : ascii) (cs : list ascii) (cur : list ascii)
  : list string :=
  match cs with
  | [] => [string_of_list_ascii (rev cur)]
  | a :: cs' =>
      if Ascii.eqb a sep
      then string_of_list_ascii (rev cur) :: pieces sep cs' []
      else pieces sep cs' (a :: cur)
  end.

Definition listify_spec_value (s : string) : json :=
  if mem_char "[" s && mem_char "]" s
  then JArr (map JStr (pieces "," (list_ascii_of_string (without_brackets s)) []))
  else JStr s.

(** All values of a dictionary are strings. *)
Definition string_valued (d : dict) : Prop :=
  Forall (fun kv => ∃ s, snd kv = JStr s) d.

(** The string under a [JStr]; other values do not occur where it is used. *)
Definition str_of (v : json) : string :=
  match v with JStr s => s | _ => EmptyString end.

(** ** Sample data *)

Definition sample_self : OmniAPI := init "k3y" default_base_url.

(** A 200 response with the NDJSON records [rj]. *)
Definition ndjson_response (status : Z) (rj : list json) : response :=
  {| status_code := status;
     text_ndjson := Ok rj;
     text_json := match rj with [v] => Ok v | _ => Err JSONDecodeError end |}.

(** A response without a usable body. *)
Definition bare_response (status : Z) : response :=
  {| status_code := status;
     text_ndjson := Err JSONDecodeError;
     text_json := Err JSONDecodeError |}.

Definition footer_running (ids : list string) : json :=
  JObj [("timed_out", JStr "true"); ("remaining_job_ids", JArr (map JStr ids))].

Definition footer_done : json := JObj [("timed_out", JStr "false")].

Definition sample_table : MiniIPC.table :=
  [("id", [Byte.x01; Byte.x02]); ("v", [Byte.x09; Byte.x08])].

Definition sample_fields : list json :=
  [JObj [("name", JStr "id")]; JObj [("name", JStr "v")]].

(** The result record of [sample_table]: its stream, base64-encoded. *)
Definition sample_result : json :=
  JObj [("result", JStr "AmlkAgECAXYCCQg=");
        ("summary", JObj [("fields", JArr sample_fields)])].

Definition sample_body : dict := [("query", JObj [("limit", JNum 10)])].

(** The caller holds [sample_body] at reference 1; the service answers
    with [script]. *)
Definition sample_world (script : list reply) : world :=
  {| store := {[ 1%positive := sample_body ]}; inbox := script; sent := [] |}.

(** ** More vocabulary: reading a 200 answer *)

(** What both functions do with the text of a 200 answer: parse it, take the
    last record, compare its [timed_out]. *)
Definition read_flag (r : response) : result (list json * bool) :=
  (let? response_json := text_ndjson r in
   let? footer := py_last response_json in
   let? timed_out := py_getitem footer "timed_out" in
   Ok (response_json, py_eq_str timed_out "false"))%py.

(** The headers [OmniAPI.__init__] builds for the key [k]. *)
Definition bearer_headers (k : string) : list (string * string) :=
  [("Authorization", "Bearer " +:+ k); ("Content-Type", "application/json")].

(** The URL and the headers of a request. *)
Definition request_url (q : request) : string :=
  match q with POST u _ _ => u | GET u _ _ => u end.

Definition request_headers (q : request) : list (string * string) :=
  match q with POST _ h _ => h | GET _ _ h => h end.

(** * The other helpers of the client

    The helpers for topics, views, fields, users, documents and folders.
    They use more of [requests] than the query path (PUT, PATCH, DELETE,
    [params=]) and they print, so they run in a world of their own, with the
    calls of [requests] in full and the lines written to standard output. *)

Definition model_url (self : OmniAPI) (model_id : string) : string :=
  base_model_url self +:+ "/" +:+ model_id.

Definition topic_url (self : OmniAPI) (model_id topic_name : string)
  : string :=
  base_topic_url self model_id +:+ "/" +:+ topic_name.

Definition view_url (self : OmniAPI) (model_id view_name : string) : string :=
  base_view_url self model_id +:+ "/" +:+ view_name.

Definition field_url (self : OmniAPI) (model_id view_name field_name : string)
  : string :=
  view_url self model_id view_name +:+ "/field/" +:+ field_name.

(** ** More of the Python data model *)

(** The double quote character, as a string. *)
Definition dquote : string := String (ascii_of_N 34) EmptyString.

(** [str(n)] for an [int]. *)
Definition string_of_Z (n : Z) : string :=
  NilZero.string_of_int (Z.to_int n).

(** [str] of a list or a dict is left to the interpreter. *)
Class Formatting := {
  str_container : json → string
}.

(** [str(v)], which is also how an f-string and [print] format [v]. *)
Definition py_str `{Formatting} (v : json) : string :=
  match v with
  | JStr s => s
  | JNum n => string_of_Z n
  | JBool true => "True"
  | JBool false => "False"
  | JNull => "None"
  | _ => str_container v
  end.

(** [len(v)]. *)
Definition py_len (v : json) : result nat :=
  match v with
  | JArr l => Ok (length l)
  | JStr s => Ok (String.length s)
  | JObj d => Ok (length d)
  | _ => Err TypeError
  end.

(** [v[0]]. On a dict the key [0] is looked up, and no key of a dict read
    from JSON is an [int]; the KeyError names the key by its text. *)
Definition py_first (v : json) : result json :=
  match v with
  | JArr (x :: _) => Ok x
  | JArr [] => Err IndexError
  | JStr (String c _) => Ok (JStr (String c EmptyString))
  | JStr EmptyString => Err IndexError
  | JObj _ => Err (KeyError "0")
  | _ => Err TypeError
  end.

(** What [for u in v] goes through: the items of a list, the characters of a
    string, the keys of a dict. *)
Definition py_iter (v : json) : result (list json) :=
  match v with
  | JArr l => Ok l
  | JStr s =>
      Ok (map (fun c => JStr (String c EmptyString)) (list_ascii_of_string s))
  | JObj d => Ok (map (fun kv => JStr (fst kv)) d)
  | _ => Err TypeError
  end.

Module Rest.

Inductive verb := Get | Post | Put | Patch | Delete.

(** A call of [requests.<verb>(url, headers=hdrs, params=params,
    json=payload)]. A parameter whose value is [None] has no value here; no
    [json=] argument is no payload. *)
Record call := {
  method : verb;
  url : string;
  hdrs : list (string * string);
  params : list (string * option string);
  payload : option json
}.

Record state := {
  dicts : gmap loc dict;      (* the dictionaries the caller holds *)
  replies : list reply;         (* what the service will answer, in order *)
  calls : list call;           (* the calls issued so far, oldest first *)
  stdout : list string        (* what [print] wrote, one entry per call *)
}.

Definition Act (A : Type) : Type := state → outcome A * state.

Definition act_ret {A} (a : A) : Act A := fun w => (Return a, w).

Definition act_raise {A} (e : exn) : Act A := fun w => (Raise e, w).

Definition act_bind {A B} (m : Act A) (k : A → Act B) : Act B :=
  fun w =>
    match m w with
    | (Return a, w') => k a w'
    | (Raise e, w') => (Raise e, w')
    | (Blocked, w') => (Blocked, w')
    | (OutOfFuel, w') => (OutOfFuel, w')
    end.

Definition act_lift {A} (r : result A) : Act A :=
  match r with Ok a => act_ret a | Err e => act_raise e end.

Declare Scope rest_scope.
Delimit Scope rest_scope with rest.
Notation "'do' x <- m ;; k" := (act_bind m (fun x => k))
  (at level 10, x pattern, m at level 99, k at level 200) : rest_scope.

Definition load (w : state) (l : loc) : dict := default [] (dicts w !! l).

(** [body[k] = v] on the dictionary object [body]. *)
Definition store_item (body : loc) (k : string) (v : json) : Act unit :=
  fun w =>
    (Return tt,
     {| dicts := <[body := dict_set k v (load w body)]> (dicts w);
        replies := replies w; calls := calls w; stdout := stdout w |}).

(** [print(line)]. *)
Definition print (line : string) : Act unit :=
  fun w =>
    (Return tt,
     {| dicts := dicts w; replies := replies w; calls := calls w;
        stdout := stdout w ++ [line] |}).

(** One call of [requests]: the call goes out, the next reply of the script
    comes back. *)
Definition perform (c : call) : Act response :=
  fun w =>
    let log := calls w ++ [c] in
    match replies w with
    | [] =>
        (Blocked,
         {| dicts := dicts w; replies := []; calls := log; stdout := stdout w |})
    | Answer r :: rest =>
        (Return r,
         {| dicts := dicts w; replies := rest; calls := log;
            stdout := stdout w |})
    | Broken e :: rest =>
        (Raise e,
         {| dicts := dicts w; replies := rest; calls := log;
            stdout := stdout w |})
    end.

(** The headers the user, document and folder helpers build themselves. *)
Definition own_headers (self : OmniAPI) : list (string * string) :=
  [("Authorization", "Bearer " +:+ api_key self);
   ("Content-Type", "application/json")].

(** A call with the dictionary at [body] as its JSON payload, read when the
    call is made. *)
Definition send_body (v : verb) (u : string) (h : list (string * string))
    (body : loc) : Act response :=
  fun w =>
    perform {| method := v; url := u; hdrs := h; params := [];
                payload := Some (JObj (load w body)) |} w.

(** A call without payload. *)
Definition send (v : verb) (u : string) (h : list (string * string))
    (p : list (string * option string)) : Act response :=
  perform {| method := v; url := u; hdrs := h; params := p;
              payload := None |}.

(** A call with a dictionary built by the client as its JSON payload. *)
Definition send_dict (v : verb) (u : string) (h : list (string * string))
    (d : dict) : Act response :=
  perform {| method := v; url := u; hdrs := h; params := [];
              payload := Some (JObj d) |}.

Definition update_topic (self : OmniAPI) (model_id topic_name : string)
    (body : loc) : Act json :=
  (let url := topic_url self model_id topic_name in
   do response <- send_body Patch url (headers self) body ;;
   act_lift (text_json response))%rest.

Definition delete_topic (self : OmniAPI) (model_id topic_name : string)
  : Act json :=
  (let url := topic_url self model_id topic_name in
   do response <- send Delete url (headers self) [] ;;
   act_lift (text_json response))%rest.

Definition update_view (self : OmniAPI) (model_id view_name : string)
    (body : loc) : Act json :=
  (let url := view_url self model_id view_name in
   do _ <- store_item body "viewName" (JStr view_name) ;;
   do response <- send_body Patch url (headers self) body ;;
   act_lift (text_json response))%rest.

Definition delete_view (self : OmniAPI) (model_id view_name : string)
  : Act json :=
  (let url := view_url self model_id view_name in
   do response <- send Delete url (headers self) [] ;;
   act_lift (text_json response))%rest.

Definition update_field (self : OmniAPI)
    (model_id view_name field_name : string) (body : loc) : Act json :=
  (let url := field_url self model_id view_name field_name in
   do response <- send_body Patch url (headers self) body ;;
   act_lift (text_json response))%rest.

Definition delete_field (self : OmniAPI)
    (model_id view_name field_name : string) : Act json :=
  (let url := field_url self model_id view_name field_name in
   do response <- send Delete url (headers self) [] ;;
   act_lift (text_json response))%rest.

Definition users_url (self : OmniAPI) : string :=
  base_url self +:+ "/api/scim/v2/users".

Definition create_user (self : OmniAPI) (body : dict) : Act response :=
  send_dict Post (users_url self) (own_headers self) body.

Definition update_user `{Formatting} (self : OmniAPI) (id : json)
    (body : dict) : Act response :=
  send_dict Put (users_url self +:+ "/" +:+ py_str id) (own_headers self) body.

Definition find_user_by_email (self : OmniAPI) (email : string)
  : Act response :=
  send Get (users_url self) (own_headers self)
    [("filter", Some ("userName eq " +:+ dquote +:+ email +:+ dquote))].

Definition delete_user_by_id `{Formatting} (self : OmniAPI) (id : json)
  : Act response :=
  send Delete (users_url self +:+ "/" +:+ py_str id) (own_headers self) [].

(** The body [upsert_user] sends: the attributes, then the user name and the
    display name added by [body.update]. *)
Definition user_body (attrs : dict) (email displayName : string) : dict :=
  dict_set "displayName" (JStr displayName)
    (dict_set "userName" (JStr email)
       [("urn:omni:params:1.0:UserAttribute", JObj attrs)]).

Definition upsert_user `{Formatting} (self : OmniAPI)
    (email displayName : string) (attributes : dict) : Act unit :=
  (do attrs <- act_lift (listify attributes) ;;
   do response <- find_user_by_email self email ;;
   if status_code response =? 200 then
     do found <- act_lift (text_json response) ;;
     do users <- act_lift (py_getitem found "Resources") ;;
     do n <- act_lift (py_len users) ;;
     if (n =? 1)%nat then
       do user <- act_lift (py_first users) ;;
       let body := user_body attrs email displayName in
       do id <- act_lift (py_getitem user "id") ;;
       do update_response <- update_user self id body ;;
       if status_code update_response =? 200 then
         print ("updated user id " +:+ py_str id)
       else
         print ("Error (" +:+ string_of_Z (status_code update_response)
                  +:+ ") updating user id " +:+ py_str id)
     else if (n =? 0)%nat then
       let body := user_body attrs email displayName in
       do creation_response <- create_user self body ;;
       if status_code creation_response =? 201 then
         do created <- act_lift (text_json creation_response) ;;
         do id <- act_lift (py_getitem created "id") ;;
         print ("Created " +:+ email +:+ ", userid: " +:+ py_str id)
       else
         print ("Error creating " +:+ email +:+ ": "
                  +:+ string_of_Z (status_code creation_response))
     else
       print (string_of_Z (Z.of_nat n) +:+ " found for " +:+ email
                +:+ ", no action taken")
   else act_ret tt)%rest.

(** The loop [for u in users: print(u['id'])]. *)
Fixpoint print_ids `{Formatting} (users : list json) : Act unit :=
  match users with
  | [] => act_ret tt
  | u :: users' =>
      (do id <- act_lift (py_getitem u "id") ;;
       do _ <- print (py_str id) ;;
       print_ids users')%rest
  end.

Definition delete_user `{Formatting} (self : OmniAPI) (email : string)
  : Act (option response) :=
  (do lookup <- find_user_by_email self email ;;
   do found <- act_lift (text_json lookup) ;;
   do users <- act_lift (py_getitem found "Resources") ;;
   do n <- act_lift (py_len users) ;;
   if (n =? 1)%nat then
     do user <- act_lift (py_first users) ;;
     do id <- act_lift (py_getitem user "id") ;;
     do response <- delete_user_by_id self id ;;
     if status_code response =? 204 then
       do _ <- print ("deleted userid: " +:+ py_str id +:+ " email: "
                        +:+ email) ;;
       act_ret (Some response)
     else act_ret None
   else if (1 <? n)%nat then
     do _ <- print "found too many users for email {email}: " ;;
     do items <- act_lift (py_iter users) ;;
     do _ <- print_ids items ;;
     act_ret None
   else
     do _ <- print ("user " +:+ email +:+ " not found") ;;
     act_ret None)%rest.

Definition document_export (self : OmniAPI) (id : string) : Act json :=
  (let url := base_url self +:+ "/api/unstable/documents/" +:+ id
                +:+ "/export" in
   do response <- send Get url (own_headers self) [] ;;
   act_lift (text_json response))%rest.

Definition document_import (self : OmniAPI) (body : dict) : Act response :=
  send_dict Post (base_url self +:+ "/api/unstable/documents/import")
    (own_headers self) body.

Definition list_folders (self : OmniAPI) (path : string) : Act json :=
  (let url := base_url self +:+ "/api/unstable/folders" in
   do response <- send Get url (own_headers self) [("path", Some path)] ;;
   act_lift (text_json response))%rest.

Definition list_documents (self : OmniAPI) (folderId : string) : Act json :=
  (let url := base_url self +:+ "/api/unstable/documents" in
   do response <-
     send Get url (own_headers self)
       [("folderId",
         if String.eqb folderId EmptyString then None else Some folderId)] ;;
   act_lift (text_json response))%rest.

Definition generate_embed_url (self : OmniAPI) (body : dict) : Act response :=
  send_dict Post (base_url self +:+ "/embed/sso/generate-url")
    (own_headers self) body.

End Rest.

(** A stand-in for the text of lists and dicts, which the samples never
    format. *)
Definition demo_formatting : Formatting :=
  {| str_container := fun _ => "<container>" |}.

(** ** Vocabulary of the statements about users *)

(** What the user helpers read from the answer to a lookup:
    [response.json()['Resources']]. *)
Definition resources_of (r : response) : result json :=
  (let? found := text_json r in py_getitem found "Resources")%py.

(** The lookup of a user by email. *)
Definition lookup_call (self : OmniAPI) (email : string) : Rest.call :=
  {| Rest.method := Rest.Get;
     Rest.url := base_url self +:+ "/api/scim/v2/users";
     Rest.hdrs := bearer_headers (api_key self);
     Rest.params :=
       [("filter", Some ("userName eq " +:+ dquote +:+ email +:+ dquote))];
     Rest.payload := None |}.

(** The body of a user as it goes out: attributes, user name, display
    name, in this order. *)
Definition user_payload (attrs : dict) (email displayName : string) : json :=
  JObj [("urn:omni:params:1.0:UserAttribute", JObj attrs);
        ("userName", JStr email);
        ("displayName", JStr displayName)].

(** A write of a user: PUT on the user's URL, or POST on the collection. *)
Definition put_user_call (self : OmniAPI) (id : string) (body : json)
  : Rest.call :=
  {| Rest.method := Rest.Put;
     Rest.url := base_url self +:+ "/api/scim/v2/users/" +:+ id;
     Rest.hdrs := bearer_headers (api_key self);
     Rest.params := [];
     Rest.payload := Some body |}.

Definition post_user_call (self : OmniAPI) (body : json) : Rest.call :=
  {| Rest.method := Rest.Post;
     Rest.url := base_url self +:+ "/api/scim/v2/users";
     Rest.hdrs := bearer_headers (api_key self);
     Rest.params := [];
     Rest.payload := Some body |}.

Definition delete_user_call (self : OmniAPI) (id : string) : Rest.call :=
  {| Rest.method := Rest.Delete;
     Rest.url := base_url self +:+ "/api/scim/v2/users/" +:+ id;
     Rest.hdrs := bearer_headers (api_key self);
     Rest.params := [];
     Rest.payload := None |}.

(** The world once the calls [cs] have gone out, [lines] have been printed
    and [rest] of the script is still unread. *)
Definition rest_after (w : Rest.state) (cs : list Rest.call)
    (lines : list string) (rest : list reply) : Rest.state :=
  {| Rest.dicts := Rest.dicts w; Rest.replies := rest;
     Rest.calls := Rest.calls w ++ cs;
     Rest.stdout := Rest.stdout w ++ lines |}.

(** A response whose body is the JSON value [v]. *)
Definition json_response (status : Z) (v : json) : response :=
  {| status_code := status;
     text_ndjson := Ok [v];
     text_json := Ok v |}.

(** The answer to a lookup that found [users]. *)
Definition found_users (users : list json) : response :=
  json_response 200 (JObj [("totalResults", JNum (Z.of_nat (length users)));
                           ("Resources", JArr users)]).

Definition sample_user (id : string) : json :=
  JObj [("id", JStr id); ("userName", JStr "ann@example.com")].

Definition sample_attributes : dict :=
  [("groups", JStr "[a, b]"); ("team", JStr "core")].

Definition rest_world (script : list reply) : Rest.state :=
  {| Rest.dicts := {[ 1%positive := sample_body ]}; Rest.replies := script;
     Rest.calls := []; Rest.stdout := [] |}.

(** * Properties *)

(** ** Python data model *)

Lemma py_eq_str_true (v : json) (s : string) :
  py_eq_str v s = true ↔ v = JStr s.
Proof.
  destruct v; simpl; try (split; [discriminate | congruence]).
  rewrite String.eqb_eq. split; congruence.
Qed.

Lemma py_eq_str_false (v : json) (s : string) :
  py_eq_str v s = false ↔ v ≠ JStr s.
Proof.
  rewrite <- py_eq_str_true. destruct (py_eq_str v s); split; congruence.
Qed.

Lemma footer_field_inv (k : string) (r : response) (v : json) :
  footer_field k r = Some v →
  ∃ rj d, text_ndjson r = Ok rj ∧ last rj = Some (JObj d) ∧
          dict_get k d = Some v.
Proof.
  unfold footer_field, footer_of.
  destruct (text_ndjson r) as [rj|]; [|discriminate].
  destruct (last rj) as [[| | | | |d]|] eqn:Hl; try discriminate.
  eauto.
Qed.

Lemma footer_field_records (k : string) (r : response) (v : json) :
  footer_field k r = Some v → text_ndjson r = Ok (records r).
Proof.
  intros (rj & d & Hrj & _)%footer_field_inv. unfold records. by rewrite Hrj.
Qed.

(** ** One exchange with the service *)

Section Exchange.
Variables (self : OmniAPI) (w : world) (r : response) (rest : list reply).
Hypothesis Hin : inbox w = Answer r :: rest.

Lemma exchange_answer (q : request) :
  exchange q w = (Return r, after w [q] rest).
Proof. unfold exchange. by rewrite Hin. Qed.

(** A 200 answer whose footer has [timed_out]: the records come back with
    the comparison of the flag. *)
Lemma wait_answered (ids v : json) :
  status_code r = 200 →
  footer_field "timed_out" r = Some v →
  wait_query_blocking self ids w =
    (Return (Some (records r, py_eq_str v "false")),
     after w [wait_request self ids] rest).
Proof.
  intros Hs Hv.
  pose proof (footer_field_records _ _ _ Hv) as Hrec.
  destruct (footer_field_inv _ _ _ Hv) as (rj & d & Hrj & Hl & Hd).
  assert (rj = records r) as -> by congruence.
  unfold wait_query_blocking, requests_get, bind.
  rewrite exchange_answer, Hs. simpl.
  rewrite Hrec. simpl. unfold py_last. rewrite Hl. simpl.
  rewrite Hd. reflexivity.
Qed.

(** An answer with another status: HTTPError for 4xx and 5xx, [None]
    otherwise. *)
Lemma wait_not_200 (ids : json) :
  status_code r ≠ 200 →
  wait_query_blocking self ids w =
    (match raise_for_status r with
     | Ok _ => Return None
     | Err e => Raise e
     end, after w [wait_request self ids] rest).
Proof.
  intros Hs. apply Z.eqb_neq in Hs.
  unfold wait_query_blocking, requests_get, bind.
  rewrite exchange_answer, Hs.
  destruct (raise_for_status r); reflexivity.
Qed.
End Exchange.

Lemma after_after (w : world) (a b : list request) (r1 r2 : list reply) :
  after (after w a r1) b r2 = after w (a ++ b) r2.
Proof. unfold after. simpl. by rewrite <- app_assoc. Qed.

Lemma after_nil (w : world) : after w [] (inbox w) = w.
Proof. destruct w. unfold after. simpl. by rewrite app_nil_r. Qed.

(** Whatever the service does, a call of [wait_query_blocking] issues one
    request and leaves the store alone. *)
Lemma wait_effect (self : OmniAPI) (ids : json) (w : world) :
  sent (wait_query_blocking self ids w).2 = sent w ++ [wait_request self ids] ∧
  store (wait_query_blocking self ids w).2 = store w.
Proof.
  unfold wait_query_blocking, requests_get, exchange, bind.
  destruct (inbox w) as [|[r|e] rest]; simpl; [done| |done].
  destruct (status_code r =? 200).
  - destruct (text_ndjson r) as [rj|]; simpl; [|done].
    destruct (py_last rj) as [f|]; simpl; [|done].
    destruct (py_getitem f "timed_out"); simpl; done.
  - destruct (raise_for_status r); simpl; done.
Qed.

(** ** The polling loop *)

Section Poll.
Variables (self : OmniAPI) (footer : json).

Lemma poll_done (fuel : nat) (rj : list json) (w : world) :
  poll fuel self footer rj true w = (Return rj, w).
Proof. by destruct fuel. Qed.

(** Without job handles in [footer] the first iteration fails on the
    lookup, before any request. *)
Lemma poll_no_ids (fuel : nat) (rj : list json) (w : world) (e : exn) :
  py_getitem footer "remaining_job_ids" = Err e →
  poll (S fuel) self footer rj false w = (Raise e, w).
Proof. intros He. simpl. unfold bind. by rewrite He. Qed.

Variable ids : json.
Hypothesis Hids : py_getitem footer "remaining_job_ids" = Ok ids.

Lemma poll_unfold (fuel : nat) (rj : list json) (w : world) :
  poll (S fuel) self footer rj false w =
    match wait_query_blocking self ids w with
    | (Return (Some p), w') => poll fuel self footer p.1 p.2 w'
    | (Return None, w') => (Raise TypeError, w')
    | (Raise e, w') => (Raise e, w')
    | (Blocked, w') => (Blocked, w')
    | (OutOfFuel, w') => (OutOfFuel, w')
    end.
Proof.
  simpl. unfold bind at 1. rewrite Hids. simpl. unfold bind at 1.
  destruct (wait_query_blocking self ids w) as [[[p|]| | |] w']; try done.
Qed.

(** One iteration on a 200 answer that has the flag. *)
Lemma poll_step (fuel : nat) (rj : list json) (w : world) (r : response)
    (rest : list reply) (v : json) :
  inbox w = Answer r :: rest →
  status_code r = 200 →
  footer_field "timed_out" r = Some v →
  poll (S fuel) self footer rj false w =
    poll fuel self footer (records r) (py_eq_str v "false")
      (after w [wait_request self ids] rest).
Proof.
  intros Hin Hs Hv. rewrite poll_unfold.
  by rewrite (wait_answered self w r rest Hin ids v Hs Hv).
Qed.

(** The loop runs through a prefix of pending answers, one request each,
    all of them with the job handles of [footer]. *)
Lemma poll_pending (ps : list response) :
  ∀ (fuel : nat) (rj : list json) (w : world) (rest : list reply),
    Forall pending ps →
    inbox w = map Answer ps ++ rest →
    poll (length ps + fuel) self footer rj false w =
      poll fuel self footer (records_after rj ps) false
        (after w (replicate (length ps) (wait_request self ids)) rest).
Proof.
  induction ps as [|p ps IH]; intros fuel rj w rest Hp Hin.
  - simpl in *. rewrite <- Hin. by rewrite after_nil.
  - inversion Hp as [|? ? [Hs (v & Hv & Hne)] Hps]; subst.
    simpl in Hin. simpl length. simpl Nat.add.
    rewrite (poll_step _ rj w p (map Answer ps ++ rest) v Hin Hs Hv).
    apply py_eq_str_false in Hne. rewrite Hne.
    rewrite (IH fuel (records p) (after w [wait_request self ids]
               (map Answer ps ++ rest)) rest Hps); [|done].
    rewrite after_after. simpl.
    f_equal. unfold records_after. simpl.
    rewrite last_cons. by destruct (last ps).
Qed.

(** Every request of the loop is the wait request for the job handles of
    [footer]. *)
Lemma poll_sent (fuel : nat) :
  ∀ (rj : list json) (done : bool) (w : world),
    ∃ k : nat,
      sent (poll fuel self footer rj done w).2 =
        sent w ++ replicate k (wait_request self ids) ∧
      store (poll fuel self footer rj done w).2 = store w.
Proof.
  induction fuel as [|fuel IH]; intros rj done w.
  - exists 0%nat. destruct done; simpl; by rewrite app_nil_r.
  - destruct done.
    + exists 0%nat. rewrite poll_done. simpl. by rewrite app_nil_r.
    + rewrite poll_unfold.
      destruct (wait_effect self ids w) as [Hsent Hstore].
      destruct (wait_query_blocking self ids w) as [[[p|]| | |] w'];
        simpl in *;
        try (exists 1%nat; simpl; by rewrite Hsent, Hstore).
      destruct (IH p.1 p.2 w') as (k & Hk & Hst).
      exists (S k). rewrite Hk, Hst, Hsent, Hstore.
      by rewrite <- app_assoc.
Qed.
End Poll.

(** ** Fuel

    Each iteration of the loop reads one reply, so a call that is granted as
    many iterations as the script has replies never runs out of them: it
    returns, raises, or waits for the service. *)

Lemma wait_reads_one (self : OmniAPI) (ids : json) (w : world)
    (x : option (list json * bool)) (w' : world) :
  wait_query_blocking self ids w = (Return x, w') →
  length (inbox w) = S (length (inbox w')).
Proof.
  unfold wait_query_blocking, requests_get, exchange, bind.
  destruct (inbox w) as [|[r|e] rest]; simpl; [done| |done].
  destruct (status_code r =? 200).
  - destruct (text_ndjson r) as [rj|]; simpl; [|done].
    destruct (py_last rj) as [f|]; simpl; [|done].
    destruct (py_getitem f "timed_out"); simpl; [|done].
    intros [= _ <-]. done.
  - destruct (raise_for_status r); simpl; [|done].
    intros [= _ <-]. done.
Qed.

Lemma poll_fuel (self : OmniAPI) (footer : json) (fuel : nat) :
  ∀ (rj : list json) (done : bool) (w : world),
    (length (inbox w) < fuel)%nat →
    (poll fuel self footer rj done w).1 ≠ OutOfFuel.
Proof.
  induction fuel as [|fuel IH]; intros rj done w Hlen; [lia|].
  destruct done; [by rewrite poll_done|].
  destruct (py_getitem footer "remaining_job_ids") as [ids|e] eqn:Hids.
  - rewrite (poll_unfold self footer ids Hids).
    destruct (wait_query_blocking self ids w) as [[[p|]| | |] w'] eqn:Hw;
      try done.
    + apply IH. apply wait_reads_one in Hw. lia.
    + exfalso. revert Hw.
      unfold wait_query_blocking, requests_get, exchange, bind.
      destruct (inbox w) as [|[r|e] rest]; simpl; [done| |done].
      destruct (status_code r =? 200).
      * destruct (text_ndjson r) as [rj'|]; simpl; [|done].
        destruct (py_last rj') as [f|]; simpl; [|done].
        by destruct (py_getitem f "timed_out").
      * by destruct (raise_for_status r).
  - by rewrite (poll_no_ids self footer fuel rj w e Hids).
Qed.

Lemma run_query_blocking_fuel `{L : Libraries} (self : OmniAPI) (body : loc)
    (fuel : nat) (w : world) :
  (length (inbox w) ≤ fuel)%nat →
  (run_query_blocking fuel self body w).1 ≠ OutOfFuel.
Proof.
  intros Hlen.
  unfold run_query_blocking, requests_post, exchange, bind at 1.
  destruct (inbox w) as [|[r|e] rest] eqn:Hin; simpl; [done| |done].
  destruct (status_code r =? 200); [|by destruct (raise_for_status r)].
  unfold bind at 1.
  destruct (text_ndjson r) as [rj|]; simpl; [|done].
  unfold bind at 1. destruct (py_last rj) as [f|]; simpl; [|done].
  unfold bind at 1. destruct (py_getitem f "timed_out") as [v|]; simpl; [|done].
  unfold bind at 1.
  set (w1 := {| store := store w; inbox := rest; sent := _ |}).
  pose proof (poll_fuel self f fuel rj (py_eq_str v "false") w1) as Hp.
  destruct (poll fuel self f rj (py_eq_str v "false") w1) as [[rj'| | |] w2];
    simpl in *; try done.
  - unfold bind. by destruct (decode_result rj').
  - exfalso. apply Hp; [lia | done].
Qed.

(** ** [run_query_blocking] along a script *)

Section Run.
Context `{L : Libraries}.
Variables (self : OmniAPI) (body : loc).

Lemma finish_decoded (rj : list json) (w : world) :
  finish rj w = (decoded rj, w).
Proof.
  unfold finish, decoded, bind. by destruct (decode_result rj).
Qed.

(** The submission answered by a 200 whose footer has the flag: the loop
    starts from this answer. *)
Lemma run_start (fuel : nat) (w : world) (r0 : response)
    (rest : list reply) (v F : json) :
  inbox w = Answer r0 :: rest →
  status_code r0 = 200 →
  footer_field "timed_out" r0 = Some v →
  footer_of r0 = Some F →
  run_query_blocking fuel self body w =
    bind (poll fuel self F (records r0) (py_eq_str v "false")) finish
      (after w [run_request self (deref w body)] rest).
Proof.
  intros Hin Hs Hv HF.
  pose proof (footer_field_records _ _ _ Hv) as Hrec.
  unfold footer_field in Hv. rewrite HF in Hv.
  destruct F as [| | | | |d]; try discriminate.
  unfold footer_of in HF. rewrite Hrec in HF.
  unfold run_query_blocking, requests_post, bind at 1.
  rewrite (exchange_answer w r0 rest Hin), Hs. simpl.
  unfold bind at 1. rewrite Hrec. simpl.
  unfold bind at 1, py_last. rewrite HF. simpl.
  unfold bind at 1. rewrite Hv. simpl. reflexivity.
Qed.

(** The submission answered by another status. *)
Lemma run_not_200 (fuel : nat) (w : world) (r0 : response)
    (rest : list reply) :
  inbox w = Answer r0 :: rest →
  status_code r0 ≠ 200 →
  run_query_blocking fuel self body w =
    (match raise_for_status r0 with
     | Ok _ => Return None
     | Err e => Raise e
     end, after w [run_request self (deref w body)] rest).
Proof.
  intros Hin Hs. apply Z.eqb_neq in Hs.
  unfold run_query_blocking, requests_post, bind.
  rewrite (exchange_answer w r0 rest Hin), Hs.
  by destruct (raise_for_status r0).
Qed.

(** After a run [rs] of pending answers the loop is at the next reply,
    having sent the submission and one wait request per answer but the
    first, all with the job handles of the first answer. *)
Lemma run_polled (r0 : response) (ps : list response) (fuel : nat)
    (w : world) (rest : list reply) (F ids : json) :
  polled (r0 :: ps) →
  footer_of r0 = Some F →
  job_ids_of r0 = Some ids →
  inbox w = map Answer (r0 :: ps) ++ rest →
  run_query_blocking (length ps + fuel) self body w =
    bind (poll fuel self F (records_after (records r0) ps) false) finish
      (after w (run_request self (deref w body)
                  :: replicate (length ps) (wait_request self ids)) rest)
  ∧ py_getitem F "remaining_job_ids" = Ok ids.
Proof.
  intros [Hp _] HF Hids Hin.
  inversion Hp as [|? ? [Hs (v & Hv & Hne)] Hps]; subst.
  assert (py_getitem F "remaining_job_ids" = Ok ids) as HFids.
  { unfold job_ids_of, footer_field in Hids. rewrite HF in Hids.
    destruct F; try discriminate. simpl. by rewrite Hids. }
  split; [|done].
  rewrite (run_start _ w r0 (map Answer ps ++ rest) v F Hin Hs Hv HF).
  apply py_eq_str_false in Hne. rewrite Hne.
  unfold bind.
  rewrite (poll_pending self F ids HFids ps fuel (records r0) _ rest Hps);
    [|done].
  by rewrite after_after.
Qed.
End Run.

Section RunComplete.
Context `{L : Libraries}.
Variables (self : OmniAPI) (body : loc).

(** A call whose submission is answered by the run [rs] and then by a
    complete response [r] decodes the records of [r]. *)
Lemma run_complete (fuel : nat) (w : world) (rs : list response)
    (r : response) (rest : list reply) :
  polled rs →
  complete r →
  inbox w = map Answer rs ++ Answer r :: rest →
  (length rs ≤ fuel)%nat →
  run_query_blocking fuel self body w =
    (decoded (records r), after w (requests_for self (deref w body) rs) rest).
Proof.
  intros Hp [Hs Hv] Hin Hfuel.
  destruct rs as [|r0 ps].
  - simpl in Hin.
    destruct (footer_field_inv _ _ _ Hv) as (rj & d & Hrj & Hl & _).
    rewrite (run_start self body fuel w r rest (JStr "false") (JObj d) Hin Hs Hv).
    2:{ unfold footer_of. by rewrite Hrj. }
    simpl py_eq_str. unfold bind. rewrite poll_done.
    by rewrite finish_decoded.
  - pose proof Hp as [Hpend [ids Hids]].
    inversion Hpend as [|? ? [Hs0 (v0 & Hv0 & _)] _]; subst.
    destruct (footer_field_inv _ _ _ Hv0) as (rj0 & d0 & Hrj0 & Hl0 & _).
    assert (footer_of r0 = Some (JObj d0)) as HF.
    { unfold footer_of. by rewrite Hrj0. }
    simpl length in Hfuel.
    replace fuel with (length ps + S (fuel - S (length ps)))%nat by lia.
    assert (inbox w = map Answer (r0 :: ps) ++ Answer r :: rest) as Hin'.
    { by rewrite Hin. }
    destruct (run_polled self body r0 ps (S (fuel - S (length ps))) w
                (Answer r :: rest) (JObj d0) ids Hp HF Hids Hin')
      as [-> HFids].
    unfold bind.
    rewrite (poll_step self (JObj d0) ids HFids _ _ _ r rest (JStr "false"));
      [|done..].
    simpl py_eq_str. rewrite poll_done, finish_decoded, after_after.
    unfold requests_for, first_job_ids. rewrite Hids. simpl.
    do 3 f_equal. by rewrite replicate_cons_app.
Qed.
End RunComplete.

(** ** Finding and decoding the result record *)

Lemma wait_count_app (l1 l2 : list request) :
  wait_count (l1 ++ l2) = (wait_count l1 + wait_count l2)%nat.
Proof. unfold wait_count. by rewrite filter_app, length_app. Qed.

Lemma wait_count_replicate (n : nat) (self : OmniAPI) (ids : json) :
  wait_count (replicate n (wait_request self ids)) = n.
Proof.
  induction n as [|n IH]; [done|].
  change (replicate (S n) (wait_request self ids))
    with ([wait_request self ids] ++ replicate n (wait_request self ids)).
  rewrite wait_count_app, IH. done.
Qed.

Lemma next_containing_none (k : string) (rj : list json) :
  Forall (fun x => is_record x = true) rj →
  Forall (fun x => has_key k x = false) rj →
  py_next_containing k rj = Ok None.
Proof.
  induction 1 as [|x rj Hx _ IH]; intros Hk; [done|].
  inversion Hk as [|? ? Hkx Hkrj]; subst.
  destruct x; try discriminate.
  cbn [py_next_containing py_in_str result_bind has_key] in *.
  rewrite Hkx. by apply IH.
Qed.

Lemma next_containing_unique (k : string) (rj : list json) (x : json) :
  Forall (fun y => is_record y = true) rj →
  filter (fun y => has_key k y = true) rj = [x] →
  py_next_containing k rj = Ok (Some x).
Proof.
  induction 1 as [|y rj Hy _ IH]; intros Hf; [done|].
  destruct y as [| | | | |d]; try discriminate.
  rewrite filter_cons in Hf.
  cbn [py_next_containing py_in_str result_bind has_key] in *.
  destruct (dict_has k d) eqn:Hd.
  - rewrite decide_True in Hf by done. congruence.
  - rewrite decide_False in Hf by discriminate. by apply IH.
Qed.

(** The one record with a ["result"] is the one that is decoded: its payload
    through base64 and the stream reader, its [summary.fields] as they are. *)
Lemma decode_result_found `{L : Libraries} (rj : list json) (d summary : dict)
    (payload : string) (raw : list Byte.byte) (table : Table)
    (fields : json) :
  Forall (fun x => is_record x = true) rj →
  filter (fun x => has_key "result" x = true) rj = [JObj d] →
  dict_get "result" d = Some (JStr payload) →
  b64decode payload = Ok raw →
  ipc_read_all raw = Ok table →
  dict_get "summary" d = Some (JObj summary) →
  dict_get "fields" summary = Some fields →
  decode_result rj = Ok (table, fields).
Proof.
  intros Hrec Hone Hres Hb64 Hipc Hsum Hfields.
  unfold decode_result.
  rewrite (next_containing_unique "result" _ _ Hrec Hone). simpl.
  rewrite Hres. simpl. rewrite Hb64. simpl. rewrite Hipc. simpl.
  rewrite Hsum. simpl. by rewrite Hfields.
Qed.

Section Claims.
Context `{L : Libraries}.
Variables (self : OmniAPI) (body : loc).

(** C5. When the answer to the submission has a footer whose [timed_out] is
    the string ["false"], [run_query_blocking] issues the submission and
    nothing else: no request goes to the wait endpoint. *)
Theorem run_query_blocking_complete_no_wait (fuel : nat) (w : world)
    (r : response) (rest : list reply) :
  inbox w = Answer r :: rest →
  footer_field "timed_out" r = Some (JStr "false") →
  (run_query_blocking fuel self body w).2 =
    after w [run_request self (deref w body)] rest ∧
  wait_count (sent (run_query_blocking fuel self body w).2) =
    wait_count (sent w).
Proof.
  intros Hin Hv.
  assert ((run_query_blocking fuel self body w).2 =
          after w [run_request self (deref w body)] rest) as Hw.
  { destruct (decide (status_code r = 200)) as [Hs|Hs].
    - assert (polled []) as Hp by (split; [constructor | done]).
      assert (complete r) as Hc by done.
      rewrite (run_complete self body fuel w [] r rest Hp Hc Hin);
        [done | simpl; lia].
    - by rewrite (run_not_200 self body fuel w r rest Hin Hs). }
  split; [done|]. rewrite Hw. cbn [after sent].
  rewrite wait_count_app. cbv [wait_count run_request is_wait]. simpl. lia.
Qed.

(** C3. When the exchange ends with a complete response none of whose
    records has a ["result"] key, [run_query_blocking] raises the
    ValueError "No result found in the response."; it returns no table and
    no field metadata. *)
Theorem run_query_blocking_no_result (fuel : nat) (w : world)
    (rs : list response) (r : response) (rest : list reply) :
  polled rs →
  complete r →
  inbox w = map Answer rs ++ Answer r :: rest →
  (length rs ≤ fuel)%nat →
  Forall (fun x => is_record x = true) (records r) →
  Forall (fun x => has_key "result" x = false) (records r) →
  run_query_blocking fuel self body w =
    (Raise (ValueError "No result found in the response."),
     after w (requests_for self (deref w body) rs) rest).
Proof.
  intros Hp Hc Hin Hfuel Hrec Hnone.
  rewrite (run_complete self body fuel w rs r rest Hp Hc Hin Hfuel).
  unfold decoded, decode_result.
  by rewrite (next_containing_none "result" _ Hrec Hnone).
Qed.

(** C6. When the exchange ends with a complete response that has exactly
    one record with a ["result"] key, whose payload decodes to a table of
    [N] columns and whose [summary.fields] is a list of [N] descriptors,
    [run_query_blocking] returns that table together with that list: [N]
    columns, and the [N] descriptors in their order. *)
Theorem run_query_blocking_returns_table (fuel : nat) (w : world)
    (rs : list response) (r : response) (rest : list reply)
    (d summary : dict) (payload : string) (raw : list Byte.byte)
    (table : Table) (fields : list json) (N : nat) :
  polled rs →
  complete r →
  inbox w = map Answer rs ++ Answer r :: rest →
  (length rs ≤ fuel)%nat →
  Forall (fun x => is_record x = true) (records r) →
  filter (fun x => has_key "result" x = true) (records r) = [JObj d] →
  dict_get "result" d = Some (JStr payload) →
  b64decode payload = Ok raw →
  ipc_read_all raw = Ok table →
  num_columns table = N →
  dict_get "summary" d = Some (JObj summary) →
  dict_get "fields" summary = Some (JArr fields) →
  length fields = N →
  ∃ t fs,
    run_query_blocking fuel self body w =
      (Return (Some (t, JArr fs)),
       after w (requests_for self (deref w body) rs) rest) ∧
    num_columns t = N ∧ length fs = N ∧ fs = fields.
Proof.
  intros Hp Hc Hin Hfuel Hrec Hone Hres Hb64 Hipc Hcols Hsum Hfields Hlen.
  exists table, fields. split; [|done].
  rewrite (run_complete self body fuel w rs r rest Hp Hc Hin Hfuel).
  unfold decoded.
  by rewrite (decode_result_found (records r) d summary payload raw table
                (JArr fields)).
Qed.

End Claims.

(** Closes the side conditions of a concrete script. *)
Ltac script :=
  repeat first
    [ reflexivity
    | lia
    | discriminate
    | match goal with
      | |- polled _ => split
      | |- complete _ => split
      | |- pending _ => split
      | |- Forall _ [] => constructor
      | |- Forall _ (_ :: _) => constructor
      | |- is_Some _ => eexists
      | |- ∃ _, _ => eexists
      | |- _ ∧ _ => split
      | |- True => exact I
      end
    | progress cbn ].

(** C5 on a script: the submission is answered by the result and a done
    footer; the 500 that follows in the script is never asked for. *)
Lemma run_query_blocking_complete_no_wait_witness :
  wait_count
    (sent (@run_query_blocking demo_libraries 3 sample_self 1%positive
             (sample_world
                [Answer (ndjson_response 200 [sample_result; footer_done]);
                 Answer (bare_response 500)])).2) = 0%nat.
Proof.
  exact (proj2 (@run_query_blocking_complete_no_wait demo_libraries
                  sample_self 1%positive 3
                  (sample_world
                     [Answer (ndjson_response 200 [sample_result; footer_done]);
                      Answer (bare_response 500)])
                  (ndjson_response 200 [sample_result; footer_done])
                  [Answer (bare_response 500)] eq_refl eq_refl)).
Defined.

(** C3 on a script: one pending answer, then a complete response whose
    records carry a note and the footer, but no result. *)
Lemma run_query_blocking_no_result_witness :
  (@run_query_blocking demo_libraries 4 sample_self 1%positive
     (sample_world
        [Answer (ndjson_response 200 [footer_running ["j1"]]);
         Answer (ndjson_response 200 [JObj [("note", JStr "x")]; footer_done])])).1
  = Raise (ValueError "No result found in the response.").
Proof.
  rewrite (@run_query_blocking_no_result demo_libraries sample_self
             1%positive 4 _
             [ndjson_response 200 [footer_running ["j1"]]]
             (ndjson_response 200 [JObj [("note", JStr "x")]; footer_done])
             []); script.
Defined.

(** C6 on a script: one pending answer, then the result of [sample_table]
    with its two field descriptors. *)
Lemma run_query_blocking_returns_table_witness :
  ∃ t fs,
    (@run_query_blocking demo_libraries 4 sample_self 1%positive
       (sample_world
          [Answer (ndjson_response 200 [footer_running ["j1"]]);
           Answer (ndjson_response 200 [sample_result; footer_done])])).1
    = Return (Some (t, JArr fs)) ∧
    @num_columns demo_libraries t = 2%nat ∧ length fs = 2%nat.
Proof.
  destruct (@run_query_blocking_returns_table demo_libraries sample_self
              1%positive 4
              (sample_world
                 [Answer (ndjson_response 200 [footer_running ["j1"]]);
                  Answer (ndjson_response 200 [sample_result; footer_done])])
              [ndjson_response 200 [footer_running ["j1"]]]
              (ndjson_response 200 [sample_result; footer_done]) []
              [("result", JStr "AmlkAgECAXYCCQg=");
               ("summary", JObj [("fields", JArr sample_fields)])]
              [("fields", JArr sample_fields)]
              "AmlkAgECAXYCCQg="
              (MiniIPC.write sample_table) sample_table sample_fields 2)
    as (t & fs & Hrun & Hcols & Hlen & _); [script..|].
  exists t, fs. rewrite Hrun. done.
Defined.


(** ** The job handles of the wait requests *)

Section Requests.
Context `{L : Libraries}.
Variables (self : OmniAPI) (body : loc).

Lemma poll_sent_pos (footer ids : json) (fuel : nat) (rj : list json)
    (w : world) :
  py_getitem footer "remaining_job_ids" = Ok ids →
  ∃ k : nat,
    sent (poll (S fuel) self footer rj false w).2 =
      sent w ++ replicate (S k) (wait_request self ids).
Proof.
  intros Hids. rewrite (poll_unfold self footer ids Hids).
  destruct (wait_effect self ids w) as [Hsent _].
  destruct (wait_query_blocking self ids w) as [[[p|]| | |] w'];
    simpl in *; try (exists 0%nat; by rewrite Hsent).
  destruct (poll_sent self footer ids Hids fuel p.1 p.2 w') as (k & Hk & _).
  exists k. rewrite Hk, Hsent, <- app_assoc. done.
Qed.

(** Whatever the service answers, the requests of a call are the
    submission followed by wait requests that all carry the job handles of
    the footer of the first answer. *)
Lemma run_requests (fuel : nat) (w : world) (r0 : response)
    (rest : list reply) :
  inbox w = Answer r0 :: rest →
  ∃ k : nat,
    sent (run_query_blocking fuel self body w).2 =
      sent w ++ run_request self (deref w body)
        :: replicate k (wait_request self (first_job_ids [r0])).
Proof.
  intros Hin.
  destruct (decide (status_code r0 = 200)) as [Hs|Hs].
  2:{ exists 0%nat. by rewrite (run_not_200 self body fuel w r0 rest Hin Hs). }
  unfold run_query_blocking, requests_post, bind at 1.
  rewrite (exchange_answer w r0 rest Hin), Hs. simpl.
  unfold bind at 1.
  destruct (text_ndjson r0) as [rj|] eqn:Hrj; simpl; [|by exists 0%nat].
  unfold bind at 1, py_last.
  destruct (last rj) as [f|] eqn:Hl; simpl; [|by exists 0%nat].
  unfold bind at 1.
  destruct (py_getitem f "timed_out") as [v|] eqn:Hv; simpl;
    [|by exists 0%nat].
  change (bind (poll fuel self f rj (py_eq_str v "false"))
            (fun rj' => bind (lift (decode_result rj'))
                          (fun r => ret (Some r))))
    with (bind (poll fuel self f rj (py_eq_str v "false")) finish).
  set (w1 := after w [run_request self (deref w body)] rest).
  change {| store := store w; inbox := rest;
            sent := sent w ++ [run_request self (deref w body)] |} with w1.
  assert (∃ k, sent (poll fuel self f rj (py_eq_str v "false") w1).2 =
               sent w1 ++ replicate k (wait_request self (first_job_ids [r0])))
    as (k & Hk).
  { destruct (py_getitem f "remaining_job_ids") as [ids|e] eqn:Hids.
    - destruct (poll_sent self f ids Hids fuel rj (py_eq_str v "false") w1)
        as (k & Hk & _).
      exists k. rewrite Hk. do 3 f_equal.
      unfold first_job_ids, job_ids_of, footer_field, footer_of.
      rewrite Hrj, Hl. destruct f; try discriminate. simpl in Hids |- *.
      destruct (dict_get "remaining_job_ids" fields); by inversion Hids.
    - exists 0%nat. simpl. rewrite app_nil_r.
      destruct (py_eq_str v "false"); [by rewrite poll_done|].
      destruct fuel; [done|]. by rewrite (poll_no_ids self f _ _ _ e Hids). }
  exists k. unfold bind.
  change (after w _ rest) with w1.
  destruct (poll fuel self f rj (py_eq_str v "false") w1) as [[rj'| | |] w2];
    [rewrite finish_decoded|..]; cbn [fst snd] in *;
    rewrite Hk; unfold w1; cbn [after sent]; by rewrite <- app_assoc.
Qed.
End Requests.

(** C1. The initial footer names the jobs [a] and [b]; the answer to the
    first wait request names only [b] as remaining. The second wait request
    of [run_query_blocking] still carries [a] and [b]: the loop reads the
    footer bound before it, it never takes the footer of a wait response. *)
Theorem run_query_blocking_stale_job_ids :
  let r0 := ndjson_response 200 [footer_running ["a"; "b"]] in
  let r1 := ndjson_response 200 [footer_running ["b"]] in
  let r2 := ndjson_response 200 [sample_result; footer_done] in
  let w := sample_world [Answer r0; Answer r1; Answer r2] in
  job_ids_of r1 = Some (JArr [JStr "b"]) ∧
  sent (@run_query_blocking demo_libraries 5 sample_self 1%positive w).2 =
    [run_request sample_self sample_body;
     wait_request sample_self (JArr [JStr "a"; JStr "b"]);
     wait_request sample_self (JArr [JStr "a"; JStr "b"])].
Proof. split; reflexivity. Qed.

(** ** When the loop stops *)

Section Stop.
Variables (self : OmniAPI) (footer ids : json).
Hypothesis Hids : py_getitem footer "remaining_job_ids" = Ok ids.

(** A 200 answer whose footer is an object without [timed_out]: the lookup
    of the flag fails. *)
Lemma wait_flag_omitted (w : world) (r : response) (rest : list reply)
    (rj : list json) (d : dict) :
  inbox w = Answer r :: rest →
  status_code r = 200 →
  text_ndjson r = Ok rj →
  last rj = Some (JObj d) →
  dict_get "timed_out" d = None →
  wait_query_blocking self ids w =
    (Raise (KeyError "timed_out"), after w [wait_request self ids] rest).
Proof.
  intros Hin Hs Hrj Hl Hd.
  unfold wait_query_blocking, requests_get, bind.
  rewrite (exchange_answer w r rest Hin), Hs. simpl.
  rewrite Hrj. simpl. unfold py_last. rewrite Hl. simpl. by rewrite Hd.
Qed.

(** C2, as the code has it. The loop has read the pending answers [ps] and
    reads a 200 answer [r] whose footer is an object. If the footer has
    [timed_out], the loop is over with the records of [r], and without a
    further request, exactly when the flag is the string ["false"]; with
    any other value it issues one more wait request. If the footer has no
    [timed_out], the call raises KeyError and issues no further request. *)
Theorem poll_stops_iff_false (fuel : nat) (rj : list json) (w : world)
    (ps : list response) (r : response) (rest : list reply)
    (rj' : list json) (d : dict) :
  Forall pending ps →
  inbox w = map Answer ps ++ Answer r :: rest →
  status_code r = 200 →
  text_ndjson r = Ok rj' →
  last rj' = Some (JObj d) →
  (length ps + 2 ≤ fuel)%nat →
  let n := S (length ps) in
  let stopped := after w (replicate n (wait_request self ids)) rest in
  match dict_get "timed_out" d with
  | Some v =>
      (poll fuel self footer rj false w = (Return rj', stopped)
       ↔ v = JStr "false") ∧
      (v ≠ JStr "false" →
       ∃ k : nat,
         sent (poll fuel self footer rj false w).2 =
           sent w ++ replicate (S n + k) (wait_request self ids))
  | None =>
      poll fuel self footer rj false w =
        (Raise (KeyError "timed_out"), stopped)
  end.
Proof.
  intros Hp Hin Hs Hrj Hl Hfuel n stopped.
  replace fuel with (length ps + S (S (fuel - length ps - 2)))%nat by lia.
  set (f := (fuel - length ps - 2)%nat).
  rewrite (poll_pending self footer ids Hids ps (S (S f)) rj w
             (Answer r :: rest) Hp Hin).
  set (w1 := after w (replicate (length ps) (wait_request self ids))
               (Answer r :: rest)).
  assert (after w1 [wait_request self ids] rest = stopped) as Hstop.
  { unfold w1, stopped, n. rewrite after_after.
    by rewrite <- replicate_cons_app. }
  destruct (dict_get "timed_out" d) as [v|] eqn:Hd.
  - assert (footer_field "timed_out" r = Some v) as Hv.
    { unfold footer_field, footer_of. by rewrite Hrj, Hl. }
    assert (records r = rj') as Hrec by (unfold records; by rewrite Hrj).
    rewrite (poll_step self footer ids Hids (S f) _ w1 r rest v eq_refl Hs Hv).
    rewrite Hstop, Hrec.
    destruct (py_eq_str v "false") eqn:Heq.
    + apply py_eq_str_true in Heq. rewrite poll_done.
      split; [done|]. intros Hne. by destruct Hne.
    + apply py_eq_str_false in Heq.
      destruct (poll_sent_pos self footer ids f rj' stopped Hids) as (k & Hk).
      assert (sent (poll (S f) self footer rj' false stopped).2 =
              sent w ++ replicate (S n + k) (wait_request self ids)) as Hk'.
      { rewrite Hk. unfold stopped. cbn [after sent].
        rewrite <- app_assoc. f_equal.
        rewrite <- replicate_add. f_equal. lia. }
      split; [|by eauto].
      split; [|done]. intros Hret. exfalso.
      rewrite Hret in Hk'. cbn [snd] in Hk'. unfold stopped in Hk'.
      cbn [after sent] in Hk'. apply app_inv_head in Hk'.
      apply (f_equal length) in Hk'. rewrite !length_replicate in Hk'. lia.
  - rewrite (poll_unfold self footer ids Hids).
    rewrite (wait_flag_omitted w1 r rest rj' d eq_refl Hs Hrj Hl Hd).
    by rewrite Hstop.
Qed.

(** C9. A wait answer with a success status other than 200: no HTTPError,
    [wait_query_blocking] returns [None], not a pair; the loop of the
    caller has nothing to unpack. *)
Theorem wait_query_blocking_other_success (w : world) (r : response)
    (rest : list reply) :
  inbox w = Answer r :: rest →
  200 <= status_code r < 300 →
  status_code r ≠ 200 →
  wait_query_blocking self ids w =
    (Return None, after w [wait_request self ids] rest) ∧
  ∀ (fuel : nat) (rj : list json),
    poll (S fuel) self footer rj false w =
      (Raise TypeError, after w [wait_request self ids] rest).
Proof.
  intros Hin Hrange Hs.
  assert (wait_query_blocking self ids w =
          (Return None, after w [wait_request self ids] rest)) as Hwait.
  { rewrite (wait_not_200 self w r rest Hin ids Hs).
    unfold raise_for_status.
    replace (400 <=? status_code r) with false by lia. done. }
  split; [done|]. intros fuel rj.
  by rewrite (poll_unfold self footer ids Hids), Hwait.
Qed.
End Stop.

(** C2 on a script: a pending answer, then a done footer; the loop stops
    after the second wait request. *)
Lemma poll_stops_iff_false_witness :
  let r1 := ndjson_response 200 [footer_running ["j1"]] in
  let r2 := ndjson_response 200 [sample_result; footer_done] in
  let w := sample_world [Answer r1; Answer r2; Answer (bare_response 500)] in
  poll 4 sample_self (footer_running ["j1"]) [] false w =
    (Return [sample_result; footer_done],
     after w (replicate 2 (wait_request sample_self (JArr [JStr "j1"])))
       [Answer (bare_response 500)])
  ↔ JStr "false" = JStr "false".
Proof.
  intros r1 r2 w.
  exact (proj1 (poll_stops_iff_false sample_self (footer_running ["j1"])
                  (JArr [JStr "j1"]) eq_refl 4 [] w [r1] r2
                  [Answer (bare_response 500)]
                  [sample_result; footer_done]
                  [("timed_out", JStr "false")]
                  ltac:(script) eq_refl eq_refl eq_refl eq_refl
                  ltac:(script))).
Defined.

(** C2, as stated, fails: the footer of the wait response omits [timed_out],
    and the call raises KeyError after this one wait request instead of
    polling again; the next reply of the service is left unread. *)
Lemma poll_omitted_flag_counterexample :
  let r0 := ndjson_response 200 [footer_running ["j1"]] in
  let r1 := ndjson_response 200 [JObj [("remaining_job_ids", JArr [JStr "j1"])]] in
  let r2 := ndjson_response 200 [sample_result; footer_done] in
  let w := sample_world [Answer r0; Answer r1; Answer r2] in
  footer_field "timed_out" r1 = None ∧
  @run_query_blocking demo_libraries 5 sample_self 1%positive w =
    (Raise (KeyError "timed_out"),
     after w [run_request sample_self sample_body;
              wait_request sample_self (JArr [JStr "j1"])] [Answer r2]).
Proof. split; reflexivity. Qed.

(** C9 on a 204 answer. *)
Lemma wait_query_blocking_other_success_witness :
  wait_query_blocking sample_self (JArr [JStr "j1"])
    (sample_world [Answer (bare_response 204)]) =
    (Return None,
     after (sample_world [Answer (bare_response 204)])
       [wait_request sample_self (JArr [JStr "j1"])] []).
Proof.
  exact (proj1 (wait_query_blocking_other_success sample_self
                  (footer_running ["j1"]) (JArr [JStr "j1"]) eq_refl
                  (sample_world [Answer (bare_response 204)])
                  (bare_response 204) [] eq_refl
                  ltac:(simpl; lia) ltac:(simpl; lia))).
Defined.

Section Transport.
Context `{L : Libraries}.
Variables (self : OmniAPI) (body : loc).

Lemma raise_for_status_error (r : response) :
  400 <= status_code r < 600 →
  raise_for_status r = Err (HTTPError (status_code r)).
Proof.
  intros Hr. unfold raise_for_status.
  replace (400 <=? status_code r) with true by lia.
  replace (status_code r <? 600) with true by lia. done.
Qed.

(** C4, as the code has it. A 4xx or 5xx answer to the submission or to a
    wait request makes [run_query_blocking] raise HTTPError at once: the
    failing request is the last one issued, and the rest of the script is
    not read. *)
Theorem run_query_blocking_http_error (fuel : nat) (w : world)
    (rs : list response) (r : response) (rest : list reply) :
  polled rs →
  inbox w = map Answer rs ++ Answer r :: rest →
  400 <= status_code r < 600 →
  (length rs ≤ fuel)%nat →
  run_query_blocking fuel self body w =
    (Raise (HTTPError (status_code r)),
     after w (requests_for self (deref w body) rs) rest).
Proof.
  intros Hp Hin Hr Hfuel.
  assert (status_code r ≠ 200) as Hs by lia.
  destruct rs as [|r0 ps].
  - simpl in Hin.
    rewrite (run_not_200 self body fuel w r rest Hin Hs).
    by rewrite (raise_for_status_error r Hr).
  - pose proof Hp as [Hpend [ids Hids]].
    inversion Hpend as [|? ? [Hs0 (v0 & Hv0 & _)] _]; subst.
    destruct (footer_field_inv _ _ _ Hv0) as (rj0 & d0 & Hrj0 & Hl0 & _).
    assert (footer_of r0 = Some (JObj d0)) as HF.
    { unfold footer_of. by rewrite Hrj0. }
    simpl length in Hfuel.
    replace fuel with (length ps + S (fuel - S (length ps)))%nat by lia.
    destruct (run_polled self body r0 ps (S (fuel - S (length ps))) w
                (Answer r :: rest) (JObj d0) ids Hp HF Hids Hin)
      as [-> HFids].
    unfold bind.
    rewrite (poll_unfold self (JObj d0) ids HFids).
    rewrite (wait_not_200 self (after w _ (Answer r :: rest)) r rest
               eq_refl ids Hs).
    rewrite (raise_for_status_error r Hr), after_after.
    unfold requests_for, first_job_ids. rewrite Hids. simpl.
    do 3 f_equal. by rewrite replicate_cons_app.
Qed.
End Transport.

(** C4 on a script: a pending answer, then a 503 on the first wait request;
    the complete response behind it is never asked for. *)
Lemma run_query_blocking_http_error_witness :
  (@run_query_blocking demo_libraries 4 sample_self 1%positive
     (sample_world
        [Answer (ndjson_response 200 [footer_running ["j1"]]);
         Answer (bare_response 503);
         Answer (ndjson_response 200 [sample_result; footer_done])])).1
  = Raise (HTTPError 503).
Proof.
  rewrite (@run_query_blocking_http_error demo_libraries sample_self
             1%positive 4 _
             [ndjson_response 200 [footer_running ["j1"]]]
             (bare_response 503)
             [Answer (ndjson_response 200 [sample_result; footer_done])]);
    script.
Defined.

(** C4, as stated, fails: 304 is not a 2xx status, and the call raises
    nothing; it returns [None]. *)
Lemma run_query_blocking_304_counterexample :
  let w := sample_world [Answer (bare_response 304)] in
  ¬ (200 <= status_code (bare_response 304) < 300) ∧
  @run_query_blocking demo_libraries 3 sample_self 1%positive w =
    (Return None, after w [run_request sample_self sample_body] []).
Proof. split; [simpl; lia | reflexivity]. Qed.

(** ** Dictionaries *)

Lemma dict_get_set_eq (k : string) (v : json) (d : dict) :
  dict_get k (dict_set k v d) = Some v.
Proof.
  induction d as [|[k' v'] d IH]; simpl.
  - by rewrite String.eqb_refl.
  - destruct (String.eqb k k') eqn:Hk; simpl; by rewrite Hk.
Qed.

Lemma dict_get_set_ne (k k' : string) (v : json) (d : dict) :
  k ≠ k' → dict_get k' (dict_set k v d) = dict_get k' d.
Proof.
  intros Hne. induction d as [|[k0 v0] d IH]; simpl.
  - apply String.eqb_neq in Hne. rewrite String.eqb_sym in Hne. by rewrite Hne.
  - destruct (String.eqb k k0) eqn:Hk; simpl; [|by rewrite IH].
    apply String.eqb_eq in Hk. subst k0.
    assert (String.eqb k' k = false) as ->; [|done].
    apply String.eqb_neq. congruence.
Qed.

Lemma dict_set_fresh (k : string) (v : json) (d : dict) :
  k ∉ dict_keys d → dict_set k v d = d ++ [(k, v)].
Proof.
  induction d as [|[k' v'] d IH]; simpl; intros Hk; [done|].
  apply not_elem_of_cons in Hk as [Hne Hk].
  apply String.eqb_neq in Hne. rewrite Hne. by rewrite IH.
Qed.

Lemma dict_keys_set (k : string) (v : json) (d : dict) :
  k ∈ dict_keys d → dict_keys (dict_set k v d) = dict_keys d.
Proof.
  induction d as [|[k' v'] d IH]; simpl; intros Hk.
  - by apply elem_of_nil in Hk.
  - destruct (String.eqb k k') eqn:Hkk; simpl; [done|].
    apply elem_of_cons in Hk as [->|Hk].
    + by rewrite String.eqb_refl in Hkk.
    + f_equal. by apply IH.
Qed.

(** ** The [create_*] helpers write into the caller's dictionary *)

Section Create.
Variables (self : OmniAPI) (body : loc) (w : world).

Lemma deref_insert (s : gmap loc dict) (d : dict) (i : list reply)
    (log : list request) :
  deref {| store := <[body := d]> s; inbox := i; sent := log |} body = d.
Proof. unfold deref. simpl. by rewrite lookup_insert_eq. Qed.

(** The shape shared by the helpers: write the keys, post the dictionary,
    parse the answer. *)
Lemma post_wrote (url : string) (w1 : world) (d' : dict) :
  store w1 = <[body := d']> (store w) →
  inbox w1 = inbox w →
  sent w1 = sent w →
  wrote self body w
    ((do response <- requests_post url (headers self) body ;;
      lift (text_json response))%py w1).2 url d'.
Proof.
  intros Hst Hin Hse.
  assert (deref w1 body = d') as Hd.
  { unfold deref. by rewrite Hst, lookup_insert_eq. }
  unfold bind, requests_post, exchange. rewrite Hd, Hin, Hse.
  assert (∀ w', store w' = store w1 →
            sent w' = sent w ++ [POST url (headers self) (JObj d')] →
            wrote self body w w' url d') as Hw.
  { intros w' Hst' Hse'. split; [congruence|]. split; [|done].
    unfold deref. by rewrite Hst', Hst, lookup_insert_eq. }
  destruct (inbox w) as [|[r|e] rest]; [by apply Hw| |by apply Hw].
  destruct (text_json r); by apply Hw.
Qed.

Lemma wrote_get (w' : world) (url k : string) (d' : dict) (v : json) :
  wrote self body w w' url d' →
  dict_get k d' = Some v →
  dict_get k (deref w' body) = Some v.
Proof. by intros (_ & -> & _). Qed.

(** C8. Each of [create_model], [create_topic], [create_view] and
    [create_field] stores its argument in the dictionary object the caller
    passed, before the request goes out: whatever the service answers,
    the caller's dictionary has the key afterwards, the other dictionaries
    of the store are as they were, and the request carries the dictionary
    with the key. *)
Theorem create_writes_caller_body
    (connection_id model_id base_view_name view_name field_name : string) :
  let d := deref w body in
  (wrote self body w (create_model self connection_id body w).2
     (base_model_url self)
     (dict_set "connectionId" (JStr connection_id) d) ∧
   dict_get "connectionId"
     (deref (create_model self connection_id body w).2 body)
     = Some (JStr connection_id)) ∧
  (wrote self body w (create_topic self model_id base_view_name body w).2
     (base_topic_url self model_id)
     (dict_set "baseViewName" (JStr base_view_name) d) ∧
   dict_get "baseViewName"
     (deref (create_topic self model_id base_view_name body w).2 body)
     = Some (JStr base_view_name)) ∧
  (wrote self body w (create_view self model_id view_name body w).2
     (base_view_url self model_id)
     (dict_set "viewName" (JStr view_name) d) ∧
   dict_get "viewName"
     (deref (create_view self model_id view_name body w).2 body)
     = Some (JStr view_name)) ∧
  (wrote self body w
     (create_field self model_id view_name field_name body w).2
     (base_field_url self model_id)
     (dict_set "viewName" (JStr view_name)
        (dict_set "fieldName" (JStr field_name) d)) ∧
   dict_get "fieldName"
     (deref (create_field self model_id view_name field_name body w).2 body)
     = Some (JStr field_name) ∧
   dict_get "viewName"
     (deref (create_field self model_id view_name field_name body w).2 body)
     = Some (JStr view_name)).
Proof.
  intros d.
  assert (∀ url k v,
            wrote self body w
              ((do _ <- setitem body k v ;;
                do response <- requests_post url (headers self) body ;;
                lift (text_json response))%py w).2 url (dict_set k v d))
    as Hone.
  { intros url k v. unfold bind at 1, setitem. by apply post_wrote. }
  assert (wrote self body w
            (create_field self model_id view_name field_name body w).2
            (base_field_url self model_id)
            (dict_set "viewName" (JStr view_name)
               (dict_set "fieldName" (JStr field_name) d))) as Htwo.
  { unfold create_field, bind at 1, setitem. unfold bind at 1.
    apply post_wrote; try done. cbn [store].
    rewrite deref_insert. by rewrite insert_insert_eq. }
  split; [|split; [|split]].
  - split; [apply Hone|].
    eapply wrote_get; [apply Hone | apply dict_get_set_eq].
  - split; [apply Hone|].
    eapply wrote_get; [apply Hone | apply dict_get_set_eq].
  - split; [apply Hone|].
    eapply wrote_get; [apply Hone | apply dict_get_set_eq].
  - split; [done|]. split.
    + eapply wrote_get; [apply Htwo|].
      rewrite dict_get_set_ne by done. apply dict_get_set_eq.
    + eapply wrote_get; [apply Htwo | apply dict_get_set_eq].
Qed.
End Create.

(** ** [listify] *)

Lemma string_of_list_ascii_snoc (l : list ascii) (a : ascii) :
  string_of_list_ascii (l ++ [a]) =
    string_of_list_ascii l +:+ String a EmptyString.
Proof.
  induction l as [|b l IH]; [reflexivity|].
  change (String b (string_of_list_ascii (l ++ [a])) =
          String b (string_of_list_ascii l +:+ String a EmptyString)).
  by rewrite IH.
Qed.

Lemma append_empty_r (s : string) : s +:+ EmptyString = s.
Proof.
  induction s as [|x s IH]; [reflexivity|].
  change (String x (s +:+ EmptyString) = String x s). by rewrite IH.
Qed.

Lemma str_contains_char (c : ascii) (s : string) :
  str_contains (String c EmptyString) s = mem_char c s.
Proof.
  unfold mem_char.
  induction s as [|a s IH];
    cbn [str_contains String.prefix list_ascii_of_string].
  - symmetry. apply bool_decide_eq_false. apply not_elem_of_nil.
  - rewrite IH. destruct (ascii_dec c a) as [->|Hne]; cbn [orb].
    + assert (String.prefix EmptyString s = true) as -> by (by destruct s).
      symmetry. apply bool_decide_eq_true. apply list_elem_of_here.
    + apply bool_decide_ext. rewrite elem_of_cons.
      split; [by right | by intros [?|?]].
Qed.

Lemma str_remove_brackets (s : string) :
  str_remove "]" (str_remove "[" s) = without_brackets s.
Proof.
  unfold without_brackets. induction s as [|a s IH]; simpl; [done|].
  rewrite filter_cons.
  destruct (Ascii.eqb a "[") eqn:Ho.
  - apply Ascii.eqb_eq in Ho. subst a.
    rewrite decide_False by (by intros [? ?]). done.
  - apply Ascii.eqb_neq in Ho. simpl.
    destruct (Ascii.eqb a "]") eqn:Hc.
    + apply Ascii.eqb_eq in Hc. subst a.
      rewrite decide_False by (by intros [? ?]). done.
    + apply Ascii.eqb_neq in Hc.
      rewrite decide_True by done. simpl. by rewrite IH.
Qed.

Lemma str_split_nonempty (sep : ascii) (s : string) : str_split sep s ≠ [].
Proof.
  induction s as [|a s IH]; simpl; [done|].
  destruct (Ascii.eqb a sep); [done|]. by destruct (str_split sep s).
Qed.

Lemma append_assoc (a b c : string) : (a +:+ b) +:+ c = a +:+ (b +:+ c).
Proof.
  induction a as [|x a IH]; [reflexivity|].
  change (String x ((a +:+ b) +:+ c) = String x (a +:+ (b +:+ c))).
  by rewrite IH.
Qed.

Lemma pieces_str_split (sep : ascii) (s : string) :
  ∀ cur : list ascii,
    pieces sep (list_ascii_of_string s) cur =
      match str_split sep s with
      | w :: ws => (string_of_list_ascii (rev cur) +:+ w) :: ws
      | [] => []
      end.
Proof.
  induction s as [|a s IH]; intros cur; simpl.
  - by rewrite append_empty_r.
  - destruct (Ascii.eqb a sep).
    + rewrite IH. simpl.
      pose proof (str_split_nonempty sep s).
      destruct (str_split sep s) as [|w ws]; [done|].
      rewrite append_empty_r. reflexivity.
    + rewrite IH. simpl rev. rewrite string_of_list_ascii_snoc.
      pose proof (str_split_nonempty sep s).
      destruct (str_split sep s) as [|w ws]; [done|].
      rewrite append_assoc. reflexivity.
Qed.

Lemma str_split_pieces (sep : ascii) (s : string) :
  str_split sep s = pieces sep (list_ascii_of_string s) [].
Proof.
  rewrite pieces_str_split. simpl.
  pose proof (str_split_nonempty sep s). by destruct (str_split sep s).
Qed.

(** On a string, [listify_value] computes the documented value. *)
Lemma listify_value_str (s : string) :
  listify_value (JStr s) = Ok (listify_spec_value s).
Proof.
  unfold listify_value, listify_spec_value. simpl.
  rewrite !str_contains_char.
  destruct (mem_char "[" s); simpl; [|done].
  destruct (mem_char "]" s); simpl; [|done].
  by rewrite str_remove_brackets, str_split_pieces.
Qed.

Lemma listify_loop_fresh (items : list (string * json)) :
  ∀ out : dict,
    NoDup (dict_keys out ++ dict_keys items) →
    string_valued items →
    listify_loop items out =
      Ok (out ++ map (fun kv => (kv.1, listify_spec_value (str_of kv.2))) items).
Proof.
  induction items as [|[k v] items IH]; intros out Hnd Hstr; simpl.
  - by rewrite app_nil_r.
  - inversion Hstr as [|? ? [s Hs] Hstr']; subst. simpl in Hs. subst v.
    rewrite listify_value_str. simpl.
    assert (k ∉ dict_keys out) as Hk.
    { apply NoDup_app in Hnd as (_ & Hdis & _). intros Hin.
      apply (Hdis k Hin). simpl. apply list_elem_of_here. }
    rewrite (dict_set_fresh _ _ _ Hk).
    rewrite IH; [by rewrite <- app_assoc| |done].
    unfold dict_keys in *. rewrite map_app. simpl.
    rewrite <- app_assoc. done.
Qed.

Lemma dict_get_map_values (g : json → json) (k : string) (d : dict) :
  dict_get k (map (fun kv => (kv.1, g kv.2)) d) = g <$> dict_get k d.
Proof.
  induction d as [|[k' v] d IH]; simpl; [done|].
  by destruct (String.eqb k k').
Qed.

(** C10. For a dictionary whose values are strings, [listify] returns a
    dictionary with the same keys, in the same order; under each key is the
    documented value of the string that was there: the list of the
    comma-separated pieces of the string without its brackets when the string
    has both a ['['] and a [']'], the string itself otherwise. *)
Theorem listify_on_strings (d : dict) :
  NoDup (dict_keys d) →
  string_valued d →
  ∃ out : dict,
    listify d = Ok out ∧
    dict_keys out = dict_keys d ∧
    (∀ (k : string) (s : string),
       dict_get k d = Some (JStr s) →
       dict_get k out = Some (listify_spec_value s)) ∧
    (∀ (k : string) (s : string),
       dict_get k d = Some (JStr s) →
       mem_char "[" s && mem_char "]" s = false →
       dict_get k out = Some (JStr s)).
Proof.
  intros Hnd Hstr.
  exists (map (fun kv => (kv.1, listify_spec_value (str_of kv.2))) d).
  assert (∀ k s, dict_get k d = Some (JStr s) →
            dict_get k (map (fun kv => (kv.1, listify_spec_value (str_of kv.2))) d)
            = Some (listify_spec_value s)) as Hget.
  { intros k s Hk.
    rewrite (dict_get_map_values (fun v => listify_spec_value (str_of v))).
    by rewrite Hk. }
  split; [|split; [|split]].
  - unfold listify. by rewrite (listify_loop_fresh d []).
  - unfold dict_keys. rewrite map_map. done.
  - done.
  - intros k s Hk Hno. rewrite (Hget k s Hk).
    unfold listify_spec_value. by rewrite Hno.
Qed.

(** C10 on a dictionary with one bracketed value and one plain value. *)
Lemma listify_on_strings_witness :
  ∃ out : dict,
    listify [("groups", JStr "[a, b]"); ("team", JStr "core")] = Ok out ∧
    dict_keys out = ["groups"; "team"] ∧
    dict_get "groups" out = Some (JArr [JStr "a"; JStr " b"]) ∧
    dict_get "team" out = Some (JStr "core").
Proof.
  destruct (listify_on_strings [("groups", JStr "[a, b]"); ("team", JStr "core")])
    as (out & Hout & Hkeys & Hval & Hsame).
  - apply (bool_decide_unpack _). reflexivity.
  - repeat constructor; simpl; eauto.
  - exists out. split; [done|]. split; [done|]. split.
    + apply (Hval "groups" "[a, b]"). reflexivity.
    + apply (Hsame "team" "core"); reflexivity.
Defined.

(** ** The base64 instance gives back what it encoded *)

Module Base64Facts.
Import Base64.
Local Open Scope N_scope.

(** A property checked on every value below a bound. *)
Lemma below_checked (bound : nat) (P : N → bool) :
  forallb P (map N.of_nat (seq 0 bound)) = true →
  ∀ n : N, n < N.of_nat bound → P n = true.
Proof.
  intros Hall n Hn. rewrite forallb_forall in Hall. apply Hall.
  apply in_map_iff. exists (N.to_nat n). split; [apply N2Nat.id|].
  apply in_seq. split; [lia|]. simpl. lia.
Qed.

Lemma below_checked2 (bound : nat) (P : N → N → bool) :
  forallb (fun a => forallb (P a) (map N.of_nat (seq 0 bound)))
    (map N.of_nat (seq 0 bound)) = true →
  ∀ a b : N, a < N.of_nat bound → b < N.of_nat bound → P a b = true.
Proof.
  intros Hall a b Ha Hb.
  apply (below_checked bound (P a)); [|done].
  apply (below_checked bound
           (fun a => forallb (P a) (map N.of_nat (seq 0 bound)))); done.
Qed.

Lemma a2b_b2a (v : N) : v < 64 → a2b (b2a v) = Some v.
Proof.
  intros Hv.
  assert ((if a2b (b2a v) is Some v' then v' =? v else false) = true) as H.
  { revert v Hv. apply (below_checked 64). by vm_compute. }
  destruct (a2b (b2a v)); [|done]. apply N.eqb_eq in H. by subst.
Qed.

Lemma b2a_not_pad (v : N) : Ascii.eqb (b2a v) PAD = false.
Proof.
  unfold b2a.
  destruct (N.ltb_spec v 26); [|destruct (N.ltb_spec v 52);
    [|destruct (N.ltb_spec v 62); [|destruct (v =? 62); done]]];
    apply Ascii.eqb_neq; intros Heq;
    apply (f_equal N_of_ascii) in Heq;
    rewrite N_ascii_embedding in Heq by lia;
    change (N_of_ascii PAD) with 61 in Heq; lia.
Qed.

Lemma b2a_ascii (v : N) : (N_of_ascii (b2a v) <? 128) = true.
Proof.
  unfold b2a.
  destruct (N.ltb_spec v 26); [|destruct (N.ltb_spec v 52);
    [|destruct (N.ltb_spec v 62); [|destruct (v =? 62); done]]];
    rewrite N_ascii_embedding by lia; apply N.ltb_lt; lia.
Qed.

(** One character of the alphabet through the loop. *)
Lemma decode_loop_sextet (v : N) (s : string) (quad_pos : nat)
    (leftchar : N) (pads : nat) (out : list Byte.byte) :
  v < 64 →
  decode_loop (String (b2a v) s) quad_pos leftchar pads out =
    match quad_pos with
    | 0%nat => decode_loop s 1 v 0 out
    | 1%nat =>
        decode_loop s 2 (N.land v 15) 0
          (out ++ [to_byte (N.lor (N.shiftl leftchar 2) (N.shiftr v 4))])
    | 2%nat =>
        decode_loop s 3 (N.land v 3) 0
          (out ++ [to_byte (N.lor (N.shiftl leftchar 4) (N.shiftr v 2))])
    | _ =>
        decode_loop s 0 0 0
          (out ++ [to_byte (N.lor (N.shiftl leftchar 6) v)])
    end.
Proof.
  intros Hv. cbn [decode_loop]. by rewrite b2a_not_pad, (a2b_b2a v Hv).
Qed.

Lemma to_byte_to_N (x : Byte.byte) : to_byte (Byte.to_N x) = x.
Proof.
  unfold to_byte. pose proof (Byte.to_N_bounded x).
  replace (N.land (Byte.to_N x) 255) with (Byte.to_N x).
  - by rewrite Byte.of_to_N.
  - change 255 with (N.ones 8). rewrite N.land_ones.
    symmetry. apply N.mod_small. simpl. lia.
Qed.

(** The arithmetic of a group, on numbers below 256. *)
Lemma sextets_bounded (a b : N) :
  a < 256 → b < 256 →
  N.shiftr a 2 < 64 ∧
  N.lor (N.shiftl (N.land a 3) 4) (N.shiftr b 4) < 64 ∧
  N.lor (N.shiftl (N.land a 15) 2) (N.shiftr b 6) < 64 ∧
  N.land a 63 < 64 ∧
  N.shiftl (N.land a 3) 4 < 64 ∧
  N.shiftl (N.land a 15) 2 < 64.
Proof.
  intros Ha Hb.
  assert ((N.shiftr a 2 <? 64)
          && (N.lor (N.shiftl (N.land a 3) 4) (N.shiftr b 4) <? 64)
          && (N.lor (N.shiftl (N.land a 15) 2) (N.shiftr b 6) <? 64)
          && (N.land a 63 <? 64)
          && (N.shiftl (N.land a 3) 4 <? 64)
          && (N.shiftl (N.land a 15) 2 <? 64) = true) as H.
  { revert a b Ha Hb. apply (below_checked2 256). by vm_compute. }
  repeat (apply andb_prop in H as [H ?]). repeat split; by apply N.ltb_lt.
Qed.

Lemma regroup (a b : N) :
  a < 256 → b < 256 →
  (* first byte, from the first two characters *)
  N.lor (N.shiftl (N.shiftr a 2) 2)
    (N.shiftr (N.lor (N.shiftl (N.land a 3) 4) (N.shiftr b 4)) 4) = a ∧
  N.lor (N.shiftl (N.shiftr a 2) 2)
    (N.shiftr (N.shiftl (N.land a 3) 4) 4) = a ∧
  (* what the second character leaves for the second byte *)
  N.land (N.lor (N.shiftl (N.land a 3) 4) (N.shiftr b 4)) 15
    = N.shiftr b 4 ∧
  (* what the third character brings to the second byte, and leaves *)
  N.shiftr (N.lor (N.shiftl (N.land a 15) 2) (N.shiftr b 6)) 2
    = N.land a 15 ∧
  N.shiftr (N.shiftl (N.land a 15) 2) 2 = N.land a 15 ∧
  N.land (N.lor (N.shiftl (N.land a 15) 2) (N.shiftr b 6)) 3
    = N.shiftr b 6 ∧
  (* second and third byte *)
  N.lor (N.shiftl (N.shiftr a 4) 4) (N.land a 15) = a ∧
  N.lor (N.shiftl (N.shiftr a 6) 6) (N.land a 63) = a.
Proof.
  intros Ha Hb.
  assert ((N.lor (N.shiftl (N.shiftr a 2) 2)
             (N.shiftr (N.lor (N.shiftl (N.land a 3) 4) (N.shiftr b 4)) 4)
           =? a)
          && (N.lor (N.shiftl (N.shiftr a 2) 2)
                (N.shiftr (N.shiftl (N.land a 3) 4) 4) =? a)
          && (N.land (N.lor (N.shiftl (N.land a 3) 4) (N.shiftr b 4)) 15
              =? N.shiftr b 4)
          && (N.shiftr (N.lor (N.shiftl (N.land a 15) 2) (N.shiftr b 6)) 2
              =? N.land a 15)
          && (N.shiftr (N.shiftl (N.land a 15) 2) 2 =? N.land a 15)
          && (N.land (N.lor (N.shiftl (N.land a 15) 2) (N.shiftr b 6)) 3
              =? N.shiftr b 6)
          && (N.lor (N.shiftl (N.shiftr a 4) 4) (N.land a 15) =? a)
          && (N.lor (N.shiftl (N.shiftr a 6) 6) (N.land a 63) =? a)
          = true) as H.
  { revert a b Ha Hb. apply (below_checked2 256). by vm_compute. }
  repeat (apply andb_prop in H as [H ?]).
  repeat split; by apply N.eqb_eq.
Qed.

(** Induction on a list of bytes in groups of three. *)
Lemma groups_ind (P : list Byte.byte → Prop) :
  P [] →
  (∀ x, P [x]) →
  (∀ x y, P [x; y]) →
  (∀ x y z l, P l → P (x :: y :: z :: l)) →
  ∀ l, P l.
Proof.
  intros H0 H1 H2 H3.
  assert (∀ l, P l ∧ (∀ x, P (x :: l)) ∧ (∀ x y, P (x :: y :: l))) as H.
  { induction l as [|z l (IH0 & IH1 & IH2)]; [by repeat split|].
    repeat split; [apply IH1 | intros; apply IH2 |].
    intros x y. by apply H3. }
  intros l. apply H.
Qed.

Lemma encode_is_ascii (bs : list Byte.byte) : is_ascii (encode bs) = true.
Proof.
  induction bs as [|x|x y|x y z l IH] using groups_ind;
    cbn [encode is_ascii]; rewrite ?b2a_ascii, ?IH; reflexivity.
Qed.

Lemma decode_loop_encode (bs : list Byte.byte) :
  ∀ out : list Byte.byte,
    decode_loop (encode bs) 0 0 0 out = Ok (out ++ bs).
Proof.
  induction bs as [|x|x y|x y z l IH] using groups_ind; intros out.
  - simpl. by rewrite app_nil_r.
  - pose proof (Byte.to_N_bounded x) as Hx.
    destruct (sextets_bounded (Byte.to_N x) 0) as (S1 & _ & _ & _ & S2 & _);
      [lia..|].
    destruct (regroup (Byte.to_N x) 0) as (_ & R & _); [lia..|].
    cbn [encode]. rewrite !decode_loop_sextet by done.
    rewrite R, to_byte_to_N. reflexivity.
  - pose proof (Byte.to_N_bounded x) as Hx.
    pose proof (Byte.to_N_bounded y) as Hy.
    destruct (sextets_bounded (Byte.to_N x) (Byte.to_N y))
      as (S1 & S2 & _); [lia..|].
    destruct (sextets_bounded (Byte.to_N y) 0) as (_ & _ & _ & _ & _ & S3);
      [lia..|].
    destruct (regroup (Byte.to_N x) (Byte.to_N y)) as (R1 & _ & R2 & _);
      [lia..|].
    destruct (regroup (Byte.to_N y) 0) as (_ & _ & _ & _ & R3 & _ & R4 & _);
      [lia..|].
    cbn [encode]. rewrite !decode_loop_sextet by done.
    rewrite R1, R2, R3, R4, !to_byte_to_N, <- app_assoc. reflexivity.
  - pose proof (Byte.to_N_bounded x) as Hx.
    pose proof (Byte.to_N_bounded y) as Hy.
    pose proof (Byte.to_N_bounded z) as Hz.
    destruct (sextets_bounded (Byte.to_N x) (Byte.to_N y))
      as (S1 & S2 & _); [lia..|].
    destruct (sextets_bounded (Byte.to_N y) (Byte.to_N z))
      as (_ & _ & S3 & _); [lia..|].
    destruct (sextets_bounded (Byte.to_N z) 0) as (_ & _ & _ & S4 & _);
      [lia..|].
    destruct (regroup (Byte.to_N x) (Byte.to_N y)) as (R1 & _ & R2 & _);
      [lia..|].
    destruct (regroup (Byte.to_N y) (Byte.to_N z))
      as (_ & _ & _ & R3 & _ & R5 & R4 & _); [lia..|].
    destruct (regroup (Byte.to_N z) 0) as (_ & _ & _ & _ & _ & _ & _ & R6);
      [lia..|].
    cbn [encode]. rewrite !decode_loop_sextet by done.
    rewrite R1, R2, R3, R4, R5, R6, !to_byte_to_N, IH, <- !app_assoc.
    reflexivity.
Qed.

(** Decoding an encoded byte string gives the byte string back. *)
Lemma decode_encode (bs : list Byte.byte) : decode (encode bs) = Ok bs.
Proof.
  unfold decode. by rewrite encode_is_ascii, decode_loop_encode.
Qed.
End Base64Facts.

(** ** The pieces of a split string

    What the documented conversion calls the comma-separated pieces: joined
    with the separator they give the string back, and no piece contains the
    separator. *)

Lemma string_of_list_ascii_app' (l1 l2 : list ascii) :
  string_of_list_ascii (l1 ++ l2) =
    string_of_list_ascii l1 +:+ string_of_list_ascii l2.
Proof.
  induction l1 as [|a l1 IH]; [reflexivity|].
  change (String a (string_of_list_ascii (l1 ++ l2)) =
          String a (string_of_list_ascii l1 +:+ string_of_list_ascii l2)).
  by rewrite IH.
Qed.

Lemma pieces_nonempty (sep : ascii) (cs cur : list ascii) :
  pieces sep cs cur ≠ [].
Proof.
  revert cur. induction cs as [|a cs IH]; intros cur; simpl; [done|].
  destruct (Ascii.eqb a sep); [done | apply IH].
Qed.

Lemma pieces_join (sep : ascii) (cs : list ascii) :
  ∀ cur : list ascii,
    String.concat (String sep EmptyString) (pieces sep cs cur) =
      string_of_list_ascii (rev cur ++ cs).
Proof.
  induction cs as [|a cs IH]; intros cur; simpl.
  - by rewrite app_nil_r.
  - destruct (Ascii.eqb a sep) eqn:Ha.
    + apply Ascii.eqb_eq in Ha. subst a.
      pose proof (pieces_nonempty sep cs []) as Hne.
      specialize (IH []). simpl in IH.
      destruct (pieces sep cs []) as [|p ps]; [done|].
      change (string_of_list_ascii (rev cur)
                +:+ (String sep EmptyString
                       +:+ String.concat (String sep EmptyString) (p :: ps))
              = string_of_list_ascii (rev cur ++ sep :: cs)).
      rewrite IH, string_of_list_ascii_app'. reflexivity.
    + rewrite IH. simpl. by rewrite <- app_assoc.
Qed.

Lemma pieces_no_sep (sep : ascii) (cs : list ascii) :
  ∀ cur : list ascii,
    sep ∉ cur →
    Forall (fun p => sep ∉ list_ascii_of_string p) (pieces sep cs cur).
Proof.
  induction cs as [|a cs IH]; intros cur Hcur; simpl.
  - constructor; [|constructor].
    rewrite list_ascii_of_string_of_list_ascii. by rewrite list_elem_of_In, <- in_rev, <- list_elem_of_In.
  - destruct (Ascii.eqb a sep) eqn:Ha.
    + constructor.
      * rewrite list_ascii_of_string_of_list_ascii. by rewrite list_elem_of_In, <- in_rev, <- list_elem_of_In.
      * apply IH. apply not_elem_of_nil.
    + apply IH. apply Ascii.eqb_neq in Ha.
      rewrite not_elem_of_cons. split; [congruence | done].
Qed.

(** [sep.join(s.split(sep)) == s], for the split of the code. *)
Lemma str_split_join (sep : ascii) (s : string) :
  String.concat (String sep EmptyString) (str_split sep s) = s.
Proof.
  rewrite str_split_pieces, pieces_join. simpl.
  apply string_of_list_ascii_of_string.
Qed.

(** ** The stand-in stream gives back the table it was written from *)

Module MiniIPCFacts.
Import MiniIPC.

Lemma nat_of_byte_of_nat (n : nat) :
  (n < 256)%nat → nat_of_byte (byte_of_nat n) = n.
Proof.
  intros Hn. unfold nat_of_byte, byte_of_nat.
  rewrite N.mod_small by lia.
  destruct (Byte.of_N (N.of_nat n)) as [b|] eqn:Hb.
  - apply Byte.to_of_N in Hb. simpl. rewrite Hb. lia.
  - exfalso. pose proof (Byte.to_of_N_option_map (N.of_nat n)) as H.
    rewrite Hb in H. simpl in H.
    destruct (N.leb_spec (N.of_nat n) 255); [done | lia].
Qed.

Lemma length_list_byte_of_string (s : string) :
  length (list_byte_of_string s) = String.length s.
Proof.
  induction s as [|a s IH]; [done|].
  change (S (length (list_byte_of_string s)) = S (String.length s)).
  by rewrite IH.
Qed.

Lemma read_loop_column (fuel : nat) (name : string)
    (vals rest : list Byte.byte) (acc : table) :
  fits (name, vals) →
  read_loop (S fuel) (write_column (name, vals) ++ rest) acc =
    read_loop fuel rest (acc ++ [(name, vals)]).
Proof.
  intros [Hn Hv]. simpl in Hn, Hv.
  unfold write_column. cbn [fst snd].
  rewrite <- length_list_byte_of_string in Hn.
  set (nb := list_byte_of_string name) in *.
  cbn [app read_loop].
  rewrite (nat_of_byte_of_nat _ Hn).
  rewrite <- app_assoc, take_app_length, drop_app_length.
  cbn [app]. rewrite (nat_of_byte_of_nat _ Hv).
  rewrite Nat.ltb_irrefl, take_app_length, drop_app_length, length_app.
  replace (length vals + length rest <? length vals)%nat with false
    by (symmetry; apply Nat.ltb_ge; lia).
  cbn [orb]. unfold nb. by rewrite string_of_list_byte_of_string.
Qed.

Lemma read_loop_write (t : table) :
  ∀ (fuel : nat) (acc : table),
    Forall fits t →
    (length t ≤ fuel)%nat →
    read_loop fuel (write t) acc = Ok (acc ++ t).
Proof.
  induction t as [|[name vals] t IH]; intros fuel acc Hfits Hfuel.
  - destruct fuel; simpl; by rewrite app_nil_r.
  - inversion Hfits as [|? ? Hc Hfits']; subst.
    destruct fuel as [|fuel]; [simpl in Hfuel; lia|].
    change (write ((name, vals) :: t))
      with (write_column (name, vals) ++ write t).
    rewrite (read_loop_column fuel name vals (write t) acc Hc).
    rewrite IH; [by rewrite <- app_assoc | done | simpl in Hfuel; lia].
Qed.

Lemma length_write (t : table) : (length t ≤ length (write t))%nat.
Proof.
  induction t as [|c t IH]; [done|].
  change (write (c :: t)) with (write_column c ++ write t).
  unfold write_column. rewrite length_app. simpl. lia.
Qed.

(** Reading a written table of fitting columns gives the table back. *)
Lemma read_all_write (t : table) :
  Forall fits t → read_all (write t) = Ok t.
Proof.
  intros Hfits. unfold read_all.
  by rewrite (read_loop_write t _ [] Hfits (length_write t)).
Qed.
End MiniIPCFacts.

(** * Further properties of the query path *)

Section Tail.
Variables (self : OmniAPI) (w : world).

Lemma exchange_blocked (q : request) :
  inbox w = [] → exchange q w = (Blocked, after w [q] []).
Proof. intros Hin. unfold exchange. by rewrite Hin. Qed.

Lemma exchange_broken (q : request) (e : exn) (rest : list reply) :
  inbox w = Broken e :: rest → exchange q w = (Raise e, after w [q] rest).
Proof. intros Hin. unfold exchange. by rewrite Hin. Qed.

Lemma wait_blocked (ids : json) :
  inbox w = [] →
  wait_query_blocking self ids w =
    (Blocked, after w [wait_request self ids] []).
Proof.
  intros Hin. unfold wait_query_blocking, requests_get, bind.
  by rewrite (exchange_blocked _ Hin).
Qed.

Lemma wait_broken (ids : json) (e : exn) (rest : list reply) :
  inbox w = Broken e :: rest →
  wait_query_blocking self ids w =
    (Raise e, after w [wait_request self ids] rest).
Proof.
  intros Hin. unfold wait_query_blocking, requests_get, bind.
  by rewrite (exchange_broken _ e rest Hin).
Qed.

(** A 200 answer to a wait request: the outcome is what reading the flag
    gives. *)
Lemma wait_200 (ids : json) (r : response) (rest : list reply) :
  inbox w = Answer r :: rest →
  status_code r = 200 →
  wait_query_blocking self ids w =
    (match read_flag r with
     | Ok p => Return (Some p)
     | Err e => Raise e
     end, after w [wait_request self ids] rest).
Proof.
  intros Hin Hs. unfold wait_query_blocking, requests_get, bind, read_flag.
  rewrite (exchange_answer w r rest Hin), Hs. simpl.
  destruct (text_ndjson r) as [rj|]; simpl; [|done].
  destruct (py_last rj) as [f|]; simpl; [|done].
  by destruct (py_getitem f "timed_out").
Qed.
End Tail.

Section Beyond.
Context `{L : Libraries}.
Variables (self : OmniAPI) (body : loc).

(** After a run of pending answers, the call is what its next wait request
    makes of the rest of the script. *)
Lemma run_then_wait (fuel : nat) (w : world) (r0 : response)
    (ps : list response) (tail : list reply) :
  polled (r0 :: ps) →
  inbox w = map Answer (r0 :: ps) ++ tail →
  (S (length ps) ≤ fuel)%nat →
  ∃ (F ids : json),
    footer_of r0 = Some F ∧
    job_ids_of r0 = Some ids ∧
    run_query_blocking fuel self body w =
      match wait_query_blocking self ids
              (after w (run_request self (deref w body)
                          :: replicate (length ps) (wait_request self ids))
                 tail) with
      | (Return (Some p), w') =>
          bind (poll (fuel - S (length ps)) self F p.1 p.2) finish w'
      | (Return None, w') => (Raise TypeError, w')
      | (Raise e, w') => (Raise e, w')
      | (Blocked, w') => (Blocked, w')
      | (OutOfFuel, w') => (OutOfFuel, w')
      end.
Proof.
  intros Hp Hin Hfuel.
  pose proof Hp as [Hpend [ids Hids]].
  inversion Hpend as [|? ? [Hs0 (v0 & Hv0 & _)] _]; subst.
  destruct (footer_field_inv _ _ _ Hv0) as (rj0 & d0 & Hrj0 & Hl0 & _).
  assert (footer_of r0 = Some (JObj d0)) as HF.
  { unfold footer_of. by rewrite Hrj0. }
  exists (JObj d0), ids. split; [done|]. split; [done|].
  replace fuel with (length ps + S (fuel - S (length ps)))%nat at 1 by lia.
  destruct (run_polled self body r0 ps (S (fuel - S (length ps))) w
              tail (JObj d0) ids Hp HF Hids Hin) as [-> HFids].
  unfold bind at 1. rewrite (poll_unfold self (JObj d0) ids HFids).
  destruct (wait_query_blocking self ids _) as [[[p|]| | |] w']; done.
Qed.

Lemma requests_for_cons (d : dict) (r0 : response) (ps : list response)
    (ids : json) :
  job_ids_of r0 = Some ids →
  requests_for self d (r0 :: ps) =
    (run_request self d :: replicate (length ps) (wait_request self ids))
      ++ [wait_request self ids].
Proof.
  intros Hids. unfold requests_for, first_job_ids. rewrite Hids. simpl.
  f_equal. by rewrite <- replicate_cons_app.
Qed.

(** X2. Polling has no cap: as long as the service answers that the query is
    still running, the call sends one more wait request; after [n] pending
    answers it has sent [n] wait requests and waits for the next answer. *)
Theorem run_query_blocking_keeps_polling (fuel : nat) (w : world)
    (rs : list response) :
  polled rs →
  rs ≠ [] →
  inbox w = map Answer rs →
  (length rs ≤ fuel)%nat →
  run_query_blocking fuel self body w =
    (Blocked, after w (requests_for self (deref w body) rs) []) ∧
  wait_count (requests_for self (deref w body) rs) = length rs.
Proof.
  intros Hp Hne Hin Hfuel. destruct rs as [|r0 ps]; [done|]. split.
  - rewrite <- (app_nil_r (map Answer (r0 :: ps))) in Hin.
    destruct (run_then_wait fuel w r0 ps [] Hp Hin Hfuel)
      as (F & ids & _ & Hids & ->).
    rewrite wait_blocked by done. rewrite after_after.
    by rewrite (requests_for_cons _ r0 ps ids Hids).
  - unfold requests_for.
    change (run_request self (deref w body) :: ?l)
      with ([run_request self (deref w body)] ++ l).
    rewrite wait_count_app, wait_count_replicate. done.
Qed.

(** X3. A failure of the transport itself, on the submission or on any wait
    request, reaches the caller as it is, and ends the call: the failed
    request is the last one. *)
Theorem run_query_blocking_transport_failure (fuel : nat) (w : world)
    (rs : list response) (e : exn) (rest : list reply) :
  polled rs →
  inbox w = map Answer rs ++ Broken e :: rest →
  (length rs ≤ fuel)%nat →
  run_query_blocking fuel self body w =
    (Raise e, after w (requests_for self (deref w body) rs) rest).
Proof.
  intros Hp Hin Hfuel. destruct rs as [|r0 ps].
  - simpl in Hin. unfold run_query_blocking, requests_post, bind.
    by rewrite (exchange_broken w _ e rest Hin).
  - destruct (run_then_wait fuel w r0 ps (Broken e :: rest) Hp Hin Hfuel)
      as (F & ids & _ & Hids & ->).
    rewrite (wait_broken self _ ids e rest) by done. rewrite after_after.
    by rewrite (requests_for_cons _ r0 ps ids Hids).
Qed.
End Beyond.

Section Edges.
Context `{L : Libraries}.
Variables (self : OmniAPI) (body : loc).

(** The submission answered by a 200: the call is what reading the flag
    gives, then the loop. *)
Lemma run_200 (fuel : nat) (w : world) (r : response) (rest : list reply) :
  inbox w = Answer r :: rest →
  status_code r = 200 →
  run_query_blocking fuel self body w =
    match read_flag r with
    | Err e => (Raise e, after w [run_request self (deref w body)] rest)
    | Ok p =>
        bind (poll fuel self (default JNull (footer_of r)) p.1 p.2) finish
          (after w [run_request self (deref w body)] rest)
    end.
Proof.
  intros Hin Hs.
  unfold run_query_blocking, requests_post, bind at 1, read_flag, footer_of.
  rewrite (exchange_answer w r rest Hin), Hs. simpl.
  unfold bind at 1. destruct (text_ndjson r) as [rj|]; simpl; [|done].
  unfold bind at 1, py_last. destruct (last rj) as [f|]; simpl; [|done].
  unfold bind at 1. by destruct (py_getitem f "timed_out").
Qed.

(** What reading the flag raises when the footer has no [timed_out] to
    read. *)
Lemma read_flag_unreadable (r : response) :
  footer_field "timed_out" r = None →
  read_flag r =
    Err (match text_ndjson r with
         | Err e => e
         | Ok rj =>
             match last rj with
             | None => IndexError
             | Some (JObj _) => KeyError "timed_out"
             | Some _ => TypeError
             end
         end).
Proof.
  unfold footer_field, footer_of, read_flag, py_last.
  destruct (text_ndjson r) as [rj|]; simpl; [|done].
  destruct (last rj) as [[| | | | |d]|]; simpl; try done.
  by intros ->.
Qed.

(** X4. A 200 answer without a readable [timed_out], to the submission or to
    a wait request, ends the call with the exception of the step that
    fails: the parser's error when the text is not NDJSON, IndexError when
    it has no record, TypeError when the last record is not an object,
    KeyError when the object has no [timed_out]. No further request is
    issued. *)
Theorem run_query_blocking_unreadable_answer (fuel : nat) (w : world)
    (rs : list response) (r : response) (rest : list reply) :
  polled rs →
  inbox w = map Answer rs ++ Answer r :: rest →
  status_code r = 200 →
  footer_field "timed_out" r = None →
  (length rs ≤ fuel)%nat →
  run_query_blocking fuel self body w =
    (Raise (match text_ndjson r with
            | Err e => e
            | Ok rj =>
                match last rj with
                | None => IndexError
                | Some (JObj _) => KeyError "timed_out"
                | Some _ => TypeError
                end
            end),
     after w (requests_for self (deref w body) rs) rest).
Proof.
  intros Hp Hin Hs Hnone Hfuel.
  pose proof (read_flag_unreadable r Hnone) as Hflag.
  destruct rs as [|r0 ps].
  - simpl in Hin. by rewrite (run_200 fuel w r rest Hin Hs), Hflag.
  - destruct (run_then_wait self body fuel w r0 ps (Answer r :: rest)
                Hp Hin Hfuel) as (F & ids & _ & Hids & ->).
    rewrite (wait_200 self _ ids r rest) by done.
    rewrite Hflag, after_after.
    by rewrite (requests_for_cons self _ r0 ps ids Hids).
Qed.

(** X5. When the answer to the submission says the query is still running
    but its footer has no [remaining_job_ids], the call fails with KeyError
    on that key before any wait request. *)
Theorem run_query_blocking_no_job_ids (fuel : nat) (w : world)
    (r0 : response) (rest : list reply) :
  inbox w = Answer r0 :: rest →
  pending r0 →
  job_ids_of r0 = None →
  (1 ≤ fuel)%nat →
  run_query_blocking fuel self body w =
    (Raise (KeyError "remaining_job_ids"),
     after w [run_request self (deref w body)] rest).
Proof.
  intros Hin [Hs (v & Hv & Hne)] Hids Hfuel.
  destruct (footer_field_inv _ _ _ Hv) as (rj & d & Hrj & Hl & Hd).
  rewrite (run_200 fuel w r0 rest Hin Hs).
  unfold read_flag, footer_of, py_last. rewrite Hrj. simpl. rewrite Hl. simpl.
  rewrite Hd. simpl. apply py_eq_str_false in Hne. rewrite Hne.
  destruct fuel as [|fuel]; [lia|].
  unfold bind. rewrite (poll_no_ids self (JObj d) fuel rj _
                          (KeyError "remaining_job_ids")); [done|].
  unfold job_ids_of, footer_field, footer_of in Hids.
  rewrite Hrj, Hl in Hids. simpl. by rewrite Hids.
Qed.

(** X1. [run_query_blocking] reads the caller's dictionary and never writes
    to the store: whatever the service does, every dictionary is afterwards
    what it was. *)
Theorem run_query_blocking_keeps_store (fuel : nat) (w : world) :
  store (run_query_blocking fuel self body w).2 = store w.
Proof.
  unfold run_query_blocking, requests_post, exchange, bind at 1.
  destruct (inbox w) as [|[r|e] rest]; simpl; [done| |done].
  destruct (status_code r =? 200); [|by destruct (raise_for_status r)].
  unfold bind at 1. destruct (text_ndjson r) as [rj|]; simpl; [|done].
  unfold bind at 1. destruct (py_last rj) as [f|]; simpl; [|done].
  unfold bind at 1.
  destruct (py_getitem f "timed_out") as [v|]; simpl; [|done].
  set (w1 := {| store := store w; inbox := rest; sent := _ |}).
  assert (store (poll fuel self f rj (py_eq_str v "false") w1).2 = store w)
    as Hpoll.
  { destruct (py_getitem f "remaining_job_ids") as [ids|e] eqn:Hids.
    - by destruct (poll_sent self f ids Hids fuel rj (py_eq_str v "false") w1)
        as (_ & _ & ->).
    - destruct (py_eq_str v "false"); [by rewrite poll_done|].
      destruct fuel; [done|]. by rewrite (poll_no_ids self f _ _ _ e Hids). }
  unfold bind at 1.
  destruct (poll fuel self f rj (py_eq_str v "false") w1) as [[rj'| | |] w2];
    simpl in *; try done.
  unfold bind. by destruct (decode_result rj').
Qed.
End Edges.

(** ** What a returned result is made of *)

Lemma read_flag_done (r : response) (rj : list json) :
  status_code r = 200 →
  read_flag r = Ok (rj, true) →
  complete r ∧ records r = rj.
Proof.
  intros Hs. unfold read_flag, complete, footer_field, footer_of, records, py_last.
  destruct (text_ndjson r) as [rj0|]; simpl; [|done].
  destruct (last rj0) as [f|]; simpl; [|done].
  destruct f as [| | | | |d]; simpl; try done.
  destruct (dict_get "timed_out" d) as [v|]; simpl; [|done].
  intros [= -> Hv]. apply py_eq_str_true in Hv. by subst v.
Qed.

Lemma wait_returns_some (self : OmniAPI) (ids : json) (w w' : world)
    (p : list json * bool) :
  wait_query_blocking self ids w = (Return (Some p), w') →
  ∃ r rest, inbox w = Answer r :: rest ∧ status_code r = 200 ∧
            read_flag r = Ok p ∧ inbox w' = rest.
Proof.
  destruct (inbox w) as [|[r|e] rest] eqn:Hin.
  - by rewrite (wait_blocked self w ids Hin).
  - destruct (decide (status_code r = 200)) as [Hs|Hs].
    + rewrite (wait_200 self w ids r rest Hin Hs).
      destruct (read_flag r) as [p'|] eqn:Hp; [|done].
      intros [= -> <-]. by exists r, rest.
    + rewrite (wait_not_200 self w r rest Hin ids Hs).
      by destruct (raise_for_status r).
  - by rewrite (wait_broken self w ids e rest Hin).
Qed.

(** The records the loop hands over are those it started with, if it never
    polled, or those of a complete answer of the script. *)
Lemma poll_returns (self : OmniAPI) (F : json) (fuel : nat) :
  ∀ (rj : list json) (done : bool) (w w' : world) (rj' : list json),
    poll fuel self F rj done w = (Return rj', w') →
    (done = true ∧ rj' = rj) ∨
    ∃ r, Answer r ∈ inbox w ∧ complete r ∧ records r = rj'.
Proof.
  induction fuel as [|fuel IH]; intros rj done w w' rj'.
  - destruct done; simpl; [|done]. intros [= -> _]. by left.
  - destruct done; [rewrite poll_done; intros [= -> _]; by left|].
    destruct (py_getitem F "remaining_job_ids") as [ids|e] eqn:Hids.
    2:{ by rewrite (poll_no_ids self F fuel rj w e Hids). }
    rewrite (poll_unfold self F ids Hids).
    destruct (wait_query_blocking self ids w) as [[[p|]| | |] w1] eqn:Hw;
      try done.
    destruct (wait_returns_some self ids w w1 p Hw)
      as (r & rest & Hin & Hs & Hp & Hrest).
    intros Hpoll. right.
    destruct (IH _ _ _ _ _ Hpoll) as [[Hdone ->]|(r' & Hr' & Hc & Hrec)].
    + exists r. rewrite Hin. split; [apply list_elem_of_here|].
      apply (read_flag_done r p.1 Hs). rewrite Hp, <- Hdone. by destruct p.
    + exists r'. rewrite Hin, <- Hrest. split; [by apply list_elem_of_further|].
      done.
Qed.

Lemma next_containing_found (k : string) (rj : list json) (x : json) :
  py_next_containing k rj = Ok (Some x) → x ∈ rj ∧ py_in_str k x = Ok true.
Proof.
  induction rj as [|y rj IH]; simpl; [done|].
  destruct (py_in_str k y) as [[|]|] eqn:Hy; simpl; [| |done].
  - intros [= ->]. split; [apply list_elem_of_here | done].
  - intros [Hin Hx]%IH. split; [by apply list_elem_of_further | done].
Qed.

(** What the decoding step returns was in one record: an object whose
    ["result"] is a string that decodes to the table, and whose
    [summary.fields] is the metadata. *)
Lemma decode_result_inv `{L : Libraries} (rj : list json) (t : Table)
    (fields : json) :
  decode_result rj = Ok (t, fields) →
  ∃ (d summary : dict) (payload : string) (raw : list Byte.byte),
    JObj d ∈ rj ∧
    dict_get "result" d = Some (JStr payload) ∧
    b64decode payload = Ok raw ∧
    ipc_read_all raw = Ok t ∧
    dict_get "summary" d = Some (JObj summary) ∧
    dict_get "fields" summary = Some fields.
Proof.
  unfold decode_result.
  destruct (py_next_containing "result" rj) as [[x|]|] eqn:Hx; simpl; [|done ..].
  apply next_containing_found in Hx as [Hin _].
  destruct x as [| | | | |d]; simpl; try done.
  destruct (dict_get "result" d) as [v|] eqn:Hres; simpl; [|done].
  destruct v as [| | |payload| |]; simpl; try done.
  destruct (b64decode payload) as [raw|] eqn:Hraw; simpl; [|done].
  destruct (ipc_read_all raw) as [t'|] eqn:Ht; simpl; [|done].
  destruct (dict_get "summary" d) as [sm|] eqn:Hsum; simpl; [|done].
  destruct sm as [| | | | |summary]; simpl; try done.
  destruct (dict_get "fields" summary) as [f|] eqn:Hf; simpl; [|done].
  intros [= -> ->]. by exists d, summary, payload, raw.
Qed.

Section Sound.
Context `{L : Libraries}.
Variables (self : OmniAPI) (body : loc).

(** X6. Whatever the service does, a table and metadata that
    [run_query_blocking] returns come from one record of an answer that
    reported completion: an answer of the script with status 200 and
    [timed_out] equal to ["false"], with a record whose ["result"] decodes
    to that table and whose [summary.fields] is that metadata. Nothing is
    ever returned from an answer that is still pending. *)
Theorem run_query_blocking_result_sound (fuel : nat) (w : world) (t : Table)
    (fields : json) :
  (run_query_blocking fuel self body w).1 = Return (Some (t, fields)) →
  ∃ (r : response) (d summary : dict) (payload : string)
    (raw : list Byte.byte),
    Answer r ∈ inbox w ∧
    complete r ∧
    JObj d ∈ records r ∧
    dict_get "result" d = Some (JStr payload) ∧
    b64decode payload = Ok raw ∧
    ipc_read_all raw = Ok t ∧
    dict_get "summary" d = Some (JObj summary) ∧
    dict_get "fields" summary = Some fields.
Proof.
  destruct (inbox w) as [|[r|e] rest] eqn:Hin.
  - unfold run_query_blocking, requests_post, bind.
    by rewrite (exchange_blocked w _ Hin).
  - destruct (decide (status_code r = 200)) as [Hs|Hs].
    2:{ rewrite (run_not_200 self body fuel w r rest Hin Hs).
        by destruct (raise_for_status r). }
    rewrite (run_200 self body fuel w r rest Hin Hs).
    destruct (read_flag r) as [[rj dn]|] eqn:Hflag; [|done].
    unfold bind. simpl fst. simpl snd.
    destruct (poll fuel self _ rj dn _) as [[rj'| | |] w2] eqn:Hpoll;
      try done.
    rewrite finish_decoded. unfold decoded. simpl.
    destruct (decode_result rj') as [[t' f']|] eqn:Hdec; [|done].
    intros [= -> ->].
    destruct (decode_result_inv rj' t fields Hdec)
      as (d & summary & payload & raw & Hd & Hrest).
    assert (∃ r', Answer r' ∈ Answer r :: rest ∧ complete r' ∧ records r' = rj')
      as (r' & Hr' & Hc & Hrec).
    { destruct (poll_returns _ _ _ _ _ _ _ _ Hpoll)
        as [[-> ->]|(r' & Hr' & Hc & Hrec)].
      - exists r. split; [apply list_elem_of_here|].
        by apply read_flag_done.
      - exists r'. split; [by apply list_elem_of_further | done]. }
    exists r', d, summary, payload, raw. rewrite Hrec. done.
  - unfold run_query_blocking, requests_post, bind.
    by rewrite (exchange_broken w _ e rest Hin).
Qed.

(** X7. [run_query_blocking] returns [None] exactly when the answer to the
    submission has a status that is neither 200 nor a 4xx or 5xx: then it
    neither raises nor returns a result. *)
Theorem run_query_blocking_none_iff (fuel : nat) (w : world) (r : response)
    (rest : list reply) :
  inbox w = Answer r :: rest →
  (run_query_blocking fuel self body w).1 = Return None
  ↔ status_code r ≠ 200 ∧ ¬ (400 <= status_code r < 600).
Proof.
  intros Hin. destruct (decide (status_code r = 200)) as [Hs|Hs].
  - split; [|by intros [? _]].
    rewrite (run_200 self body fuel w r rest Hin Hs).
    destruct (read_flag r) as [[rj dn]|]; [|done].
    unfold bind.
    destruct (poll fuel self _ _ _ _) as [[rj'| | |] w2]; try done.
    rewrite finish_decoded. unfold decoded.
    by destruct (decode_result rj').
  - rewrite (run_not_200 self body fuel w r rest Hin Hs).
    destruct (decide (400 <= status_code r < 600)) as [Herr|Hok].
    + rewrite (raise_for_status_error r Herr). split; [done|]. by intros [_ ?].
    + assert (raise_for_status r = Ok tt) as ->; [|done].
      unfold raise_for_status.
      destruct (Z.leb_spec 400 (status_code r));
        destruct (Z.ltb_spec (status_code r) 600); simpl; try done. lia.
Qed.
End Sound.

(** ** Several result records *)

Lemma next_containing_app (k : string) (pre post : list json) (x : json) :
  Forall (fun y => is_record y = true ∧ has_key k y = false) pre →
  is_record x = true →
  has_key k x = true →
  py_next_containing k (pre ++ x :: post) = Ok (Some x).
Proof.
  intros Hpre Hx Hk. induction Hpre as [|y pre [Hy Hky] _ IH]; simpl.
  - destruct x; try done. simpl in *. by rewrite Hk.
  - destruct y; try done. simpl in *. by rewrite Hky.
Qed.

(** X8. Of several records with a ["result"] the first is the one decoded:
    the records after it are not looked at, whatever they are. *)
Theorem decode_result_first_wins `{L : Libraries} (pre post : list json)
    (d : dict) :
  Forall (fun y => is_record y = true ∧ has_key "result" y = false) pre →
  has_key "result" (JObj d) = true →
  decode_result (pre ++ JObj d :: post) = decode_result [JObj d].
Proof.
  intros Hpre Hd. unfold decode_result.
  rewrite (next_containing_app "result" pre post (JObj d) Hpre eq_refl Hd).
  change [JObj d] with ([] ++ [JObj d]).
  by rewrite (next_containing_app "result" [] [] (JObj d)).
Qed.

Lemma decode_result_first_wins_witness :
  @decode_result demo_libraries
    [footer_running ["j1"]; sample_result;
     JObj [("result", JNum 7)]; footer_done]
  = @decode_result demo_libraries [sample_result].
Proof.
  apply (@decode_result_first_wins demo_libraries [footer_running ["j1"]]
           [JObj [("result", JNum 7)]; footer_done]
           [("result", JStr "AmlkAgECAXYCCQg=");
            ("summary", JObj [("fields", JArr sample_fields)])]); script.
Defined.

(** ** One request per call *)

(** X9. Every call of [wait_query_blocking] issues exactly one request, the
    GET of the wait endpoint with the job handles it was given and the
    client's headers; it reads at most one reply and leaves the store
    alone, whatever the outcome. *)
Theorem wait_query_blocking_one_request (self : OmniAPI) (ids : json)
    (w : world) :
  sent (wait_query_blocking self ids w).2 =
    sent w ++ [GET (base_url self +:+ "/query/wait") [("job_ids", ids)]
                 (headers self)] ∧
  inbox (wait_query_blocking self ids w).2 = tail (inbox w) ∧
  store (wait_query_blocking self ids w).2 = store w.
Proof.
  unfold wait_query_blocking, requests_get, exchange, bind.
  destruct (inbox w) as [|[r|e] rest]; simpl; [done| |done].
  destruct (status_code r =? 200).
  - destruct (text_ndjson r) as [rj|]; simpl; [|done].
    destruct (py_last rj) as [f|]; simpl; [|done].
    destruct (py_getitem f "timed_out"); simpl; done.
  - destruct (raise_for_status r); simpl; done.
Qed.

(** ** The status of the answer to a [create_*] call *)

Section CreateStatus.
Variables (self : OmniAPI) (body : loc) (w : world) (r : response)
  (rest : list reply).
Hypothesis Hin : inbox w = Answer r :: rest.

Lemma post_result (url : string) (w1 : world) :
  inbox w1 = inbox w →
  ((do response <- requests_post url (headers self) body ;;
    lift (text_json response))%py w1).1 =
    match text_json r with Ok v => Return v | Err e => Raise e end.
Proof.
  intros Hin1. unfold bind, requests_post, exchange. rewrite Hin1, Hin.
  by destruct (text_json r).
Qed.

(** X10. The [create_*] helpers do not look at the status of the answer: the
    call returns the parsed body of a 4xx or 5xx answer as it does for a
    success, and the only exception it raises on an answer is the parser's,
    when the body is not JSON. *)
Theorem create_ignores_status
    (connection_id model_id base_view_name view_name field_name : string) :
  let outcome_of_body :=
    match text_json r with Ok v => Return v | Err e => Raise e end in
  (create_model self connection_id body w).1 = outcome_of_body ∧
  (create_topic self model_id base_view_name body w).1 = outcome_of_body ∧
  (create_view self model_id view_name body w).1 = outcome_of_body ∧
  (create_field self model_id view_name field_name body w).1
    = outcome_of_body.
Proof.
  intros o. repeat split.
  - unfold create_model, bind at 1, setitem. by apply post_result.
  - unfold create_topic, bind at 1, setitem. by apply post_result.
  - unfold create_view, bind at 1, setitem. by apply post_result.
  - unfold create_field, bind at 1, setitem. unfold bind at 1.
    by apply post_result.
Qed.
End CreateStatus.

Lemma create_ignores_status_witness :
  (create_model sample_self "conn-1" 1%positive
     (sample_world
        [Answer {| status_code := 500;
                   text_ndjson := Err JSONDecodeError;
                   text_json := Ok (JObj [("error", JStr "boom")]) |}])).1
  = Return (JObj [("error", JStr "boom")]).
Proof.
  exact (proj1 (create_ignores_status sample_self 1%positive
                  (sample_world
                     [Answer {| status_code := 500;
                                text_ndjson := Err JSONDecodeError;
                                text_json := Ok (JObj [("error", JStr "boom")]) |}])
                  {| status_code := 500;
                     text_ndjson := Err JSONDecodeError;
                     text_json := Ok (JObj [("error", JStr "boom")]) |}
                  [] eq_refl "conn-1" "m" "b" "v" "f")).
Defined.

(** ** The traffic of a call *)

(** X11. Whatever the service does, the requests of a call of
    [run_query_blocking] on a client built by [init] are one POST of the
    caller's body to [<base_url>/query/run], followed only by GETs of
    [<base_url>/query/wait] with a [job_ids] parameter; all of them carry
    the bearer token of the client and the JSON content type. *)
Theorem run_query_blocking_traffic `{L : Libraries} (key url : string)
    (body : loc) (fuel : nat) (w : world) :
  ∃ waits : list request,
    sent (run_query_blocking fuel (init key url) body w).2 =
      sent w ++ POST (url +:+ "/query/run") (bearer_headers key)
                  (JObj (deref w body)) :: waits ∧
    Forall (fun q => ∃ ids, q = GET (url +:+ "/query/wait")
                                  [("job_ids", ids)] (bearer_headers key))
      waits.
Proof.
  destruct (inbox w) as [|[r|e] rest] eqn:Hin.
  - exists []. split; [|constructor].
    unfold run_query_blocking, requests_post, bind.
    by rewrite (exchange_blocked w _ Hin).
  - destruct (run_requests (init key url) body fuel w r rest Hin) as (n & ->).
    eexists. split; [reflexivity|].
    apply Forall_replicate. by eexists.
  - exists []. split; [|constructor].
    unfold run_query_blocking, requests_post, bind.
    by rewrite (exchange_broken w _ e rest Hin).
Qed.

(** The properties above on sample scripts. *)

Lemma run_query_blocking_keeps_polling_witness :
  let rs := [ndjson_response 200 [footer_running ["j1"]];
             ndjson_response 200 [footer_running ["j1"]];
             ndjson_response 200 [footer_running ["j1"]]] in
  (@run_query_blocking demo_libraries 3 sample_self 1%positive
     (sample_world (map Answer rs))).1 = Blocked.
Proof.
  intros rs.
  assert (polled rs) as Hp by (unfold rs; script).
  assert (rs ≠ []) as Hne by discriminate.
  assert (length rs ≤ 3)%nat as Hfuel by (simpl; lia).
  rewrite (proj1 (@run_query_blocking_keeps_polling demo_libraries
                    sample_self 1%positive 3 (sample_world (map Answer rs)) rs
                    Hp Hne eq_refl Hfuel)).
  reflexivity.
Defined.

Lemma run_query_blocking_transport_failure_witness :
  (@run_query_blocking demo_libraries 3 sample_self 1%positive
     (sample_world
        [Answer (ndjson_response 200 [footer_running ["j1"]]);
         Broken ConnectionError;
         Answer (ndjson_response 200 [sample_result; footer_done])])).1
  = Raise ConnectionError.
Proof.
  rewrite (@run_query_blocking_transport_failure demo_libraries sample_self
             1%positive 3 _
             [ndjson_response 200 [footer_running ["j1"]]] ConnectionError
             [Answer (ndjson_response 200 [sample_result; footer_done])]);
    script.
Defined.

Lemma run_query_blocking_unreadable_answer_witness :
  (@run_query_blocking demo_libraries 3 sample_self 1%positive
     (sample_world
        [Answer (ndjson_response 200 [footer_running ["j1"]]);
         Answer (ndjson_response 200 [])])).1
  = Raise IndexError.
Proof.
  rewrite (@run_query_blocking_unreadable_answer demo_libraries sample_self
             1%positive 3 _
             [ndjson_response 200 [footer_running ["j1"]]]
             (ndjson_response 200 []) []); script.
Defined.

Lemma run_query_blocking_no_job_ids_witness :
  (@run_query_blocking demo_libraries 3 sample_self 1%positive
     (sample_world
        [Answer (ndjson_response 200 [JObj [("timed_out", JStr "true")]]);
         Answer (ndjson_response 200 [sample_result; footer_done])])).1
  = Raise (KeyError "remaining_job_ids").
Proof.
  rewrite (@run_query_blocking_no_job_ids demo_libraries sample_self
             1%positive 3 _
             (ndjson_response 200 [JObj [("timed_out", JStr "true")]])
             [Answer (ndjson_response 200 [sample_result; footer_done])]);
    script.
Defined.

Lemma run_query_blocking_result_sound_witness :
  ∃ (r : response) (d : dict),
    Answer r ∈ [Answer (ndjson_response 200 [footer_running ["j1"]]);
                Answer (ndjson_response 200 [sample_result; footer_done])] ∧
    complete r ∧ JObj d ∈ records r.
Proof.
  destruct (@run_query_blocking_result_sound demo_libraries sample_self
              1%positive 3
              (sample_world
                 [Answer (ndjson_response 200 [footer_running ["j1"]]);
                  Answer (ndjson_response 200 [sample_result; footer_done])])
              sample_table (JArr sample_fields) eq_refl)
    as (r & d & _ & _ & _ & Hr & Hc & Hd & _).
  by exists r, d.
Defined.

Lemma run_query_blocking_none_iff_witness :
  (@run_query_blocking demo_libraries 3 sample_self 1%positive
     (sample_world [Answer (bare_response 202)])).1 = Return None.
Proof.
  apply (@run_query_blocking_none_iff demo_libraries sample_self 1%positive
           3 (sample_world [Answer (bare_response 202)]) (bare_response 202)
           [] eq_refl).
  simpl. lia.
Defined.

(** * Further properties of [listify] *)

Lemma pieces_chars (sep : ascii) (cs : list ascii) :
  ∀ cur : list ascii,
    Forall (fun p => ∀ c, c ∈ list_ascii_of_string p → c ∈ cur ∨ c ∈ cs)
      (pieces sep cs cur).
Proof.
  induction cs as [|a cs IH]; intros cur; simpl.
  - constructor; [|constructor]. intros c.
    rewrite list_ascii_of_string_of_list_ascii.
    rewrite list_elem_of_In, <- in_rev, <- list_elem_of_In. by left.
  - destruct (Ascii.eqb a sep).
    + constructor.
      * intros c. rewrite list_ascii_of_string_of_list_ascii.
        rewrite list_elem_of_In, <- in_rev, <- list_elem_of_In. by left.
      * eapply Forall_impl; [apply (IH [])|]. simpl. intros p Hp c Hc.
        right. destruct (Hp c Hc) as [H|H]; [by apply elem_of_nil in H|].
        by apply list_elem_of_further.
    + eapply Forall_impl; [apply (IH (a :: cur))|]. simpl. intros p Hp c Hc.
      destruct (Hp c Hc) as [H|H].
      * apply elem_of_cons in H as [->|H]; [right; apply list_elem_of_here|].
        by left.
      * right. by apply list_elem_of_further.
Qed.

(** The items of the list made from a string: none has a bracket or a
    comma in it. *)
Lemma spec_items_clean (s : string) :
  Forall (fun p => ∀ c, c ∈ list_ascii_of_string p →
                        c ≠ "["%char ∧ c ≠ "]"%char ∧ c ≠ ","%char)
    (pieces "," (list_ascii_of_string (without_brackets s)) []).
Proof.
  pose proof (pieces_chars "," (list_ascii_of_string (without_brackets s)) [])
    as Hchars.
  pose proof (pieces_no_sep "," (list_ascii_of_string (without_brackets s)) []
                ltac:(apply not_elem_of_nil)) as Hsep.
  rewrite Forall_forall in Hchars, Hsep. apply Forall_forall.
  intros p Hp c Hc. specialize (Hchars p Hp c Hc). specialize (Hsep p Hp).
  destruct Hchars as [H|H]; [by apply elem_of_nil in H|].
  unfold without_brackets in H.
  rewrite list_ascii_of_string_of_list_ascii in H.
  apply list_elem_of_filter in H as [[Ho Hcl] _].
  repeat split; try done. intros ->. done.
Qed.

Lemma listify_out (d : dict) (out : dict) :
  NoDup (dict_keys d) →
  string_valued d →
  listify d = Ok out →
  out = map (fun kv => (kv.1, listify_spec_value (str_of kv.2))) d.
Proof.
  intros Hnd Hstr. unfold listify.
  rewrite (listify_loop_fresh d [] Hnd Hstr). by intros [= <-].
Qed.

Lemma dict_get_string_valued (d : dict) (k : string) (v : json) :
  string_valued d → dict_get k d = Some v → ∃ s, v = JStr s.
Proof.
  induction 1 as [|[k' v'] d [s Hs] _ IH]; simpl; [done|].
  destruct (String.eqb k k'); [|done]. intros [= <-]. by exists s.
Qed.

(** X12. In what [listify] returns for a dictionary of strings, a list is
    never empty, and no item of a list contains a bracket or a comma. *)
Theorem listify_items_clean (d out : dict) (k : string) (items : list json) :
  NoDup (dict_keys d) →
  string_valued d →
  listify d = Ok out →
  dict_get k out = Some (JArr items) →
  items ≠ [] ∧
  Forall (fun x => ∃ s, x = JStr s ∧
                        ∀ c, c ∈ list_ascii_of_string s →
                             c ≠ "["%char ∧ c ≠ "]"%char ∧ c ≠ ","%char)
    items.
Proof.
  intros Hnd Hstr Hout Hk.
  rewrite (listify_out d out Hnd Hstr Hout) in Hk.
  rewrite (dict_get_map_values (fun v => listify_spec_value (str_of v))) in Hk.
  destruct (dict_get k d) as [v|] eqn:Hv; [|done]. simpl in Hk.
  destruct (dict_get_string_valued d k v Hstr Hv) as [s ->]. simpl in Hk.
  unfold listify_spec_value in Hk.
  destruct (mem_char "[" s && mem_char "]" s); [|done].
  injection Hk as <-. split.
  - pose proof (pieces_nonempty ","
                  (list_ascii_of_string (without_brackets s)) []).
    by destruct (pieces _ _ _).
  - apply Forall_map. eapply Forall_impl; [apply spec_items_clean|].
    intros p Hp. by exists p.
Qed.

Lemma listify_items_clean_witness :
  [JStr "a"; JStr " b"] ≠ [] ∧
  Forall (fun x => ∃ s, x = JStr s ∧
                        ∀ c, c ∈ list_ascii_of_string s →
                             c ≠ "["%char ∧ c ≠ "]"%char ∧ c ≠ ","%char)
    [JStr "a"; JStr " b"].
Proof.
  apply (listify_items_clean
           [("groups", JStr "[a, b]"); ("team", JStr "core")]
           [("groups", JArr [JStr "a"; JStr " b"]); ("team", JStr "core")]
           "groups").
  - apply (bool_decide_unpack _). reflexivity.
  - repeat constructor; simpl; eauto.
  - reflexivity.
  - reflexivity.
Defined.

(** A value that [listify] keeps as it is. *)
Lemma listify_loop_kept (items : list (string * json)) :
  ∀ out : dict,
    NoDup (dict_keys out ++ dict_keys items) →
    Forall (fun kv => listify_value kv.2 = Ok kv.2) items →
    listify_loop items out = Ok (out ++ items).
Proof.
  induction items as [|[k v] items IH]; intros out Hnd Hkept; simpl.
  - by rewrite app_nil_r.
  - inversion Hkept as [|? ? Hv Hkept']; subst. simpl in Hv. rewrite Hv. simpl.
    assert (k ∉ dict_keys out) as Hk.
    { apply NoDup_app in Hnd as (_ & Hdis & _). intros Hin.
      apply (Hdis k Hin). simpl. apply list_elem_of_here. }
    rewrite (dict_set_fresh _ _ _ Hk).
    rewrite IH; [by rewrite <- app_assoc| |done].
    unfold dict_keys in *. rewrite map_app. simpl.
    by rewrite <- app_assoc.
Qed.

Lemma listify_spec_value_kept (s : string) :
  listify_value (listify_spec_value s) = Ok (listify_spec_value s).
Proof.
  unfold listify_spec_value.
  destruct (mem_char "[" s && mem_char "]" s) eqn:Hboth.
  - unfold listify_value. cbn [py_in_str result_bind].
    assert (existsb (fun x => py_eq_str x "[")
              (map JStr (pieces "," (list_ascii_of_string (without_brackets s)) []))
            = false) as ->; [|done].
    apply not_true_is_false. intros Hex.
    apply existsb_exists in Hex as (x & Hx & Heq).
    apply in_map_iff in Hx as (p & <- & Hp).
    simpl in Heq. apply String.eqb_eq in Heq. subst p.
    pose proof (spec_items_clean s) as Hclean.
    rewrite Forall_forall in Hclean.
    apply list_elem_of_In in Hp.
    destruct (Hclean _ Hp "["%char) as [Ho _]; [|done].
    simpl. apply list_elem_of_here.
  - rewrite listify_value_str. unfold listify_spec_value. by rewrite Hboth.
Qed.

(** X13. [listify] is idempotent on dictionaries of strings: applied to its
    own result, it returns that result unchanged. *)
Theorem listify_idempotent (d out : dict) :
  NoDup (dict_keys d) →
  string_valued d →
  listify d = Ok out →
  listify out = Ok out.
Proof.
  intros Hnd Hstr Hout.
  rewrite (listify_out d out Hnd Hstr Hout).
  unfold listify. rewrite listify_loop_kept; [done| |].
  - simpl. unfold dict_keys. by rewrite map_map.
  - apply Forall_map. apply Forall_forall. intros [k v] _. simpl.
    apply listify_spec_value_kept.
Qed.

Lemma listify_idempotent_witness :
  listify [("groups", JArr [JStr "a"; JStr " b"]); ("team", JStr "core")]
  = Ok [("groups", JArr [JStr "a"; JStr " b"]); ("team", JStr "core")].
Proof.
  apply (listify_idempotent
           [("groups", JStr "[a, b]"); ("team", JStr "core")]).
  - apply (bool_decide_unpack _). reflexivity.
  - repeat constructor; simpl; eauto.
  - reflexivity.
Defined.

Lemma listify_loop_strings (pre rest : list (string * json)) :
  ∀ out : dict,
    string_valued pre →
    ∃ out', listify_loop (pre ++ rest) out = listify_loop rest out'.
Proof.
  induction pre as [|[k v] pre IH]; intros out Hstr; simpl; [by eexists|].
  inversion Hstr as [|? ? [s Hs] Hstr']; subst. simpl in Hs. subst v.
  rewrite listify_value_str. simpl. by apply IH.
Qed.

(** X14. A value that is a number, a boolean or [None] makes [listify] raise
    TypeError when the loop reaches it; nothing is returned for the keys
    before it. *)
Theorem listify_rejects_scalar (pre post : list (string * json))
    (k : string) (v : json) :
  string_valued pre →
  match v with JNull | JBool _ | JNum _ => True | _ => False end →
  listify (pre ++ (k, v) :: post) = Err TypeError.
Proof.
  intros Hstr Hv. unfold listify.
  destruct (listify_loop_strings pre ((k, v) :: post) [] Hstr) as [out' ->].
  by destruct v.
Qed.

Lemma listify_rejects_scalar_witness :
  listify [("team", JStr "core"); ("level", JNum 3); ("groups", JStr "[a]")]
  = Err TypeError.
Proof.
  apply (listify_rejects_scalar [("team", JStr "core")]
           [("groups", JStr "[a]")] "level" (JNum 3)).
  - repeat constructor; simpl; eauto.
  - exact I.
Defined.

(** * Properties of the other helpers *)

Module RestFacts.
Import Rest.
Local Open Scope rest_scope.

Lemma rest_after_after (w : state) (a b : list call) (l m : list string)
    (r1 r2 : list reply) :
  rest_after (rest_after w a l r1) b m r2 = rest_after w (a ++ b) (l ++ m) r2.
Proof. unfold rest_after. simpl. by rewrite <- !app_assoc. Qed.

Lemma rest_after_nil (w : state) : rest_after w [] [] (replies w) = w.
Proof. destruct w. unfold rest_after. simpl. by rewrite !app_nil_r. Qed.

Lemma bind_lift_ok {A B} (x : result A) (a : A) (k : A → Act B) (w : state) :
  x = Ok a → act_bind (act_lift x) k w = k a w.
Proof. by intros ->. Qed.

Lemma bind_lift_err {A B} (x : result A) (e : exn) (k : A → Act B)
    (w : state) :
  x = Err e → act_bind (act_lift x) k w = (Raise e, w).
Proof. by intros ->. Qed.

Lemma bind_print {B} (line : string) (k : unit → Act B) (w : state) :
  act_bind (print line) k w = k tt (rest_after w [] [line] (replies w)).
Proof.
  unfold act_bind, print, rest_after. simpl. by rewrite app_nil_r.
Qed.

Lemma print_run (line : string) (w : state) :
  print line w = (Return tt, rest_after w [] [line] (replies w)).
Proof. unfold print, rest_after. by rewrite app_nil_r. Qed.

Lemma bind_exchange_answer {B} (c : call) (k : response → Act B) (w : state)
    (r : response) (rest : list reply) :
  replies w = Answer r :: rest →
  act_bind (perform c) k w = k r (rest_after w [c] [] rest).
Proof.
  intros Hin. unfold act_bind, perform, rest_after. rewrite Hin.
  by rewrite app_nil_r.
Qed.

Lemma exchange_effect (c : call) (w : state) :
  calls (perform c w).2 = calls w ++ [c] ∧
  dicts (perform c w).2 = dicts w ∧
  stdout (perform c w).2 = stdout w ∧
  replies (perform c w).2 = tail (replies w).
Proof. unfold perform. by destruct (replies w) as [|[r|e] rest]. Qed.

Lemma find_user_call (self : OmniAPI) (email : string) :
  find_user_by_email self email = perform (lookup_call self email).
Proof. reflexivity. Qed.

Lemma user_body_payload (attrs : dict) (email displayName : string) :
  JObj (user_body attrs email displayName)
  = user_payload attrs email displayName.
Proof. reflexivity. Qed.

(** Steps of a run: a pure step that succeeds or fails, a print, an exchange
    that is answered. *)
Ltac step_ok H :=
  match goal with
  | |- context [act_bind (act_lift ?x) ?k ?w] => rewrite (bind_lift_ok x _ k w H); cbv beta
  end.

Ltac step_err H :=
  match goal with
  | |- context [act_bind (act_lift ?x) ?k ?w] => rewrite (bind_lift_err x _ k w H); cbv beta
  end.

Ltac step_print :=
  match goal with
  | |- context [act_bind (print ?l) ?k ?w] => rewrite (bind_print l k w); cbv beta
  end.

Ltac step_answer H :=
  match goal with
  | |- context [act_bind (perform ?c) ?k ?w] =>
      rewrite (bind_exchange_answer c k w _ _ H); cbv beta
  end.

Section Upsert.
Context `{F : Formatting}.
Variables (self : OmniAPI) (email displayName : string).
Variables (attributes attrs : dict) (w : state).
Hypothesis Hattrs : listify attributes = Ok attrs.

(** Up to the count of the users found. *)
Lemma upsert_found (lookup : response) (rest : list reply) (users : json)
    (n : nat) :
  replies w = Answer lookup :: rest →
  status_code lookup = 200 →
  resources_of lookup = Ok users →
  py_len users = Ok n →
  upsert_user self email displayName attributes w =
    (if (n =? 1)%nat then
       do user <- act_lift (py_first users) ;;
       do id <- act_lift (py_getitem user "id") ;;
       do update_response <-
         update_user self id (user_body attrs email displayName) ;;
       if status_code update_response =? 200 then
         print ("updated user id " +:+ py_str id)
       else
         print ("Error (" +:+ string_of_Z (status_code update_response)
                  +:+ ") updating user id " +:+ py_str id)
     else if (n =? 0)%nat then
       do creation_response <-
         create_user self (user_body attrs email displayName) ;;
       if status_code creation_response =? 201 then
         do created <- act_lift (text_json creation_response) ;;
         do id <- act_lift (py_getitem created "id") ;;
         print ("Created " +:+ email +:+ ", userid: " +:+ py_str id)
       else
         print ("Error creating " +:+ email +:+ ": "
                  +:+ string_of_Z (status_code creation_response))
     else
       print (string_of_Z (Z.of_nat n) +:+ " found for " +:+ email
                +:+ ", no action taken"))
      (rest_after w [lookup_call self email] [] rest).
Proof.
  intros Hin Hs Hres Hn. unfold upsert_user.
  step_ok Hattrs. rewrite find_user_call. step_answer Hin. rewrite Hs.
  change (200 =? 200) with true. cbv iota.
  unfold resources_of in Hres.
  destruct (text_json lookup) as [found|] eqn:Hfound; [|done]. simpl in Hres.
  step_ok (eq_refl (Ok found)). step_ok Hres. step_ok Hn.
  reflexivity.
Qed.

Lemma put_call_eq (id : json) (d : dict) :
  {| method := Put; url := users_url self +:+ "/" +:+ py_str id;
     hdrs := own_headers self; params := []; payload := Some (JObj d) |}
  = put_user_call self (py_str id) (JObj d).
Proof.
  unfold put_user_call, users_url, own_headers, bearer_headers. f_equal.
  induction (base_url self) as [|c s IH]; [reflexivity|].
  change (String c ((s +:+ "/api/scim/v2/users") +:+ "/" +:+ py_str id)
          = String c (s +:+ "/api/scim/v2/users/" +:+ py_str id)).
  by rewrite IH.
Qed.

(** X15. One user found: [upsert_user] looks the user up, then issues one PUT
    on the URL of the user found, with the attributes as [listify] returns
    them, the user name and the display name; it prints one line that
    tells whether the PUT was answered with 200, and returns. Another
    status of the PUT is printed, not raised. *)
Theorem upsert_user_updates_the_match (lookup update : response)
    (rest : list reply) (user id : json) :
  replies w = Answer lookup :: Answer update :: rest →
  status_code lookup = 200 →
  resources_of lookup = Ok (JArr [user]) →
  py_getitem user "id" = Ok id →
  upsert_user self email displayName attributes w =
    (Return tt,
     rest_after w
       [lookup_call self email;
        put_user_call self (py_str id)
          (user_payload attrs email displayName)]
       [if status_code update =? 200
        then "updated user id " +:+ py_str id
        else "Error (" +:+ string_of_Z (status_code update)
               +:+ ") updating user id " +:+ py_str id]
       rest).
Proof.
  intros Hin Hs Hres Hid.
  rewrite (upsert_found lookup (Answer update :: rest) (JArr [user]) 1
             Hin Hs Hres eq_refl).
  cbn [Nat.eqb]. step_ok (eq_refl (Ok user)). step_ok Hid.
  unfold update_user, send_dict.
  step_answer (eq_refl (Answer update :: rest)).
  rewrite put_call_eq, user_body_payload.
  destruct (status_code update =? 200);
    by rewrite print_run, !rest_after_after.
Qed.

(** X16. No user found: [upsert_user] looks the user up, then issues one POST
    on the collection with the same body. A 201 whose body has an ["id"] is
    reported by a "Created" line; another status is printed, not raised. *)
Theorem upsert_user_creates_the_absent (lookup creation : response)
    (rest : list reply) :
  replies w = Answer lookup :: Answer creation :: rest →
  status_code lookup = 200 →
  resources_of lookup = Ok (JArr []) →
  (status_code creation = 201 →
   ∃ created id, text_json creation = Ok created ∧
                 py_getitem created "id" = Ok id) →
  ∃ line : string,
    upsert_user self email displayName attributes w =
      (Return tt,
       rest_after w
         [lookup_call self email;
          post_user_call self (user_payload attrs email displayName)]
         [line] rest) ∧
    (status_code creation ≠ 201 →
     line = "Error creating " +:+ email +:+ ": "
              +:+ string_of_Z (status_code creation)) ∧
    (∀ created id,
       status_code creation = 201 →
       text_json creation = Ok created →
       py_getitem created "id" = Ok id →
       line = "Created " +:+ email +:+ ", userid: " +:+ py_str id).
Proof.
  intros Hin Hs Hres Hcreated.
  rewrite (upsert_found lookup (Answer creation :: rest) (JArr []) 0
             Hin Hs Hres eq_refl).
  cbn [Nat.eqb]. unfold create_user, send_dict.
  step_answer (eq_refl (Answer creation :: rest)).
  rewrite user_body_payload.
  change {| method := Post; url := users_url self; hdrs := own_headers self;
            params := []; payload := Some (user_payload attrs email displayName) |}
    with (post_user_call self (user_payload attrs email displayName)).
  destruct (Z.eqb_spec (status_code creation) 201) as [H201|Hnot].
  - destruct (Hcreated H201) as (created & id & Hc & Hid).
    step_ok Hc. step_ok Hid.
    exists ("Created " +:+ email +:+ ", userid: " +:+ py_str id).
    split; [|split].
    + by rewrite print_run, !rest_after_after.
    + done.
    + intros created' id' _ Hc' Hid'. congruence.
  - eexists. split; [|split].
    + by rewrite print_run, !rest_after_after.
    + done.
    + done.
Qed.

(** X17. A 201 answer to the POST whose body has no ["id"]: the user has been
    created, and [upsert_user] raises KeyError while it builds the line to
    print. *)
Theorem upsert_user_created_without_id (lookup creation : response)
    (rest : list reply) (d : dict) :
  replies w = Answer lookup :: Answer creation :: rest →
  status_code lookup = 200 →
  resources_of lookup = Ok (JArr []) →
  status_code creation = 201 →
  text_json creation = Ok (JObj d) →
  dict_get "id" d = None →
  upsert_user self email displayName attributes w =
    (Raise (KeyError "id"),
     rest_after w
       [lookup_call self email;
        post_user_call self (user_payload attrs email displayName)]
       [] rest).
Proof.
  intros Hin Hs Hres H201 Hbody Hid.
  rewrite (upsert_found lookup (Answer creation :: rest) (JArr []) 0
             Hin Hs Hres eq_refl).
  cbn [Nat.eqb]. unfold create_user, send_dict.
  step_answer (eq_refl (Answer creation :: rest)).
  rewrite user_body_payload, H201. change (201 =? 201) with true. cbv iota.
  step_ok Hbody.
  assert (py_getitem (JObj d) "id" = Err (KeyError "id")) as Herr.
  { simpl. by rewrite Hid. }
  step_err Herr. by rewrite !rest_after_after.
Qed.

(** X18. Several users found: [upsert_user] writes nothing to the service. Its
    only call is the lookup; it prints how many users it found and
    returns. *)
Theorem upsert_user_ambiguous (lookup : response) (rest : list reply)
    (users : list json) :
  replies w = Answer lookup :: rest →
  status_code lookup = 200 →
  resources_of lookup = Ok (JArr users) →
  (2 ≤ length users)%nat →
  upsert_user self email displayName attributes w =
    (Return tt,
     rest_after w [lookup_call self email]
       [string_of_Z (Z.of_nat (length users)) +:+ " found for " +:+ email
          +:+ ", no action taken"]
       rest).
Proof.
  intros Hin Hs Hres Hlen.
  rewrite (upsert_found lookup rest (JArr users) (length users)
             Hin Hs Hres eq_refl).
  destruct (length users) as [|[|n]] eqn:Hn; [lia..|].
  cbn [Nat.eqb]. by rewrite print_run, !rest_after_after.
Qed.

(** X19. A lookup answered with another status than 200: [upsert_user] stops
    there. It returns without raising, without printing and without any
    other call. *)
Theorem upsert_user_lookup_not_200 (lookup : response) (rest : list reply) :
  replies w = Answer lookup :: rest →
  status_code lookup ≠ 200 →
  upsert_user self email displayName attributes w =
    (Return tt, rest_after w [lookup_call self email] [] rest).
Proof.
  intros Hin Hs. unfold upsert_user.
  step_ok Hattrs. rewrite find_user_call. step_answer Hin.
  apply Z.eqb_neq in Hs. by rewrite Hs.
Qed.
End Upsert.

Lemma upsert_user_updates_the_match_witness :
  (@upsert_user demo_formatting sample_self "ann@example.com" "Ann"
     sample_attributes
     (rest_world [Answer (found_users [sample_user "u-17"]);
                  Answer (json_response 500 JNull)])).2
  = rest_after (rest_world [])
      [lookup_call sample_self "ann@example.com";
       put_user_call sample_self "u-17"
         (user_payload [("groups", JArr [JStr "a"; JStr " b"]);
                        ("team", JStr "core")]
            "ann@example.com" "Ann")]
      ["Error (500) updating user id u-17"] [].
Proof.
  rewrite (@upsert_user_updates_the_match demo_formatting sample_self
             "ann@example.com" "Ann" sample_attributes
             [("groups", JArr [JStr "a"; JStr " b"]); ("team", JStr "core")]
             _ eq_refl
             (found_users [sample_user "u-17"]) (json_response 500 JNull) []
             (sample_user "u-17") (JStr "u-17")); reflexivity.
Defined.

Lemma upsert_user_creates_the_absent_witness :
  ∃ line : string,
    @upsert_user demo_formatting sample_self "ann@example.com" "Ann"
      sample_attributes
      (rest_world [Answer (found_users []);
                   Answer (json_response 201 (sample_user "u-18"))])
    = (Return tt,
       rest_after
         (rest_world [Answer (found_users []);
                      Answer (json_response 201 (sample_user "u-18"))])
         [lookup_call sample_self "ann@example.com";
          post_user_call sample_self
            (user_payload [("groups", JArr [JStr "a"; JStr " b"]);
                           ("team", JStr "core")]
               "ann@example.com" "Ann")]
         [line] []).
Proof.
  destruct (@upsert_user_creates_the_absent demo_formatting sample_self
              "ann@example.com" "Ann" sample_attributes
              [("groups", JArr [JStr "a"; JStr " b"]); ("team", JStr "core")]
              (rest_world [Answer (found_users []);
                           Answer (json_response 201 (sample_user "u-18"))])
              eq_refl
              (found_users []) (json_response 201 (sample_user "u-18")) []
              eq_refl eq_refl eq_refl) as (line & Hrun & _).
  - intros _. by exists (sample_user "u-18"), (JStr "u-18").
  - by exists line.
Defined.

Lemma upsert_user_created_without_id_witness :
  (@upsert_user demo_formatting sample_self "ann@example.com" "Ann"
     sample_attributes
     (rest_world [Answer (found_users []);
                  Answer (json_response 201 (JObj [("ok", JBool true)]))])).1
  = Raise (KeyError "id").
Proof.
  rewrite (@upsert_user_created_without_id demo_formatting sample_self
             "ann@example.com" "Ann" sample_attributes
             [("groups", JArr [JStr "a"; JStr " b"]); ("team", JStr "core")]
             _ eq_refl
             (found_users []) (json_response 201 (JObj [("ok", JBool true)]))
             [] [("ok", JBool true)]); reflexivity.
Defined.

Lemma upsert_user_ambiguous_witness :
  (@upsert_user demo_formatting sample_self "ann@example.com" "Ann"
     sample_attributes
     (rest_world [Answer (found_users [sample_user "u-17"; sample_user "u-18"]);
                  Answer (json_response 200 JNull)])).2
  = rest_after (rest_world [])
      [lookup_call sample_self "ann@example.com"]
      ["2 found for ann@example.com, no action taken"]
      [Answer (json_response 200 JNull)].
Proof.
  rewrite (@upsert_user_ambiguous demo_formatting sample_self
             "ann@example.com" "Ann" sample_attributes
             [("groups", JArr [JStr "a"; JStr " b"]); ("team", JStr "core")]
             _ eq_refl
             (found_users [sample_user "u-17"; sample_user "u-18"])
             [Answer (json_response 200 JNull)]
             [sample_user "u-17"; sample_user "u-18"]);
    [reflexivity..|simpl; lia].
Defined.

Lemma upsert_user_lookup_not_200_witness :
  @upsert_user demo_formatting sample_self "ann@example.com" "Ann"
    sample_attributes (rest_world [Answer (bare_response 503)])
  = (Return tt,
     rest_after (rest_world [Answer (bare_response 503)])
       [lookup_call sample_self "ann@example.com"] [] []).
Proof.
  apply (@upsert_user_lookup_not_200 demo_formatting sample_self
           "ann@example.com" "Ann" sample_attributes
           [("groups", JArr [JStr "a"; JStr " b"]); ("team", JStr "core")]
           _ eq_refl (bare_response 503) []); [reflexivity|].
  simpl. lia.
Defined.

(** X20. Attributes that [listify] rejects: [upsert_user] raises the error of
    [listify] before it contacts the service. *)
Theorem upsert_user_bad_attributes `{F : Formatting} (self : OmniAPI)
    (email displayName : string) (attributes : dict) (e : exn) (w : state) :
  listify attributes = Err e →
  upsert_user self email displayName attributes w = (Raise e, w).
Proof. intros Herr. unfold upsert_user. by step_err Herr. Qed.

Lemma upsert_user_bad_attributes_witness :
  @upsert_user demo_formatting sample_self "ann@example.com" "Ann"
    [("team", JStr "core"); ("level", JNum 3)]
    (rest_world [Answer (found_users [])])
  = (Raise TypeError, rest_world [Answer (found_users [])]).
Proof.
  apply (@upsert_user_bad_attributes demo_formatting). reflexivity.
Defined.

Section Delete.
Context `{F : Formatting}.
Variables (self : OmniAPI) (email : string) (w : state).

Lemma delete_call_eq (id : json) :
  {| method := Delete; url := users_url self +:+ "/" +:+ py_str id;
     hdrs := own_headers self; params := []; payload := None |}
  = delete_user_call self (py_str id).
Proof.
  unfold delete_user_call, users_url, own_headers, bearer_headers. f_equal.
  induction (base_url self) as [|c s IH]; [reflexivity|].
  change (String c ((s +:+ "/api/scim/v2/users") +:+ "/" +:+ py_str id)
          = String c (s +:+ "/api/scim/v2/users/" +:+ py_str id)).
  by rewrite IH.
Qed.

(** Up to the count of the users found. The status of the lookup is not
    looked at. *)
Lemma delete_found (lookup : response) (rest : list reply) (users : json)
    (n : nat) :
  replies w = Answer lookup :: rest →
  resources_of lookup = Ok users →
  py_len users = Ok n →
  delete_user self email w =
    (if (n =? 1)%nat then
       do user <- act_lift (py_first users) ;;
       do id <- act_lift (py_getitem user "id") ;;
       do response <- delete_user_by_id self id ;;
       if status_code response =? 204 then
         do _ <- print ("deleted userid: " +:+ py_str id +:+ " email: "
                          +:+ email) ;;
         act_ret (Some response)
       else act_ret None
     else if (1 <? n)%nat then
       do _ <- print "found too many users for email {email}: " ;;
       do items <- act_lift (py_iter users) ;;
       do _ <- print_ids items ;;
       act_ret None
     else
       do _ <- print ("user " +:+ email +:+ " not found") ;;
       act_ret None)
      (rest_after w [lookup_call self email] [] rest).
Proof.
  intros Hin Hres Hn. unfold delete_user.
  rewrite find_user_call. step_answer Hin.
  unfold resources_of in Hres.
  destruct (text_json lookup) as [found|] eqn:Hfound; [|done]. simpl in Hres.
  step_ok (eq_refl (Ok found)). step_ok Hres. step_ok Hn.
  reflexivity.
Qed.

(** X22. One user found: [delete_user] issues one DELETE on the URL of that
    user. It returns the response of the DELETE, and prints a line, only
    when the status is 204; with any other status it returns [None],
    prints nothing and raises nothing. *)
Theorem delete_user_deletes_the_match (lookup response : response)
    (rest : list reply) (user id : json) :
  replies w = Answer lookup :: Answer response :: rest →
  resources_of lookup = Ok (JArr [user]) →
  py_getitem user "id" = Ok id →
  delete_user self email w =
    (Return (if status_code response =? 204 then Some response else None),
     rest_after w
       [lookup_call self email; delete_user_call self (py_str id)]
       (if status_code response =? 204
        then ["deleted userid: " +:+ py_str id +:+ " email: " +:+ email]
        else [])
       rest).
Proof.
  intros Hin Hres Hid.
  rewrite (delete_found lookup (Answer response :: rest) (JArr [user]) 1
             Hin Hres eq_refl).
  cbn [Nat.eqb]. step_ok (eq_refl (Ok user)). step_ok Hid.
  unfold delete_user_by_id, send.
  step_answer (eq_refl (Answer response :: rest)).
  rewrite delete_call_eq.
  destruct (status_code response =? 204).
  - step_print. unfold act_ret. by rewrite !rest_after_after.
  - unfold act_ret. by rewrite !rest_after_after.
Qed.

Lemma print_ids_run (users ids : list json) (w1 : state) :
  Forall2 (fun u id => py_getitem u "id" = Ok id) users ids →
  print_ids users w1 =
    (Return tt, rest_after w1 [] (map py_str ids) (replies w1)).
Proof.
  intros Hids. revert w1.
  induction Hids as [|u id users ids Hu _ IH]; intros w1.
  - simpl. unfold act_ret. by rewrite rest_after_nil.
  - cbn [print_ids]. step_ok Hu. step_print.
    rewrite IH, rest_after_after. done.
Qed.

(** X23. Several users found: [delete_user] deletes nothing. Its only call is
    the lookup; it prints a fixed first line, in which the email does not
    appear (the text has the placeholder [{email}] as it is written), then
    the id of each user found, and returns [None]. *)
Theorem delete_user_ambiguous (lookup : response) (rest : list reply)
    (users ids : list json) :
  replies w = Answer lookup :: rest →
  resources_of lookup = Ok (JArr users) →
  (2 ≤ length users)%nat →
  Forall2 (fun u id => py_getitem u "id" = Ok id) users ids →
  delete_user self email w =
    (Return None,
     rest_after w [lookup_call self email]
       ("found too many users for email {email}: " :: map py_str ids)
       rest).
Proof.
  intros Hin Hres Hlen Hids.
  rewrite (delete_found lookup rest (JArr users) (length users)
             Hin Hres eq_refl).
  destruct (length users) as [|[|n]] eqn:Hn; [lia..|].
  cbn [Nat.eqb Nat.ltb Nat.leb]. step_print.
  step_ok (eq_refl (Ok users)).
  unfold act_bind at 1. rewrite (print_ids_run users ids _ Hids).
  unfold act_ret. by rewrite !rest_after_after.
Qed.

(** X24. No user found: [delete_user] deletes nothing, prints that the user
    was not found and returns [None]. *)
Theorem delete_user_absent (lookup : response) (rest : list reply) :
  replies w = Answer lookup :: rest →
  resources_of lookup = Ok (JArr []) →
  delete_user self email w =
    (Return None,
     rest_after w [lookup_call self email]
       ["user " +:+ email +:+ " not found"] rest).
Proof.
  intros Hin Hres.
  rewrite (delete_found lookup rest (JArr []) 0 Hin Hres eq_refl).
  cbn [Nat.eqb Nat.ltb Nat.leb]. step_print.
  unfold act_ret. by rewrite !rest_after_after.
Qed.
End Delete.

Lemma delete_user_deletes_the_match_witness :
  (@delete_user demo_formatting sample_self "ann@example.com"
     (rest_world [Answer (found_users [sample_user "u-17"]);
                  Answer (bare_response 404)])).1
  = Return None.
Proof.
  rewrite (@delete_user_deletes_the_match demo_formatting sample_self
             "ann@example.com" _
             (found_users [sample_user "u-17"]) (bare_response 404) []
             (sample_user "u-17") (JStr "u-17")); reflexivity.
Defined.

Lemma delete_user_ambiguous_witness :
  (@delete_user demo_formatting sample_self "ann@example.com"
     (rest_world
        [Answer (found_users [sample_user "u-17"; sample_user "u-18"])])).2
  = rest_after (rest_world [])
      [lookup_call sample_self "ann@example.com"]
      ["found too many users for email {email}: "; "u-17"; "u-18"] [].
Proof.
  rewrite (@delete_user_ambiguous demo_formatting sample_self
             "ann@example.com" _
             (found_users [sample_user "u-17"; sample_user "u-18"]) []
             [sample_user "u-17"; sample_user "u-18"]
             [JStr "u-17"; JStr "u-18"]);
    [reflexivity | reflexivity | reflexivity | simpl; lia
    | repeat constructor].
Defined.

Lemma delete_user_absent_witness :
  (@delete_user demo_formatting sample_self "ann@example.com"
     (rest_world [Answer (found_users [])])).2
  = rest_after (rest_world [])
      [lookup_call sample_self "ann@example.com"]
      ["user ann@example.com not found"] [].
Proof.
  rewrite (@delete_user_absent demo_formatting sample_self
             "ann@example.com" _ (found_users []) []); reflexivity.
Defined.
End RestFacts.

Module RestInvariants.
Import Rest.
Local Open Scope rest_scope.

(** Printing the ids sends nothing and keeps the store. *)
Lemma print_ids_effect `{F : Formatting} (users : list json) (w : state) :
  calls (print_ids users w).2 = calls w ∧ dicts (print_ids users w).2 = dicts w.
Proof.
  revert w. induction users as [|u users IH]; intros w; [done|].
  cbn [print_ids]. unfold act_bind, act_lift.
  destruct (py_getitem u "id") as [id|e]; [|done]. simpl.
  destruct (IH {| dicts := dicts w; replies := replies w; calls := calls w;
                  stdout := stdout w ++ [py_str id] |}) as [Hs Hst].
  destruct (print_ids users _) as [[[]| | |] w']; simpl in *; done.
Qed.

(** Closes a leaf of the case analysis of a helper: the calls are the lookup
    and at most one more. *)
Ltac leaf good :=
  unfold good; simpl; rewrite <- ?app_assoc; simpl;
  split; [done|]; eexists; split; [reflexivity|]; eauto.

(** X21. Whatever the service answers, [upsert_user] never writes to the
    caller's dictionaries, and its calls are the lookup followed by at most
    one write, a POST on the collection or a PUT on one user, whose body
    holds the attributes as [listify] returns them, the user name and the
    display name. It never issues a DELETE or a PATCH. *)
Theorem upsert_user_calls `{F : Formatting} (self : OmniAPI)
    (email displayName : string) (attributes attrs : dict) (w : state) :
  listify attributes = Ok attrs →
  dicts (upsert_user self email displayName attributes w).2 = dicts w ∧
  ∃ tl : list call,
    calls (upsert_user self email displayName attributes w).2 =
      calls w ++ lookup_call self email :: tl ∧
    (tl = [] ∨
     tl = [post_user_call self (user_payload attrs email displayName)] ∨
     ∃ id, tl = [put_user_call self id
                   (user_payload attrs email displayName)]).
Proof.
  intros Hattrs.
  set (good := fun w' : state =>
    dicts w' = dicts w ∧
    ∃ tl : list call,
      calls w' = calls w ++ lookup_call self email :: tl ∧
      (tl = [] ∨
       tl = [post_user_call self (user_payload attrs email displayName)] ∨
       ∃ id, tl = [put_user_call self id
                     (user_payload attrs email displayName)])).
  change (good (upsert_user self email displayName attributes w).2).
  unfold upsert_user.
  rewrite (RestFacts.bind_lift_ok _ attrs _ w Hattrs).
  rewrite RestFacts.find_user_call.
  unfold act_bind at 1, perform.
  destruct (replies w) as [|[lookup|e] rest]; [leaf good| |leaf good].
  destruct (status_code lookup =? 200); [|leaf good].
  unfold act_bind at 1, act_lift. destruct (text_json lookup) as [found|]; [|leaf good].
  unfold act_ret at 1. unfold act_bind at 1.
  destruct (py_getitem found "Resources") as [users|]; [|leaf good].
  unfold act_ret at 1. unfold act_bind at 1.
  destruct (py_len users) as [n|]; [|leaf good].
  unfold act_ret at 1.
  destruct (n =? 1)%nat; [|destruct (n =? 0)%nat].
  - unfold act_bind at 1. destruct (py_first users) as [user|]; [|leaf good].
    unfold act_ret at 1. unfold act_bind at 1.
    destruct (py_getitem user "id") as [id|]; [|leaf good].
    unfold act_ret at 1. unfold update_user, send_dict.
    rewrite RestFacts.put_call_eq, RestFacts.user_body_payload.
    unfold act_bind, perform. cbn [replies calls dicts stdout].
    destruct rest as [|[r|e] rest]; [leaf good| |leaf good].
    destruct (status_code r =? 200); unfold print; leaf good.
  - unfold create_user, send_dict. rewrite RestFacts.user_body_payload.
    change {| method := Post; url := users_url self;
              hdrs := own_headers self; params := [];
              payload := Some (user_payload attrs email displayName) |}
      with (post_user_call self (user_payload attrs email displayName)).
    unfold act_bind at 1, perform. cbn [replies calls dicts stdout].
    destruct rest as [|[r|e] rest]; [leaf good| |leaf good].
    destruct (status_code r =? 201); [|unfold print; leaf good].
    unfold act_bind at 1. destruct (text_json r) as [created|]; [|leaf good].
    unfold act_ret at 1. unfold act_bind at 1.
    destruct (py_getitem created "id") as [id|]; [|leaf good].
    unfold print; leaf good.
  - unfold print; leaf good.
Qed.

(** X25. Whatever the service answers, [delete_user] issues the lookup and at
    most one DELETE, and a DELETE only for the one user of a lookup that
    found exactly one; it writes to no dictionary of the caller. *)
Theorem delete_user_calls `{F : Formatting} (self : OmniAPI)
    (email : string) (w : state) :
  dicts (delete_user self email w).2 = dicts w ∧
  ∃ tl : list call,
    calls (delete_user self email w).2 =
      calls w ++ lookup_call self email :: tl ∧
    (tl = [] ∨
     ∃ (lookup : response) (rest : list reply) (users user id : json),
       replies w = Answer lookup :: rest ∧
       resources_of lookup = Ok users ∧
       py_len users = Ok 1%nat ∧
       py_first users = Ok user ∧
       py_getitem user "id" = Ok id ∧
       tl = [delete_user_call self (py_str id)]).
Proof.
  set (good := fun w' : state =>
    dicts w' = dicts w ∧
    ∃ tl : list call,
      calls w' = calls w ++ lookup_call self email :: tl ∧
      (tl = [] ∨
       ∃ (lookup : response) (rest : list reply) (users user id : json),
         replies w = Answer lookup :: rest ∧
         resources_of lookup = Ok users ∧
         py_len users = Ok 1%nat ∧
         py_first users = Ok user ∧
         py_getitem user "id" = Ok id ∧
         tl = [delete_user_call self (py_str id)])).
  change (good (delete_user self email w).2).
  unfold delete_user. rewrite RestFacts.find_user_call.
  unfold act_bind at 1, perform.
  destruct (replies w) as [|[lookup|e] rest] eqn:Hin;
    [leaf good| |leaf good].
  unfold act_bind at 1, act_lift.
  destruct (text_json lookup) as [found|] eqn:Hfound; [|leaf good].
  unfold act_ret at 1. unfold act_bind at 1.
  destruct (py_getitem found "Resources") as [users|] eqn:Hres; [|leaf good].
  unfold act_ret at 1. unfold act_bind at 1.
  destruct (py_len users) as [n|] eqn:Hn; [|leaf good].
  unfold act_ret at 1.
  assert (resources_of lookup = Ok users) as Hresources.
  { unfold resources_of. by rewrite Hfound. }
  destruct (Nat.eqb_spec n 1) as [->|Hn1]; [|destruct (1 <? n)%nat].
  - unfold act_bind at 1. destruct (py_first users) as [user|] eqn:Hu;
      [|leaf good].
    unfold act_ret at 1. unfold act_bind at 1.
    destruct (py_getitem user "id") as [id|] eqn:Hid; [|leaf good].
    unfold act_ret at 1. unfold delete_user_by_id, send.
    rewrite RestFacts.delete_call_eq.
    assert (∀ w', dicts w' = dicts w →
              calls w' = (calls w ++ [lookup_call self email])
                          ++ [delete_user_call self (py_str id)] →
              good w') as Hgood.
    { intros w' Hst Hse. split; [done|]. eexists. split.
      - rewrite Hse, <- app_assoc. reflexivity.
      - right. by exists lookup, rest, users, user, id. }
    unfold act_bind, perform. cbn [replies calls dicts stdout].
    destruct rest as [|[r|e] rest']; [by apply Hgood| |by apply Hgood].
    destruct (status_code r =? 204); by apply Hgood.
  - unfold act_bind at 1, print. unfold act_bind at 1.
    destruct (py_iter users) as [items|]; [|leaf good].
    unfold act_ret at 1. unfold act_bind.
    match goal with
    | |- context [print_ids items ?w1] =>
        destruct (print_ids_effect items w1) as [Hs Hst];
        destruct (print_ids items w1) as [[[]| | |] w2]
    end; simpl in *; unfold good; rewrite Hs, Hst; simpl;
      (split; [done|]; eexists; split; [reflexivity|]; by left).
  - unfold act_bind, print. leaf good.
Qed.

(** X26. A response that [delete_user] returns is the answer to its DELETE
    and has status 204: every other course of the call returns [None] or
    raises. *)
Theorem delete_user_returns_only_204 `{F : Formatting} (self : OmniAPI)
    (email : string) (w : state) (response : response) :
  (delete_user self email w).1 = Return (Some response) →
  status_code response = 204 ∧
  ∃ lookup rest, replies w = Answer lookup :: Answer response :: rest.
Proof.
  unfold delete_user. rewrite RestFacts.find_user_call.
  unfold act_bind at 1, perform.
  destruct (replies w) as [|[lookup|e] rest] eqn:Hin; [done| |done].
  unfold act_bind at 1, act_lift.
  destruct (text_json lookup) as [found|]; [|done].
  unfold act_ret at 1. unfold act_bind at 1.
  destruct (py_getitem found "Resources") as [users|]; [|done].
  unfold act_ret at 1. unfold act_bind at 1.
  destruct (py_len users) as [n|]; [|done].
  unfold act_ret at 1.
  destruct (n =? 1)%nat; [|destruct (1 <? n)%nat].
  - unfold act_bind at 1. destruct (py_first users) as [user|]; [|done].
    unfold act_ret at 1. unfold act_bind at 1.
    destruct (py_getitem user "id") as [id|]; [|done].
    unfold act_ret at 1. unfold delete_user_by_id, send.
    unfold act_bind, perform. cbn [replies calls dicts stdout].
    destruct rest as [|[r|e] rest']; [done| |done].
    destruct (Z.eqb_spec (status_code r) 204) as [H204|]; [|done].
    simpl. intros [= <-]. split; [done|]. by exists lookup, rest'.
  - unfold act_bind at 1, print. unfold act_bind at 1.
    destruct (py_iter users) as [items|]; [|done].
    unfold act_ret at 1. unfold act_bind.
    by destruct (print_ids items _) as [[[]| | |] w2].
  - unfold act_bind, print. done.
Qed.

(** ** Topics, views and fields *)

(** X27. [update_view] writes the name of the view it addresses into the
    caller's dictionary, over any ["viewName"] that was there, and sends the
    dictionary so changed: the view named in the body of the PATCH is always
    the view of its URL, and the caller's dictionary keeps the change
    whatever the service answers. *)
Theorem update_view_names_the_view (self : OmniAPI)
    (model_id view_name : string) (body : loc) (w : state) :
  let d' := dict_set "viewName" (JStr view_name) (load w body) in
  dicts (update_view self model_id view_name body w).2 =
    <[body := d']> (dicts w) ∧
  calls (update_view self model_id view_name body w).2 =
    calls w ++ [{| method := Patch;
                  url := view_url self model_id view_name;
                  hdrs := headers self; params := [];
                  payload := Some (JObj d') |}] ∧
  dict_get "viewName" d' = Some (JStr view_name).
Proof.
  intros d'. split; [|split]; [| |apply dict_get_set_eq].
  - unfold update_view, act_bind, store_item, send_body, perform.
    cbn [replies calls dicts stdout].
    destruct (replies w) as [|[r|e] rest]; [done| |done].
    by destruct (text_json r).
  - unfold update_view, act_bind, store_item, send_body, perform, load.
    cbn [replies calls dicts stdout]. rewrite lookup_insert_eq.
    destruct (replies w) as [|[r|e] rest]; [done| |done].
    by destruct (text_json r).
Qed.

(** X28. [update_topic] and [update_field] send the caller's dictionary as it
    is, in one PATCH on the URL of the topic or the field, and write
    nothing into it: unlike [update_view] and the [create_*] helpers, they
    leave every dictionary of the caller as it was. *)
Theorem update_sends_body_as_is (self : OmniAPI)
    (model_id topic_name view_name field_name : string) (body : loc)
    (w : state) :
  (dicts (update_topic self model_id topic_name body w).2 = dicts w ∧
   calls (update_topic self model_id topic_name body w).2 =
     calls w ++ [{| method := Patch;
                   url := topic_url self model_id topic_name;
                   hdrs := headers self; params := [];
                   payload := Some (JObj (load w body)) |}]) ∧
  (dicts (update_field self model_id view_name field_name body w).2
     = dicts w ∧
   calls (update_field self model_id view_name field_name body w).2 =
     calls w ++ [{| method := Patch;
                   url := field_url self model_id view_name field_name;
                   hdrs := headers self; params := [];
                   payload := Some (JObj (load w body)) |}]).
Proof.
  split; split;
    unfold update_topic, update_field, act_bind, send_body, perform;
    (destruct (replies w) as [|[r|e] rest]; [done| |done]);
    by destruct (text_json r).
Qed.

Lemma upsert_user_calls_witness :
  ∃ tl : list call,
    calls (@upsert_user demo_formatting sample_self "ann@example.com" "Ann"
            sample_attributes
            (rest_world [Answer (found_users [sample_user "u-17"])])).2
    = [lookup_call sample_self "ann@example.com"] ++ tl.
Proof.
  destruct (@upsert_user_calls demo_formatting sample_self "ann@example.com"
              "Ann" sample_attributes
              [("groups", JArr [JStr "a"; JStr " b"]); ("team", JStr "core")]
              (rest_world [Answer (found_users [sample_user "u-17"])])
              eq_refl) as (_ & tl & Htl & _).
  by exists tl.
Defined.

Lemma delete_user_returns_only_204_witness :
  status_code (json_response 204 JNull) = 204.
Proof.
  apply (@delete_user_returns_only_204 demo_formatting sample_self
           "ann@example.com"
           (rest_world [Answer (found_users [sample_user "u-17"]);
                        Answer (json_response 204 JNull)])
           (json_response 204 JNull) eq_refl).
Defined.
End RestInvariants.
